(** * The real-time delivery core of the messaging micro-service

    A shallow embedding of
      - [app/websockets/manager.py]   (class [ConnectionManager]),
      - [app/services/message_service.py],
      - the endpoints of [app/routers/messages.py],
      - the tables and constraints of [app/models.py],
    followed by the properties of presence tracking and message routing.

    Python effects are kept explicit.  A computation is a function from
    the state of the process (registry, database, scheduled tasks, and the
    trace of everything that left the process) to a result and a new
    state; a raised exception keeps the state reached so far, the way a
    Python exception leaves earlier mutations in place.

    Requests do not interleave: every coroutine is run to completion.
    A task handed to [asyncio.create_task] waits in the queue of the
    state; when the coroutine that scheduled it is suspended again in an
    [await] before it returns, as [send_message] is after its pushes,
    the task runs there, and it runs to completion as well.  The claims
    below are about one call at a time. *)

From Stdlib Require Import ZArith List String Bool Lia Permutation PeanoNat.
From Stdlib Require Import Sorted.
From Stdlib Require OrderedTypeEx.
Import ListNotations.

Set Implicit Arguments.

(* ===================================================================== *)
(** ** Python containers *)
(* ===================================================================== *)

(** A Python [dict] with integer keys.  Iteration order is insertion
    order, which [broadcast_user_status] observes, so the dictionary is an
    association list: [d[k] = v] overwrites in place or appends at the
    end, [del d[k]] drops the key. *)
Module PyDict.
Section Dict.
Variable V : Type.

Definition t := list (Z * V).

Definition empty : t := [].

Fixpoint get (k : Z) (d : t) : option V :=
  match d with
  | [] => None
  | (k', v) :: rest => if (k =? k')%Z then Some v else get k rest
  end.

(** [k in d] *)
Definition contains (k : Z) (d : t) : bool :=
  match get k d with Some _ => true | None => false end.

(** [d[k] = v] *)
Fixpoint set (k : Z) (v : V) (d : t) : t :=
  match d with
  | [] => [(k, v)]
  | (k', v') :: rest =>
      if (k =? k')%Z then (k, v) :: rest else (k', v') :: set k v rest
  end.

(** [del d[k]] (the caller checks membership first) *)
Definition del (k : Z) (d : t) : t :=
  filter (fun kv => negb (k =? fst kv)%Z) d.

Definition keys (d : t) : list Z := map fst d.
Definition values (d : t) : list V := map snd d.
Definition items (d : t) : list (Z * V) := d.
End Dict.
Arguments empty {V}.
End PyDict.
Arguments PyDict.del : simpl never.

(** A connection handle.  Starlette compares [WebSocket] objects by
    identity, so a handle is the identity of the object. *)
Inductive WebSocket : Type := Socket (ident : nat).

Definition ws_eqb (a b : WebSocket) : bool :=
  match a, b with Socket x, Socket y => Nat.eqb x y end.

Definition ws_eq_dec (a b : WebSocket) : {a = b} + {a <> b}.
Proof. decide equality. apply Nat.eq_dec. Defined.

(** [x in l] on a Python list *)
Fixpoint list_contains (x : WebSocket) (l : list WebSocket) : bool :=
  match l with
  | [] => false
  | y :: rest => if ws_eqb x y then true else list_contains x rest
  end.

(** [l.remove(x)]: drops the first occurrence; [None] stands for the
    [ValueError] Python raises when there is none. *)
Fixpoint list_remove (x : WebSocket) (l : list WebSocket)
  : option (list WebSocket) :=
  match l with
  | [] => None
  | y :: rest =>
      if ws_eqb x y then Some rest
      else match list_remove x rest with
           | Some rest' => Some (y :: rest')
           | None => None
           end
  end.

(* ===================================================================== *)
(** ** Wire payloads and rows *)
(* ===================================================================== *)

(** The argument of [json.dumps]; the text sent is determined by it. *)
Unset Elimination Schemes.
Inductive Json : Type :=
| JNull
| JInt (n : Z)
| JStr (s : string)
| JList (l : list Json)
| JObject (fields : list (string * Json)).
Set Elimination Schemes.

(** [class MessageStatus(str, enum.Enum)] *)
Inductive MessageStatus : Type := SENT | DELIVERED | READ.

Definition status_value (s : MessageStatus) : string :=
  match s with
  | SENT => "sent"
  | DELIVERED => "delivered"
  | READ => "read"
  end.

Definition status_eqb (a b : MessageStatus) : bool :=
  match a, b with
  | SENT, SENT | DELIVERED, DELIVERED | READ, READ => true
  | _, _ => false
  end.

(** Rows of [app/models.py].  The columns declared [nullable=False] carry
    a value, the others an option.  A [datetime] is kept as its ISO text. *)
Record User : Type := mkUser {
  user_id : Z;
  user_email : string;
  user_password : string;
  user_username : string;
  user_full_name : option string;
  user_bio : option string;
  user_avatar_url : option string;
  user_created_at : string
}.

Record Conversation : Type := mkConversation {
  conv_id : Z;
  participant_1_id : Z;
  participant_2_id : Z;
  conv_created_at : string
}.

Record Message : Type := mkMessage {
  msg_id : Z;
  msg_conversation_id : Z;
  msg_sender_id : Z;
  msg_content : string;
  msg_timestamp : string;
  msg_status : MessageStatus
}.

(** The three tables, each with its AUTO_INCREMENT counter. *)
Record Database : Type := mkDatabase {
  users : list User;
  next_user_id : Z;
  conversations : list Conversation;
  next_conversation_id : Z;
  messages : list Message;
  next_message_id : Z
}.

(* ===================================================================== *)
(** ** Process state and the effect monad *)
(* ===================================================================== *)

Inductive Exn : Type :=
| KeyError
| ValueError
| TransportError            (* [send_text] on a dead connection *)
| MultipleResultsFound      (* [scalar_one_or_none] with two rows *)
| IntegrityError            (* a constraint of [models.py] refused *)
| HTTPException (status_code : Z) (detail : string).

(** What the process did to the outside, in order. *)
Inductive Event : Type :=
| EvSendText (target : WebSocket) (payload : Json) (accepted : bool)
| EvInsertUser (u : User)
| EvUpdateUser (u : User)
| EvInsertConversation (c : Conversation)
| EvInsertMessage (m : Message)
| EvUpdateStatus (message_id : Z) (status : MessageStatus).

(** The only coroutine handed to [asyncio.create_task] is
    [broadcast_user_status(user_id, status)]. *)
Inductive Task : Type := BroadcastTask (user_id : Z) (status : string).

Record World : Type := mkWorld {
  active_connections : PyDict.t (list WebSocket);
  db : Database;
  tasks : list Task;
  trace : list Event
}.

Definition with_connections (d : PyDict.t (list WebSocket)) (w : World) :=
  mkWorld d (db w) (tasks w) (trace w).
Definition with_db (b : Database) (w : World) :=
  mkWorld (active_connections w) b (tasks w) (trace w).
Definition with_tasks (q : list Task) (w : World) :=
  mkWorld (active_connections w) (db w) q (trace w).
Definition with_trace (tr : list Event) (w : World) :=
  mkWorld (active_connections w) (db w) (tasks w) tr.

(** What the process does not control: whether a peer accepts a frame,
    and the clock.  Both may depend on everything that happened before. *)
Record Env : Type := mkEnv {
  send_text_ok : list Event -> WebSocket -> Json -> bool;
  utcnow : list Event -> string
}.

Inductive Res (A : Type) : Type :=
| Ok (a : A)
| Raise (e : Exn).
Arguments Ok {A} a.
Arguments Raise {A} e.

Definition M (A : Type) : Type := World -> Res A * World.

Definition ret {A} (a : A) : M A := fun w => (Ok a, w).

Definition bind {A B} (m : M A) (k : A -> M B) : M B :=
  fun w =>
    match m w with
    | (Ok a, w') => k a w'
    | (Raise e, w') => (Raise e, w')
    end.

Definition raise {A} (e : Exn) : M A := fun w => (Raise e, w).

(** [try: body  except Exception as e: handler(e)] *)
Definition try_except {A} (body : M A) (handler : Exn -> M A) : M A :=
  fun w =>
    match body w with
    | (Ok a, w') => (Ok a, w')
    | (Raise e, w') => handler e w'
    end.

Declare Scope py_scope.
Delimit Scope py_scope with py.
Notation "x <- m ;; k" := (bind m (fun x => k))
  (at level 100, m at next level, right associativity) : py_scope.
Notation "m ;; k" := (bind m (fun _ => k))
  (at level 100, right associativity) : py_scope.
Open Scope py_scope.

(** [for x in xs: body(x)] *)
Fixpoint for_each {A} (xs : list A) (body : A -> M unit) : M unit :=
  match xs with
  | [] => ret tt
  | x :: rest => body x ;; for_each rest body
  end.

(** A [for] loop that updates one local variable. *)
Fixpoint for_acc {A S} (xs : list A) (acc : S) (body : A -> S -> M S) : M S :=
  match xs with
  | [] => ret acc
  | x :: rest => acc' <- body x acc ;; for_acc rest acc' body
  end.

Definition emit (ev : Event) : M unit :=
  fun w => (Ok tt, with_trace (trace w ++ [ev]) w).

(* ===================================================================== *)
(** ** [ConnectionManager] *)
(* ===================================================================== *)

(** The parameter [user_id] of the methods is written [uid]: [user_id]
    names the [id] column of [User] here. *)
Section Program.
Variable env : Env.

(** [await connection.send_text(text)]: the attempt is recorded either
    way; a refusal raises. *)
Definition send_text (connection : WebSocket) (payload : Json) : M unit :=
  fun w =>
    let accepted := send_text_ok env (trace w) connection payload in
    let w' := with_trace (trace w ++ [EvSendText connection payload accepted]) w in
    if accepted then (Ok tt, w') else (Raise TransportError, w').

(** [user_id in self.active_connections] *)
Definition contains_user (uid : Z) : M bool :=
  fun w => (Ok (PyDict.contains uid (active_connections w)), w).

(** [self.active_connections[user_id]] *)
Definition getitem (uid : Z) : M (list WebSocket) :=
  fun w =>
    match PyDict.get uid (active_connections w) with
    | Some conns => (Ok conns, w)
    | None => (Raise KeyError, w)
    end.

(** [self.active_connections[user_id] = conns]; also the model of an
    in-place mutation of the list stored under [user_id]. *)
Definition setitem (uid : Z) (conns : list WebSocket) : M unit :=
  fun w =>
    (Ok tt, with_connections (PyDict.set uid conns (active_connections w)) w).

(** [del self.active_connections[user_id]] *)
Definition delitem (uid : Z) : M unit :=
  fun w =>
    if PyDict.contains uid (active_connections w)
    then (Ok tt, with_connections (PyDict.del uid (active_connections w)) w)
    else (Raise KeyError, w).

(** [asyncio.create_task(coro)] *)
Definition create_task (t : Task) : M unit :=
  fun w => (Ok tt, with_tasks (tasks w ++ [t]) w).

Definition user_status_message (uid : Z) (status : string) : Json :=
  JObject [("type", JStr "user_status");
           ("user_id", JInt uid);
           ("status", JStr status)]%string.

Definition broadcast_user_status (uid : Z) (status : string) : M unit :=
  let message_json := user_status_message uid status in
  snapshot <- (fun w => (Ok (PyDict.items (active_connections w)), w)) ;;
  for_each snapshot (fun entry =>
    let connections := snd entry in
    for_each connections (fun connection =>
      try_except (send_text connection message_json)
                 (fun _ => ret tt))).

Definition connect (uid : Z) (websocket : WebSocket) : M unit :=
  present <- contains_user uid ;;
  was_offline <- (if negb present then ret true
                  else conns <- getitem uid ;;
                       ret (Nat.eqb (List.length conns) 0)) ;;
  present <- contains_user uid ;;
  (if negb present then setitem uid [] else ret tt) ;;
  conns <- getitem uid ;;
  setitem uid (conns ++ [websocket]) ;;
  if was_offline : bool then broadcast_user_status uid "online" else ret tt.

Definition disconnect (uid : Z) (websocket : WebSocket) : M unit :=
  present <- contains_user uid ;;
  if present : bool then
    conns <- getitem uid ;;
    (if list_contains websocket conns then
       match list_remove websocket conns with
       | Some conns' => setitem uid conns'
       | None => raise ValueError
       end
     else ret tt) ;;
    conns <- getitem uid ;;
    (match conns with
     | [] => delitem uid ;;
             create_task (BroadcastTask uid "offline")
     | _ :: _ => ret tt
     end)
  else ret tt.

Definition send_online_users (websocket : WebSocket) : M unit :=
  online_user_ids <- (fun w => (Ok (PyDict.keys (active_connections w)), w)) ;;
  let message :=
    JObject [("type", JStr "online_users");
             ("users", JList (map JInt online_user_ids))]%string in
  try_except (send_text websocket message) (fun _ => ret tt).

Definition send_personal_message (message : Json) (uid : Z) : M unit :=
  present <- contains_user uid ;;
  if present : bool then
    conns <- getitem uid ;;
    disconnected <-
      for_acc conns [] (fun connection disconnected =>
        try_except (send_text connection message ;; ret disconnected)
                   (fun _ => ret (disconnected ++ [connection]))) ;;
    for_each disconnected (fun connection => disconnect uid connection)
  else ret tt.

Definition is_user_online (uid : Z) : M bool :=
  present <- contains_user uid ;;
  if present : bool then
    conns <- getitem uid ;;
    ret (Nat.ltb 0 (List.length conns))
  else ret false.

(** The event loop picking up the oldest scheduled task. *)
Definition run_next_task : M unit :=
  fun w =>
    match tasks w with
    | [] => (Ok tt, w)
    | BroadcastTask uid status :: rest =>
        broadcast_user_status uid status (with_tasks rest w)
    end.

Definition run_task (t : Task) : M unit :=
  match t with
  | BroadcastTask uid status => broadcast_user_status uid status
  end.

(** The event loop while the running coroutine is suspended in an
    [await]: what has been scheduled runs, oldest first. *)
Definition run_pending_tasks : M unit :=
  pending <- (fun w => (Ok (tasks w), with_tasks [] w)) ;;
  for_each pending run_task.

End Program.

(* ===================================================================== *)
(** ** [message_service.py] over the tables of [models.py] *)
(* ===================================================================== *)

(** Python truthiness of an optional string argument. *)
Definition truthy (s : option string) : bool :=
  match s with
  | Some v => negb (String.eqb v "")
  | None => false
  end.

Definition opt_string_eqb (a b : option string) : bool :=
  match a, b with
  | Some x, Some y => String.eqb x y
  | None, None => true
  | _, _ => false
  end.

Definition user_eqb (a b : User) : bool :=
  (user_id a =? user_id b)%Z
  && String.eqb (user_email a) (user_email b)
  && String.eqb (user_password a) (user_password b)
  && String.eqb (user_username a) (user_username b)
  && opt_string_eqb (user_full_name a) (user_full_name b)
  && opt_string_eqb (user_bio a) (user_bio b)
  && opt_string_eqb (user_avatar_url a) (user_avatar_url b)
  && String.eqb (user_created_at a) (user_created_at b).

(** [schemas.MessageCreate] *)
Record MessageCreate : Type := mkMessageCreate {
  receiver_id : Z;
  content : string
}.

(** [schemas.MessageResponse] *)
Record MessageResponse : Type := mkMessageResponse {
  resp_id : Z;
  resp_conversation_id : Z;
  resp_sender_id : Z;
  resp_content : string;
  resp_timestamp : string;
  resp_status : MessageStatus
}.

(** [middleware.auth.AuthenticatedUser] *)
Record AuthenticatedUser : Type := mkAuthenticatedUser {
  auth_user_id : Z;
  auth_username : string;
  auth_email : option string
}.

(** [MessageResponse.model_validate(message)] *)
Definition model_validate (m : Message) : MessageResponse :=
  mkMessageResponse (msg_id m) (msg_conversation_id m) (msg_sender_id m)
                    (msg_content m) (msg_timestamp m) (msg_status m).

(** [message_response.model_dump(mode='json')] *)
Definition model_dump (r : MessageResponse) : Json :=
  JObject [("id", JInt (resp_id r));
           ("conversation_id", JInt (resp_conversation_id r));
           ("sender_id", JInt (resp_sender_id r));
           ("content", JStr (resp_content r));
           ("timestamp", JStr (resp_timestamp r));
           ("status", JStr (status_value (resp_status r)))]%string.

Definition set_resp_status (s : MessageStatus) (r : MessageResponse) :=
  mkMessageResponse (resp_id r) (resp_conversation_id r) (resp_sender_id r)
                    (resp_content r) (resp_timestamp r) s.

Definition set_msg_status (s : MessageStatus) (m : Message) :=
  mkMessage (msg_id m) (msg_conversation_id m) (msg_sender_id m)
            (msg_content m) (msg_timestamp m) s.

(** [result.scalar_one_or_none()] *)
Definition scalar_one_or_none {A} (rows : list A) : M (option A) :=
  match rows with
  | [] => ret None
  | [row] => ret (Some row)
  | _ :: _ :: _ => raise MultipleResultsFound
  end.

Definition user_exists (uid : Z) (b : Database) : bool :=
  existsb (fun u => (user_id u =? uid)%Z) (users b).

Definition conversation_exists (cid : Z) (b : Database) : bool :=
  existsb (fun c => (conv_id c =? cid)%Z) (conversations b).

Section Service.
Variable env : Env.

Definition now : M string := fun w => (Ok (utcnow env (trace w)), w).

Definition select_users (p : User -> bool) : M (list User) :=
  fun w => (Ok (filter p (users (db w))), w).

Definition select_conversations (p : Conversation -> bool)
  : M (list Conversation) :=
  fun w => (Ok (filter p (conversations (db w))), w).

Definition select_messages (p : Message -> bool) : M (list Message) :=
  fun w => (Ok (filter p (messages (db w))), w).

(** INSERT into [users]: [email] and [password] are NOT NULL, [email]
    and [username] are UNIQUE, [id] is AUTO_INCREMENT, [created_at]
    defaults to the clock. *)
Definition insert_user (username : string)
           (email password full_name bio avatar_url : option string)
  : M User :=
  fun w =>
    let b := db w in
    match email, password with
    | Some e, Some p =>
        if existsb (fun u => String.eqb (user_username u) username
                             || String.eqb (user_email u) e) (users b)
        then (Raise IntegrityError, w)
        else
          let row := mkUser (next_user_id b) e p username
                            full_name bio avatar_url
                            (utcnow env (trace w)) in
          let b' := mkDatabase (users b ++ [row]) (next_user_id b + 1)
                               (conversations b) (next_conversation_id b)
                               (messages b) (next_message_id b) in
          (Ok row, with_trace (trace w ++ [EvInsertUser row]) (with_db b' w))
    | _, _ => (Raise IntegrityError, w)
    end.

(** The flush of a modified [User]: UPDATE by primary key, refused when
    the new [email] belongs to another row. *)
Definition update_user (row : User) : M unit :=
  fun w =>
    let b := db w in
    if existsb (fun u => String.eqb (user_email u) (user_email row)
                         && negb (user_id u =? user_id row)%Z) (users b)
    then (Raise IntegrityError, w)
    else
      let b' := mkDatabase
                  (map (fun u => if (user_id u =? user_id row)%Z
                                 then row else u) (users b))
                  (next_user_id b)
                  (conversations b) (next_conversation_id b)
                  (messages b) (next_message_id b) in
      (Ok tt, with_trace (trace w ++ [EvUpdateUser row]) (with_db b' w)).

(** INSERT into [conversations]: both participants are foreign keys
    into [users]. *)
Definition insert_conversation (p1 p2 : Z) (created_at : string)
  : M Conversation :=
  fun w =>
    let b := db w in
    if user_exists p1 b && user_exists p2 b then
      let row := mkConversation (next_conversation_id b) p1 p2 created_at in
      let b' := mkDatabase (users b) (next_user_id b)
                           (conversations b ++ [row])
                           (next_conversation_id b + 1)
                           (messages b) (next_message_id b) in
      (Ok row,
       with_trace (trace w ++ [EvInsertConversation row]) (with_db b' w))
    else (Raise IntegrityError, w).

(** INSERT into [messages]: [conversation_id] and [sender_id] are
    foreign keys. *)
Definition insert_message (conversation_id sender_id : Z)
           (text timestamp : string) (status : MessageStatus)
  : M Message :=
  fun w =>
    let b := db w in
    if conversation_exists conversation_id b && user_exists sender_id b then
      let row := mkMessage (next_message_id b) conversation_id sender_id
                           text timestamp status in
      let b' := mkDatabase (users b) (next_user_id b)
                           (conversations b) (next_conversation_id b)
                           (messages b ++ [row]) (next_message_id b + 1) in
      (Ok row, with_trace (trace w ++ [EvInsertMessage row]) (with_db b' w))
    else (Raise IntegrityError, w).

(** UPDATE [messages] SET [status] WHERE [id] = [message_id] *)
Definition write_message_status (message_id : Z) (status : MessageStatus)
  : M unit :=
  fun w =>
    let b := db w in
    let b' := mkDatabase (users b) (next_user_id b)
                         (conversations b) (next_conversation_id b)
                         (map (fun m => if (msg_id m =? message_id)%Z
                                        then set_msg_status status m else m)
                              (messages b))
                         (next_message_id b) in
    (Ok tt,
     with_trace (trace w ++ [EvUpdateStatus message_id status]) (with_db b' w)).

Definition get_or_create_conversation (user1_id user2_id : Z)
  : M Conversation :=
  let participant_1 := Z.min user1_id user2_id in
  let participant_2 := Z.max user1_id user2_id in
  rows <- select_conversations
            (fun c => (participant_1_id c =? participant_1)%Z
                      && (participant_2_id c =? participant_2)%Z) ;;
  conversation <- scalar_one_or_none rows ;;
  match conversation with
  | Some c => ret c
  | None =>
      created_at <- now ;;
      insert_conversation participant_1 participant_2 created_at
  end.

Definition create_message (sender_id : Z) (message_data : MessageCreate)
  : M Message :=
  conversation <- get_or_create_conversation sender_id
                    (receiver_id message_data) ;;
  timestamp <- now ;;
  insert_message (conv_id conversation) sender_id (content message_data)
                 timestamp SENT.

(** The session flushes an UPDATE only when the attribute changed. *)
Definition update_message_status (message_id : Z) (status : MessageStatus)
  : M (option Message) :=
  rows <- select_messages (fun m => (msg_id m =? message_id)%Z) ;;
  message <- scalar_one_or_none rows ;;
  match message with
  | Some m =>
      (if status_eqb (msg_status m) status then ret tt
       else write_message_status message_id status) ;;
      ret (Some (set_msg_status status m))
  | None => ret None
  end.

Definition get_user_by_id (uid : Z) : M (option User) :=
  rows <- select_users (fun u => (user_id u =? uid)%Z) ;;
  scalar_one_or_none rows.

Definition get_user_by_username (username : string) : M (option User) :=
  rows <- select_users (fun u => String.eqb (user_username u) username) ;;
  scalar_one_or_none rows.

Definition create_user (username : string)
           (email password full_name bio avatar_url : option string)
  : M User :=
  insert_user username email password full_name bio avatar_url.

(** The assignments are guarded by Python truthiness, [bio] by
    [is not None]; [commit] flushes an UPDATE only when a column
    changed. *)
Definition get_or_create_user (username : string)
           (email password full_name bio avatar_url : option string)
  : M User :=
  found <- get_user_by_username username ;;
  match found with
  | Some user =>
      let user1 :=
        mkUser (user_id user)
               (match email with
                | Some e => if truthy email then e else user_email user
                | None => user_email user
                end)
               (match password with
                | Some p => if truthy password then p else user_password user
                | None => user_password user
                end)
               (user_username user)
               (if truthy full_name then full_name else user_full_name user)
               (match bio with
                | Some _ => bio
                | None => user_bio user
                end)
               (if truthy avatar_url then avatar_url
                else user_avatar_url user)
               (user_created_at user) in
      (if user_eqb user1 user then ret tt else update_user user1) ;;
      ret user1
  | None =>
      create_user username email password full_name bio avatar_url
  end.

(* ------------------------------------------------------------------- *)
(** ** [routers/messages.py]: [send_message] *)
(* ------------------------------------------------------------------- *)

Definition new_message_envelope (r : MessageResponse) : Json :=
  JObject [("type", JStr "new_message");
           ("message", model_dump r)]%string.

(** [send_personal_message] schedules the offline broadcast when it has
    dropped the last handle of the receiver, and the call is suspended
    right after it, in the query of [update_message_status]: the
    broadcast runs there, before the status is written. *)
Definition send_message (message_data : MessageCreate)
           (current_user : AuthenticatedUser) : M MessageResponse :=
  try_except
    (sender <- get_or_create_user (auth_username current_user)
                 None None None None None ;;
     receiver <- get_user_by_id (receiver_id message_data) ;;
     match receiver with
     | None => raise (HTTPException 404 "Receiver not found")
     | Some _ =>
         message <- create_message (user_id sender) message_data ;;
         let message_response := model_validate message in
         online <- is_user_online (receiver_id message_data) ;;
         if online : bool then
           send_personal_message env
             (new_message_envelope message_response)
             (receiver_id message_data) ;;
           run_pending_tasks env ;;
           update_message_status (msg_id message) DELIVERED ;;
           ret (set_resp_status DELIVERED message_response)
         else ret message_response
     end)
    (fun e =>
       match e with
       | HTTPException _ _ => raise e
       | _ => raise (HTTPException 500 "Failed to send message")
       end).

End Service.

(* ===================================================================== *)
(** ** Notions used in the statements *)
(* ===================================================================== *)

(** The handles registered under a user, none when the key is absent. *)
Definition handles_of (uid : Z) (d : PyDict.t (list WebSocket))
  : list WebSocket :=
  match PyDict.get uid d with
  | Some conns => conns
  | None => []
  end.

(** Every handle of the registry, in iteration order. *)
Definition all_handles (d : PyDict.t (list WebSocket)) : list WebSocket :=
  List.concat (PyDict.values d).

(** The list left by the guarded [remove] of [disconnect]. *)
Definition remove_first (x : WebSocket) (l : list WebSocket)
  : list WebSocket :=
  match list_remove x l with
  | Some l' => l'
  | None => l
  end.

Definition is_send (ev : Event) : bool :=
  match ev with
  | EvSendText _ _ _ => true
  | _ => false
  end.

(** The send attempts recorded in a trace. *)
Definition sends (tr : list Event) : list Event := filter is_send tr.

(** Targets of the refused, resp. accepted, send attempts of a trace. *)
Definition refused (tr : list Event) : list WebSocket :=
  flat_map (fun ev => match ev with
                      | EvSendText c _ false => [c]
                      | _ => []
                      end) tr.

Definition accepted (tr : list Event) : list WebSocket :=
  flat_map (fun ev => match ev with
                      | EvSendText c _ true => [c]
                      | _ => []
                      end) tr.

(** The events produced by pushing [payload] to [targets] in turn,
    starting from trace [tr]. *)
Fixpoint attempts (env : Env) (payload : Json) (targets : list WebSocket)
         (tr : list Event) : list Event :=
  match targets with
  | [] => []
  | c :: rest =>
      let ev := EvSendText c payload (send_text_ok env tr c payload) in
      ev :: attempts env payload rest (tr ++ [ev])
  end.

(** The events of the broadcasts of [pending], run in turn over
    [targets], starting from trace [tr]. *)
Fixpoint announcements (env : Env) (pending : list Task)
         (targets : list WebSocket) (tr : list Event) : list Event :=
  match pending with
  | [] => []
  | BroadcastTask uid status :: rest =>
      let evs := attempts env (user_status_message uid status) targets tr in
      evs ++ announcements env rest targets (tr ++ evs)
  end.

(** The registry after [connect]. *)
Definition after_connect (uid : Z) (websocket : WebSocket) (w : World)
  : World :=
  with_connections
    (PyDict.set uid (handles_of uid (active_connections w) ++ [websocket])
                (active_connections w)) w.

(** The state after [disconnect]. *)
Definition after_disconnect (uid : Z) (websocket : WebSocket) (w : World)
  : World :=
  match PyDict.get uid (active_connections w) with
  | None => w
  | Some conns =>
      match remove_first websocket conns with
      | [] =>
          with_tasks (tasks w ++ [BroadcastTask uid "offline"])
            (with_connections (PyDict.del uid (active_connections w)) w)
      | conns' =>
          with_connections (PyDict.set uid conns' (active_connections w)) w
      end
  end.

(** The cleanup loop of [send_personal_message]. *)
Definition cleanup (uid : Z) (dead : list WebSocket) (w : World) : World :=
  fold_left (fun w' c => after_disconnect uid c w') dead w.

(** A call of the connection handler on behalf of one user. *)
Inductive Call : Type :=
| Register (websocket : WebSocket)
| Deregister (websocket : WebSocket).

Definition run_call (env : Env) (uid : Z) (c : Call) : M unit :=
  match c with
  | Register websocket => connect env uid websocket
  | Deregister websocket => disconnect uid websocket
  end.

Definition run_calls (env : Env) (uid : Z) (calls : list Call) : M unit :=
  for_each calls (run_call env uid).

(** The count of the specification, written from its words: one up for a
    registration, one down (never below zero) for a deregistration of a
    handle that is present at that moment, nothing for any other
    deregistration. *)
Record Ledger : Type := mkLedger {
  present : WebSocket -> nat;
  net : nat
}.

Definition ledger_step (s : Ledger) (c : Call) : Ledger :=
  match c with
  | Register websocket =>
      mkLedger (fun x => if ws_eq_dec websocket x then S (present s x)
                         else present s x)
               (S (net s))
  | Deregister websocket =>
      if Nat.ltb 0 (present s websocket)
      then mkLedger (fun x => if ws_eq_dec websocket x
                              then Nat.pred (present s x)
                              else present s x)
                    (net s - 1)
      else s
  end.

Definition net_registered (calls : list Call) : nat :=
  net (fold_left ledger_step calls (mkLedger (fun _ => 0) 0)).

(** No key of the registry is mapped to an empty list. *)
Definition no_empty_entry (d : PyDict.t (list WebSocket)) : Prop :=
  Forall (fun kv => snd kv <> []) d.

(** The invariant of the registry: no empty entry, hence a user is a key
    exactly when it has a handle. *)
Definition presence_consistent (d : PyDict.t (list WebSocket)) : Prop :=
  no_empty_entry d
  /\ forall k, In k (PyDict.keys d) <-> handles_of k d <> [].

(** The conversation rows a lookup for the pair [a], [b] selects. *)
Definition rows_between (a b : Z) (d : Database) : list Conversation :=
  filter (fun c => (participant_1_id c =? Z.min a b)%Z
                   && (participant_2_id c =? Z.max a b)%Z)
         (conversations d).

(** The stored status of every row with a given message id. *)
Definition stored_status (message_id : Z) (d : Database)
  : list MessageStatus :=
  map msg_status (filter (fun m => (msg_id m =? message_id)%Z) (messages d)).

(** A computation that leaves the registry and the task queue alone and
    attempts no send. *)
Definition quiet_at {A} (m : M A) (w : World) : Prop :=
  active_connections (snd (m w)) = active_connections w
  /\ tasks (snd (m w)) = tasks w
  /\ sends (trace (snd (m w))) = sends (trace w).

Definition quiet {A} (m : M A) : Prop := forall w, quiet_at m w.

(** What [send_message] needs from the tables to get as far as routing:
    the caller's username and the receiver's id each select exactly one
    user row, the pair has at most one conversation row, and the message
    ids in use are below the AUTO_INCREMENT counter. *)
Definition ready_to_send (d : Database) (current_user : AuthenticatedUser)
           (data : MessageCreate) (sender : User) : Prop :=
  filter (fun u => String.eqb (user_username u) (auth_username current_user))
         (users d) = [sender]
  /\ (exists receiver,
         filter (fun u => (user_id u =? receiver_id data)%Z) (users d)
         = [receiver])
  /\ List.length (rows_between (user_id sender) (receiver_id data) d) <= 1
  /\ Forall (fun m => (msg_id m < next_message_id d)%Z) (messages d).

(* ===================================================================== *)
(** ** The scenario of the specification: users 7 and 9 *)
(* ===================================================================== *)

Module Scenario.

Definition clock : list Event -> string := fun _ => "2025-01-01T12:00:00"%string.

(** Every peer takes every frame. *)
Definition peers_accept : Env := mkEnv (fun _ _ _ => true) clock.

(** No peer takes any frame. *)
Definition peers_refuse : Env := mkEnv (fun _ _ _ => false) clock.

(** Every peer but [dead] takes every frame. *)
Definition all_but (dead : WebSocket) : Env :=
  mkEnv (fun _ c _ => negb (ws_eqb c dead)) clock.

Definition alice : User :=
  mkUser 7 "alice@example.org" "hash-a" "alice" None None None
         "2024-12-31T00:00:00".

Definition bob : User :=
  mkUser 9 "bob@example.org" "hash-b" "bob" None None None
         "2024-12-31T00:00:00".

Definition tables : Database := mkDatabase [alice; bob] 10 [] 1 [] 1.

(** The process right after start: nobody is connected. *)
Definition boot : World := mkWorld PyDict.empty tables [] [].

(** Users 7 and 9 hold one connection each. *)
Definition both_online : World :=
  mkWorld [(7%Z, [Socket 1]); (9%Z, [Socket 2])] tables [] [].

(** User 7 holds two connections. *)
Definition two_tabs : World :=
  mkWorld [(7%Z, [Socket 1; Socket 3])] tables [] [].

Definition hello : MessageCreate := mkMessageCreate 9 "hi".

Definition to_nobody : MessageCreate := mkMessageCreate 9 "are you there".

Definition as_alice : AuthenticatedUser := mkAuthenticatedUser 7 "alice" None.

Definition first_conversation : Conversation :=
  mkConversation 1 7 9 "2025-01-01T12:00:00".


(** The same handle registered twice for user 7, then deregistered once
    and twice. *)
Definition registered_twice : World :=
  snd (connect peers_accept 7 (Socket 1)
         (snd (connect peers_accept 7 (Socket 1) boot))).

Definition deregistered_once : World :=
  snd (disconnect 7 (Socket 1) registered_twice).

Definition deregistered_twice : World :=
  snd (disconnect 7 (Socket 1) deregistered_once).

(** The state after the first lookup of the conversation of 9 and 7. *)
Definition after_first_lookup : World :=
  snd (get_or_create_conversation peers_accept 9 7 boot).

End Scenario.

(* ===================================================================== *)
(** ** The rest of the service: reads, endpoints, the socket endpoint *)
(* ===================================================================== *)

(** Any use of the shared [manager] object by the rest of the process. *)
Inductive ManagerCall : Type :=
| CallConnect (uid : Z) (websocket : WebSocket)
| CallDisconnect (uid : Z) (websocket : WebSocket)
| CallBroadcast (uid : Z) (status : string)
| CallSendOnlineUsers (websocket : WebSocket)
| CallSendPersonal (message : Json) (uid : Z).

Definition run_manager_call (env : Env) (c : ManagerCall) : M unit :=
  match c with
  | CallConnect uid websocket => connect env uid websocket
  | CallDisconnect uid websocket => disconnect uid websocket
  | CallBroadcast uid status => broadcast_user_status env uid status
  | CallSendOnlineUsers websocket => send_online_users env websocket
  | CallSendPersonal message uid => send_personal_message env message uid
  end.

Definition run_manager_calls (env : Env) (calls : list ManagerCall) : M unit :=
  for_each calls (run_manager_call env).

(** The handles handed to [connect] by a sequence of calls. *)
Definition connected_handles (calls : list ManagerCall) : list WebSocket :=
  flat_map (fun c => match c with
                     | CallConnect _ websocket => [websocket]
                     | _ => []
                     end) calls.

(** The roster frame of [send_online_users]. *)
Definition online_users_message (ids : list Z) : Json :=
  JObject [("type", JStr "online_users");
           ("users", JList (map JInt ids))]%string.

(** [ORDER BY]: the rows in ascending order of [le].  The server leaves
    the order of equal rows open; this one keeps them as they were. *)
Fixpoint insert_ordered {A} (le : A -> A -> bool) (x : A) (l : list A)
  : list A :=
  match l with
  | [] => [x]
  | y :: rest =>
      if le x y then x :: y :: rest else y :: insert_ordered le x rest
  end.

Fixpoint order_by {A} (le : A -> A -> bool) (l : list A) : list A :=
  match l with
  | [] => []
  | x :: rest => insert_ordered le x (order_by le rest)
  end.

(** [Message.timestamp], [desc(Message.timestamp)] and
    [desc(Conversation.created_at)]; ISO texts compare as their dates. *)
Definition by_timestamp (m1 m2 : Message) : bool :=
  String.leb (msg_timestamp m1) (msg_timestamp m2).

Definition by_timestamp_desc (m1 m2 : Message) : bool :=
  String.leb (msg_timestamp m2) (msg_timestamp m1).

Definition by_created_at_desc (c1 c2 : Conversation) : bool :=
  String.leb (conv_created_at c2) (conv_created_at c1).

(** The result of a function that raises [ValueError(message)] on some
    paths: the handler of [get_messages] needs the text, so it travels
    with the result. *)
Inductive Checked (A : Type) : Type :=
| Returned (a : A)
| RaisedValueError (message : string).
Arguments Returned {A} a.
Arguments RaisedValueError {A} message.

(** [schemas.UserCreate] *)
Record UserCreate : Type := mkUserCreate {
  uc_username : string;
  uc_email : option string;
  uc_id : option Z;
  uc_password : option string;
  uc_full_name : option string;
  uc_bio : option string;
  uc_avatar_url : option string
}.

(** [schemas.UserResponse] *)
Record UserResponse : Type := mkUserResponse {
  ur_username : string;
  ur_id : Z;
  ur_email : option string;
  ur_full_name : option string;
  ur_bio : option string;
  ur_avatar_url : option string;
  ur_created_at : option string
}.

(** [schemas.ConversationResponse] *)
Record ConversationResponse : Type := mkConversationResponse {
  cr_id : Z;
  cr_participant_1_id : Z;
  cr_participant_1 : UserResponse;
  cr_participant_2_id : Z;
  cr_participant_2 : UserResponse;
  cr_created_at : string;
  cr_last_message : option MessageResponse
}.

(** [UserResponse.model_validate(user)] *)
Definition user_model_validate (u : User) : UserResponse :=
  mkUserResponse (user_username u) (user_id u) (Some (user_email u))
                 (user_full_name u) (user_bio u) (user_avatar_url u)
                 (Some (user_created_at u)).

(** The row a many-to-one relationship loads: the user with that primary
    key, if any. *)
Definition related_user (uid : Z) (d : Database) : option User :=
  find (fun u => (user_id u =? uid)%Z) (users d).

Definition get_conversation_messages (conversation_id uid : Z)
  : M (Checked (list Message)) :=
  rows <- select_conversations (fun c => (conv_id c =? conversation_id)%Z) ;;
  conversation <- scalar_one_or_none rows ;;
  match conversation with
  | None => ret (RaisedValueError "Conversation not found")
  | Some c =>
      if negb ((uid =? participant_1_id c)%Z || (uid =? participant_2_id c)%Z)
      then ret (RaisedValueError
                  "User is not a participant in this conversation")
      else
        rows <- select_messages
                  (fun m => (msg_conversation_id m =? conversation_id)%Z) ;;
        ret (Returned (order_by by_timestamp rows))
  end.

(** The participants come with the conversations ([selectinload]); a
    conversation whose participant has no row fails the validation of
    [ConversationResponse], a [ValueError] for Python. *)
Definition get_user_conversations (uid : Z) : M (list ConversationResponse) :=
  rows <- select_conversations
            (fun c => (participant_1_id c =? uid)%Z
                      || (participant_2_id c =? uid)%Z) ;;
  loaded <- (fun w =>
               (Ok (map (fun c => (c, related_user (participant_1_id c) (db w),
                                      related_user (participant_2_id c) (db w)))
                        (order_by by_created_at_desc rows)), w)) ;;
  for_acc loaded []
    (fun entry conversation_responses =>
       let '(conv, participant_1, participant_2) := entry in
       rows <- select_messages
                 (fun m => (msg_conversation_id m =? conv_id conv)%Z) ;;
       last_message <- scalar_one_or_none
                         (firstn 1 (order_by by_timestamp_desc rows)) ;;
       match participant_1, participant_2 with
       | Some u1, Some u2 =>
           ret (conversation_responses ++
                [mkConversationResponse
                   (conv_id conv)
                   (participant_1_id conv) (user_model_validate u1)
                   (participant_2_id conv) (user_model_validate u2)
                   (conv_created_at conv)
                   (option_map model_validate last_message)])
       | _, _ => raise ValueError
       end).

(** The endpoints of [routers/messages.py] besides [send_message].
    [DEV_MODE] is [settings.DEV_MODE]; [str] is Python's [str(e)] on the
    exceptions of the storage layer. *)
Section Endpoints.
Variable env : Env.
Variable DEV_MODE : bool.
Variable str : Exn -> string.

(** The [ValueError] raised for a missing email is caught by the handler
    right below it, which answers 400 with its text. *)
Definition sync_user (user_data : UserCreate) : M UserResponse :=
  if negb (truthy (uc_email user_data))
  then raise (HTTPException 400 "Email is required to sync user")
  else
    try_except
      (user <- get_or_create_user env (uc_username user_data)
                 (uc_email user_data) (uc_password user_data)
                 (uc_full_name user_data) (uc_bio user_data)
                 (uc_avatar_url user_data) ;;
       ret (user_model_validate user))
      (fun e => raise (HTTPException 400 (str e))).

Definition register_user (user_data : UserCreate) : M UserResponse :=
  if negb DEV_MODE
  then raise (HTTPException 403
                "User registration disabled. Use Auth Service.")
  else
    try_except
      (user <- get_or_create_user env (uc_username user_data)
                 None None None None None ;;
       ret (user_model_validate user))
      (fun e => raise (HTTPException 400 (str e))).

Definition get_user (uid : Z) : M UserResponse :=
  user <- get_user_by_id uid ;;
  match user with
  | None => raise (HTTPException 404 "User not found")
  | Some u => ret (user_model_validate u)
  end.

Definition list_conversations (current_user : AuthenticatedUser)
  : M (list ConversationResponse) :=
  try_except
    (user <- get_or_create_user env (auth_username current_user)
               None None None None None ;;
     get_user_conversations (user_id user))
    (fun _ => raise (HTTPException 500 "Failed to retrieve conversations")).

(** The body of the [try] gives either its list or the text of the
    [ValueError] that left it; a bare [ValueError] of the model is the one
    of [list.remove].  Every other exception is answered 500. *)
Definition get_messages (conversation_id : Z)
           (current_user : AuthenticatedUser) : M (list MessageResponse) :=
  checked <-
    try_except
      (user <- get_or_create_user env (auth_username current_user)
                 None None None None None ;;
       checked <- get_conversation_messages conversation_id (user_id user) ;;
       match checked with
       | Returned messages => ret (Returned (map model_validate messages))
       | RaisedValueError message => ret (RaisedValueError message)
       end)
      (fun e =>
         match e with
         | ValueError => ret (RaisedValueError "list.remove(x): x not in list")
         | _ => raise (HTTPException 500 "Failed to retrieve messages")
         end) ;;
  match checked with
  | Returned responses => ret responses
  | RaisedValueError message => raise (HTTPException 403 message)
  end.

End Endpoints.

(** The row [get_or_create_user] leaves for an existing user. *)
Definition synced_row (user : User)
           (email password full_name bio avatar_url : option string) : User :=
  mkUser (user_id user)
         (match email with
          | Some e => if truthy email then e else user_email user
          | None => user_email user
          end)
         (match password with
          | Some p => if truthy password then p else user_password user
          | None => user_password user
          end)
         (user_username user)
         (if truthy full_name then full_name else user_full_name user)
         (match bio with
          | Some _ => bio
          | None => user_bio user
          end)
         (if truthy avatar_url then avatar_url else user_avatar_url user)
         (user_created_at user).

(** What the tables look like in every state the service reaches: primary
    keys are distinct and below their counters, usernames are distinct,
    and each pair of users has at most one conversation, stored with the
    smaller id first. *)
Definition tables_consistent (d : Database) : Prop :=
  NoDup (map user_id (users d))
  /\ NoDup (map user_username (users d))
  /\ Forall (fun u => (user_id u < next_user_id d)%Z) (users d)
  /\ NoDup (map conv_id (conversations d))
  /\ Forall (fun c => (conv_id c < next_conversation_id d)%Z) (conversations d)
  /\ Forall (fun c => (participant_1_id c <= participant_2_id c)%Z)
            (conversations d)
  /\ NoDup (map (fun c => (participant_1_id c, participant_2_id c))
                (conversations d))
  /\ NoDup (map msg_id (messages d))
  /\ Forall (fun m => (msg_id m < next_message_id d)%Z) (messages d).

(** A computation that leaves consistent tables consistent, from one
    state and from every state. *)
Definition keeps_tables_at {A} (m : M A) (w : World) : Prop :=
  tables_consistent (db w) -> tables_consistent (db (snd (m w))).

Definition keeps_tables {A} (m : M A) : Prop := forall w, keeps_tables_at m w.

(** A computation that raises no [HTTPException] of its own. *)
Definition is_http_error (e : Exn) : bool :=
  match e with
  | HTTPException _ _ => true
  | _ => false
  end.

Definition no_http_error {A} (m : M A) : Prop :=
  forall w, match fst (m w) with
            | Raise e => is_http_error e = false
            | Ok _ => True
            end.

(** *** The socket endpoint [websocket_endpoint]

    One call of the endpoint, for one [WebSocket] object.  What the
    client sends while the endpoint waits in [receive_text] is the list
    [inbox]; when the list ends without a disconnect the endpoint is
    still waiting.  A socket that has refused a send takes nothing from
    the client any more: the connection is closed on the side of the
    application, [receive_text] raises at once, and not
    [WebSocketDisconnect], so that the loop of the endpoint goes round
    for ever. *)
Inductive Incoming : Type :=
| Text (data : string)
| Disconnected              (* [WebSocketDisconnect] *)
| ReceiveFailed.            (* any other exception of [receive_text] *)

(** The calls on the socket besides sends. *)
Inductive Control : Type :=
| Close (code : Z) (reason : string)
| Accept.

Inductive SessionEnd : Type :=
| Rejected                  (* returned before [manager.connect] *)
| Finished                  (* returned after [manager.disconnect] *)
| Listening                 (* waiting in [receive_text] *)
| Stuck.                    (* [receive_text] raises on every turn *)

Record Served : Type := mkServed {
  handshake : list Control;
  session : SessionEnd
}.

(** What [validate_token_with_auth_service] and [decode_token_locally]
    give for a token: a dictionary, [None], or, for the service, a fault:
    the call or the use of what it returned raised. *)
Inductive ServiceReply (Claim : Type) : Type :=
| Reply (user_data : option (list (string * Claim)))
| Fault.
Arguments Reply {Claim} user_data.
Arguments Fault {Claim}.

Definition connection_established_message (uid : Z) : Json :=
  JObject [("type", JStr "connection_established");
           ("user_id", JInt uid);
           ("message", JStr "Connected to messaging service")]%string.

(** The loop around [receive_text]: [true] when it is left by
    [WebSocketDisconnect], [false] when it is still waiting. *)
Fixpoint receive_loop (inbox : list Incoming) : bool :=
  match inbox with
  | [] => false
  | Text _ :: rest => receive_loop rest
  | ReceiveFailed :: rest => receive_loop rest
  | Disconnected :: _ => true
  end.

(** Whether a send on the socket has been refused: its connection is
    then closed on the side of the application. *)
Definition closed_by_a_refusal (websocket : WebSocket) : M bool :=
  fun w => (Ok (existsb (ws_eqb websocket) (refused (trace w))), w).

Section SocketEndpoint.
Variable env : Env.

(** The values of a token payload, with Python's truthiness and [==]
    against the integer of the path. *)
Variable Claim : Type.
Variable claim_truthy : Claim -> bool.
Variable claim_equals : Claim -> Z -> bool.

Variable decode_token_locally : string -> option (list (string * Claim)).
Variable validate_token_with_auth_service : string -> ServiceReply Claim.

(** Whether [websocket.close(code, reason)] and [websocket.accept()]
    return rather than raise. *)
Variable close_returns : Z -> string -> bool.
Variable accept_returns : bool.

(** [payload.get(key)] *)
Fixpoint dict_get (key : string) (payload : list (string * Claim))
  : option Claim :=
  match payload with
  | [] => None
  | (k, v) :: rest => if String.eqb key k then Some v else dict_get key rest
  end.

Definition truthy_value (v : option Claim) : bool :=
  match v with
  | Some c => claim_truthy c
  | None => false
  end.

(** [a or b] *)
Definition py_or (a b : option Claim) : option Claim :=
  if truthy_value a then a else b.

(** [if payload:] on an optional dictionary *)
Definition truthy_dict (d : option (list (string * Claim))) : bool :=
  match d with
  | Some (_ :: _) => true
  | _ => false
  end.

(** [token_user_id] as the endpoint computes it; [None] when the service
    faulted. *)
Definition token_user_id (token : string) : option (option Claim) :=
  let payload := decode_token_locally token in
  if truthy_dict payload then
    match payload with
    | Some p =>
        Some (py_or (dict_get "user_id" p)
                    (py_or (dict_get "id" p) (dict_get "sub" p)))
    | None => Some None
    end
  else
    match validate_token_with_auth_service token with
    | Fault => None
    | Reply user_data =>
        if truthy_dict user_data then
          match user_data with
          | Some d => Some (dict_get "user_id" d)
          | None => Some None
          end
        else Some None
    end.

(** A [close] inside the [try]: [None] when it raises. *)
Definition close_in_try (code : Z) (reason : string)
  : option (list Control * bool) :=
  if close_returns code reason then Some ([Close code reason], false)
  else None.

(** The body of the first [try]: the calls made on the socket and
    whether it was accepted; [None] when an exception left the body. *)
Definition authenticate (uid : Z) (token : option string)
  : option (list Control * bool) :=
  match token with
  | None => close_in_try 1008 "Token required"
  | Some t =>
      if String.eqb t "" then close_in_try 1008 "Token required"
      else
        match token_user_id t with
        | None => None
        | Some value =>
            if negb (truthy_value value)
            then close_in_try 1008 "Invalid token"
            else
              match value with
              | Some c =>
                  if negb (claim_equals c uid)
                  then close_in_try 1008 "User mismatch"
                  else if accept_returns then Some ([Accept], true)
                       else None
              | None => close_in_try 1008 "Invalid token"
              end
        end
  end.

(** The first [try] with its handler, which closes with "Auth failed" and
    swallows a failure of that close. *)
Definition handshake_of (uid : Z) (token : option string)
  : list Control * bool :=
  match authenticate uid token with
  | Some outcome => outcome
  | None =>
      if close_returns 1008 "Auth failed"
      then ([Close 1008 "Auth failed"], false)
      else ([], false)
  end.

(** After the handshake and [manager.connect]: the greeting, whose
    refusal is caught by one of the two handlers of the second [try];
    the roster, whose refusal [send_online_users] swallows; then the
    loop around [receive_text], which only [WebSocketDisconnect] leaves
    and which a closed socket therefore never leaves.  Both handlers
    call [manager.disconnect] and the endpoint returns. *)
Definition websocket_endpoint (websocket : WebSocket) (uid : Z)
           (token : option string) (inbox : list Incoming) : M Served :=
  let '(calls, accepted) := handshake_of uid token in
  if accepted : bool then
    connect env uid websocket ;;
    ended <- try_except
               (send_text env websocket (connection_established_message uid) ;;
                send_online_users env websocket ;;
                closed <- closed_by_a_refusal websocket ;;
                ret (if closed : bool then Stuck
                     else if receive_loop inbox then Finished
                          else Listening))
               (fun _ => ret Finished) ;;
    match ended with
    | Finished =>
        disconnect uid websocket ;;
        ret (mkServed calls Finished)
    | _ => ret (mkServed calls ended)
    end
  else ret (mkServed calls Rejected).

End SocketEndpoint.

(** What a [ConversationResponse] says of a conversation row: its columns,
    the rows of its two participants, and as last message one of its
    messages that none of them is later than, or nothing when it has
    none. *)
Definition describes (d : Database) (c : Conversation)
           (r : ConversationResponse) : Prop :=
  cr_id r = conv_id c
  /\ cr_created_at r = conv_created_at c
  /\ cr_participant_1_id r = participant_1_id c
  /\ cr_participant_2_id r = participant_2_id c
  /\ (exists u1, In u1 (users d) /\ user_id u1 = participant_1_id c
                 /\ cr_participant_1 r = user_model_validate u1)
  /\ (exists u2, In u2 (users d) /\ user_id u2 = participant_2_id c
                 /\ cr_participant_2 r = user_model_validate u2)
  /\ match cr_last_message r with
     | Some preview =>
         exists row,
           In row (messages d)
           /\ preview = model_validate row
           /\ msg_conversation_id row = conv_id c
           /\ forall other,
               In other (messages d) ->
               msg_conversation_id other = conv_id c ->
               String.leb (msg_timestamp other) (msg_timestamp row) = true
     | None =>
         forall other, In other (messages d) ->
                       msg_conversation_id other <> conv_id c
     end.

(** The endpoint [get_user_by_username] of [routers/messages.py], which
    has the name of the storage function and runs its own query. *)
Module Router.

Definition get_user_by_username (username : string) : M UserResponse :=
  rows <- select_users (fun u => String.eqb (user_username u) username) ;;
  user <- scalar_one_or_none rows ;;
  match user with
  | None => raise (HTTPException 404 "User not found")
  | Some u => ret (user_model_validate u)
  end.

End Router.

(* ===================================================================== *)
(** ** More runs on concrete states *)
(* ===================================================================== *)

Module Cases.
Import Scenario.
Local Open Scope string_scope.

Definition as_bob : AuthenticatedUser := mkAuthenticatedUser 9 "bob" None.

(** The profile the auth service sends for a user unknown so far, and the
    row it gives. *)
Definition carol_profile : UserCreate :=
  mkUserCreate "carol" (Some "carol@example.org") (Some 11%Z) (Some "hash-c")
               (Some "Carol") None None.

Definition carol : User :=
  mkUser 10 "carol@example.org" "hash-c" "carol" (Some "Carol") None None
         "2025-01-01T12:00:00".

Definition with_carol : World :=
  snd (create_user peers_accept "carol" (Some "carol@example.org")
                   (Some "hash-c") (Some "Carol") None None boot).

Definition text_of : Exn -> string := fun _ => "error"%string.

(** User 7 comes with two sockets, user 9 comes and leaves. *)
Definition visits : list ManagerCall :=
  [CallConnect 7 (Socket 1); CallConnect 9 (Socket 2);
   CallConnect 7 (Socket 3); CallDisconnect 9 (Socket 2)].

(** The state after user 7 has sent "hi" to user 9, nobody connected. *)
Definition after_hello : World :=
  snd (send_message peers_accept hello as_alice boot).

Definition to_stranger : MessageCreate := mkMessageCreate 12 "anyone?".

(** Tokens whose claims are integers: every token decodes to the claims
    of user 7, the auth service is not needed, the socket takes every
    control frame. *)
Definition int_truthy (z : Z) : bool := negb (z =? 0)%Z.

Definition decodes_to_alice : string -> option (list (string * Z)) :=
  fun _ => Some [("user_id"%string, 7%Z)].

Definition service_down : string -> ServiceReply Z := fun _ => @Fault Z.

Definition control_taken : Z -> string -> bool := fun _ _ => true.

Definition greeted_then_left : list Incoming :=
  [Text "ping"; Disconnected].

(** Every peer takes every frame but the roster. *)
Definition roster_refused : Env :=
  mkEnv (fun _ _ payload =>
           match payload with
           | JObject (("type", JStr "online_users") :: _) => false
           | _ => true
           end)
        clock.

End Cases.

(* ===================================================================== *)
(** ** Facts about the containers *)
(* ===================================================================== *)

Lemma ws_eqb_spec (a b : WebSocket) : reflect (a = b) (ws_eqb a b).
Proof.
  destruct a as [x], b as [y]; simpl.
  destruct (Nat.eqb_spec x y); constructor; congruence.
Qed.

Module DictFacts.
Import PyDict.
Section Facts.
Variable V : Type.
Implicit Types (d : t V) (k : Z) (v : V).

Lemma get_set_same k v d : get k (set k v d) = Some v.
Proof.
  induction d as [|[k' v'] d IH]; simpl.
  - now rewrite Z.eqb_refl.
  - destruct (Z.eqb_spec k k'); simpl.
    + now rewrite Z.eqb_refl.
    + destruct (Z.eqb_spec k k'); [contradiction | exact IH].
Qed.

Lemma get_set_other k k' v d : k <> k' -> get k' (set k v d) = get k' d.
Proof.
  intros Hne. induction d as [|[k0 v0] d IH]; simpl.
  - destruct (Z.eqb_spec k' k); [congruence | reflexivity].
  - destruct (Z.eqb_spec k k0); simpl.
    + subst k0. destruct (Z.eqb_spec k' k); [congruence | reflexivity].
    + destruct (Z.eqb_spec k' k0); [reflexivity | exact IH].
Qed.

Lemma get_del_same k d : get k (del k d) = None.
Proof.
  unfold del.
  induction d as [|[k' v'] d IH]; simpl; [reflexivity|].
  destruct (Z.eqb_spec k k'); simpl; [exact IH|].
  destruct (Z.eqb_spec k k'); [contradiction | exact IH].
Qed.

Lemma get_del_other k k' d : k <> k' -> get k' (del k d) = get k' d.
Proof.
  unfold del.
  intros Hne. induction d as [|[k0 v0] d IH]; simpl; [reflexivity|].
  destruct (Z.eqb_spec k k0); simpl.
  - subst k0. destruct (Z.eqb_spec k' k); [congruence | exact IH].
  - destruct (Z.eqb_spec k' k0); [reflexivity | exact IH].
Qed.

Lemma set_set k v v' d : set k v (set k v' d) = set k v d.
Proof.
  induction d as [|[k0 v0] d IH]; simpl.
  - now rewrite Z.eqb_refl.
  - destruct (Z.eqb_spec k k0); simpl.
    + now rewrite Z.eqb_refl.
    + destruct (Z.eqb_spec k k0); [contradiction | now rewrite IH].
Qed.

Lemma set_get_same k v d : get k d = Some v -> set k v d = d.
Proof.
  induction d as [|[k0 v0] d IH]; simpl; [discriminate|].
  destruct (Z.eqb_spec k k0).
  - intros [= ->]. now subst.
  - intros H. now rewrite IH.
Qed.

Lemma del_set k v d : del k (set k v d) = del k d.
Proof.
  unfold del.
  induction d as [|[k0 v0] d IH]; simpl.
  - now rewrite Z.eqb_refl.
  - destruct (Z.eqb_spec k k0); simpl.
    + now rewrite Z.eqb_refl.
    + destruct (Z.eqb_spec k k0); [contradiction | now rewrite IH].
Qed.

Lemma del_absent k d : get k d = None -> del k d = d.
Proof.
  unfold del.
  induction d as [|[k0 v0] d IH]; simpl; [reflexivity|].
  destruct (Z.eqb_spec k k0); [discriminate|].
  intros H. simpl. now rewrite IH.
Qed.

Lemma get_In k v d : get k d = Some v -> In (k, v) d.
Proof.
  induction d as [|[k0 v0] d IH]; simpl; [discriminate|].
  destruct (Z.eqb_spec k k0).
  - intros [= ->]. subst. now left.
  - intros H. right. now apply IH.
Qed.

Lemma In_keys_get k d : In k (keys d) <-> get k d <> None.
Proof.
  induction d as [|[k0 v0] d IH]; simpl.
  - split; [tauto | congruence].
  - destruct (Z.eqb_spec k k0).
    + subst. split; [discriminate | now left].
    + rewrite <- IH. split; [intros [?|?]; [congruence | assumption] | now right].
Qed.

Lemma In_set kv k v d : In kv (set k v d) -> kv = (k, v) \/ In kv d.
Proof.
  induction d as [|[k0 v0] d IH]; simpl.
  - intros [<-|[]]. now left.
  - destruct (Z.eqb_spec k k0); simpl.
    + intros [<-|H]; [now left | right; now right].
    + intros [<-|H]; [right; now left|].
      destruct (IH H) as [->|H']; [now left | right; now right].
Qed.

(** Keys stay distinct, as they are in a Python dictionary. *)
Lemma keys_set k v d :
  keys (set k v d) = if contains k d then keys d else keys d ++ [k].
Proof.
  unfold contains. induction d as [|[k0 v0] d IH]; simpl; [reflexivity|].
  destruct (Z.eqb_spec k k0); simpl.
  - now subst.
  - rewrite IH. now destruct (get k d).
Qed.

Lemma keys_set_NoDup k v d : NoDup (keys d) -> NoDup (keys (set k v d)).
Proof.
  intros H. rewrite keys_set. unfold contains.
  destruct (get k d) eqn:G; [exact H|].
  apply NoDup_app; [exact H | repeat constructor; intros [] | ].
  intros x Hx [<-|[]]. apply In_keys_get in Hx. congruence.
Qed.

Lemma keys_del_NoDup k d : NoDup (keys d) -> NoDup (keys (del k d)).
Proof.
  unfold del, keys. induction d as [|[k0 v0] d IH]; simpl; [trivial|].
  intros H. inversion H as [|? ? Hnot Hrest]; subst.
  destruct (Z.eqb_spec k k0); simpl; [now apply IH|].
  constructor; [|now apply IH].
  intros Hin. apply Hnot. apply in_map_iff in Hin.
  destruct Hin as (kv & E & Hin). apply filter_In in Hin.
  apply in_map_iff. exists kv. tauto.
Qed.

Lemma In_del kv k d : In kv (del k d) -> In kv d /\ fst kv <> k.
Proof.
  unfold del. rewrite filter_In. intros [H Hk]. split; [exact H|].
  destruct (Z.eqb_spec k (fst kv)); [discriminate | congruence].
Qed.
End Facts.
End DictFacts.

Lemma list_contains_In x l : list_contains x l = true <-> In x l.
Proof.
  induction l as [|y l IH]; simpl; [split; [discriminate | tauto]|].
  destruct (ws_eqb_spec x y).
  - subst. split; [now left | reflexivity].
  - rewrite IH. split; [now right | intros [?|?]; [congruence | assumption]].
Qed.

Lemma list_remove_contains x l :
  list_contains x l = true -> list_remove x l = Some (remove_first x l).
Proof.
  unfold remove_first. induction l as [|y l IH]; simpl; [discriminate|].
  destruct (ws_eqb x y); [reflexivity|].
  intros H. specialize (IH H). destruct (list_remove x l); [reflexivity | discriminate].
Qed.

Lemma list_remove_absent x l :
  list_contains x l = false -> list_remove x l = None.
Proof.
  induction l as [|y l IH]; simpl; [reflexivity|].
  destruct (ws_eqb x y); [discriminate|].
  intros H. now rewrite (IH H).
Qed.

Lemma remove_first_head x l : remove_first x (x :: l) = l.
Proof.
  unfold remove_first. simpl.
  destruct (ws_eqb_spec x x); [reflexivity | congruence].
Qed.

Lemma remove_first_absent x l : ~ In x l -> remove_first x l = l.
Proof.
  intros H. unfold remove_first. rewrite list_remove_absent; [reflexivity|].
  destruct (list_contains x l) eqn:E; [|reflexivity].
  apply list_contains_In in E. contradiction.
Qed.

Lemma remove_first_cons_other x y l :
  x <> y -> remove_first x (y :: l) = y :: remove_first x l.
Proof.
  intros Hne. unfold remove_first. simpl.
  destruct (ws_eqb_spec x y); [contradiction|].
  destruct (list_remove x l); reflexivity.
Qed.

Lemma remove_first_perm x l :
  In x l -> Permutation l (x :: remove_first x l).
Proof.
  induction l as [|y l IH]; simpl; [tauto|].
  intros H. destruct (ws_eq_dec x y) as [->|Hne].
  - rewrite remove_first_head. reflexivity.
  - rewrite remove_first_cons_other by assumption.
    destruct H as [H|H]; [congruence|].
    rewrite (IH H) at 1. apply perm_swap.
Qed.

Lemma remove_first_count x y l :
  count_occ ws_eq_dec (remove_first x l) y =
  if ws_eq_dec x y then Nat.pred (count_occ ws_eq_dec l y)
  else count_occ ws_eq_dec l y.
Proof.
  induction l as [|z l IH].
  - simpl. unfold remove_first; simpl. now destruct (ws_eq_dec x y).
  - destruct (ws_eq_dec x z) as [->|Hne].
    + rewrite remove_first_head. simpl.
      destruct (ws_eq_dec z y); [reflexivity|reflexivity].
    + rewrite remove_first_cons_other by assumption. simpl.
      rewrite IH.
      destruct (ws_eq_dec z y), (ws_eq_dec x y); try congruence; try reflexivity.
  Qed.

Lemma remove_first_length x l :
  In x l -> List.length (remove_first x l) = Nat.pred (List.length l).
Proof.
  intros H. apply remove_first_perm in H.
  apply Permutation_length in H. simpl in H. lia.
Qed.

(* ===================================================================== *)
(** ** What each [ConnectionManager] method does to the state *)
(* ===================================================================== *)

Lemma bind_run {A B} (m : M A) (k : A -> M B) w a w1 :
  m w = (Ok a, w1) -> bind m k w = k a w1.
Proof. intros H. unfold bind. now rewrite H. Qed.

Lemma with_trace_id (w : World) : with_trace (trace w) w = w.
Proof. now destruct w. Qed.

Lemma connections_with_trace (tr : list Event) (w : World) :
  active_connections (with_trace tr w) = active_connections w.
Proof. reflexivity. Qed.

Section ManagerFacts.
Variable env : Env.

Lemma attempts_app payload a b tr :
  attempts env payload (a ++ b) tr =
  attempts env payload a tr ++ attempts env payload b (tr ++ attempts env payload a tr).
Proof.
  revert tr. induction a as [|c a IH]; intros tr; simpl.
  - now rewrite app_nil_r.
  - f_equal. rewrite IH. now rewrite <- app_assoc.
Qed.

Lemma attempts_targets payload targets tr :
  Forall2 (fun c ev => exists ok, ev = EvSendText c payload ok)
          targets (attempts env payload targets tr).
Proof.
  revert tr. induction targets as [|c l IH]; intros tr; simpl.
  - constructor.
  - constructor; [eexists; reflexivity | apply IH].
Qed.


Lemma attempts_split payload targets tr :
  Permutation targets
    (refused (attempts env payload targets tr)
     ++ accepted (attempts env payload targets tr)).
Proof.
  revert tr. induction targets as [|c l IH]; intros tr; simpl.
  - constructor.
  - destruct (send_text_ok env tr c payload); simpl.
    + apply Permutation_cons_app. apply IH.
    + constructor. apply IH.
Qed.

Lemma push_all_run payload conns w :
  for_each conns (fun connection =>
    try_except (send_text env connection payload) (fun _ => ret tt)) w
  = (Ok tt, with_trace (trace w ++ attempts env payload conns (trace w)) w).
Proof.
  revert w. induction conns as [|c l IH]; intros w; simpl.
  - unfold ret. now rewrite app_nil_r, with_trace_id.
  - unfold bind at 1. unfold try_except, send_text.
    destruct (send_text_ok env (trace w) c payload) eqn:E;
      (unfold ret; rewrite IH; simpl; now rewrite <- app_assoc).
Qed.

Lemma broadcast_user_status_run uid status w :
  broadcast_user_status env uid status w
  = (Ok tt,
     with_trace (trace w ++ attempts env (user_status_message uid status)
                                     (all_handles (active_connections w))
                                     (trace w)) w).
Proof.
  unfold broadcast_user_status, bind at 1. unfold all_handles, PyDict.items, PyDict.values.
  set (p := user_status_message uid status).
  generalize (active_connections w) as snapshot.
  revert w. intros w snapshot. revert w.
  induction snapshot as [|[k conns] rest IH]; intros w; simpl.
  - unfold ret. now rewrite app_nil_r, with_trace_id.
  - unfold bind at 1. rewrite push_all_run. rewrite IH. simpl.
    rewrite attempts_app. now rewrite app_assoc.
Qed.

Lemma run_tasks_run pending : forall w,
  for_each pending (run_task env) w
  = (Ok tt,
     with_trace (trace w ++ announcements env pending
                              (all_handles (active_connections w)) (trace w))
                w).
Proof.
  induction pending as [|[uid status] rest IH]; intros w; simpl.
  - unfold ret. now rewrite app_nil_r, with_trace_id.
  - unfold bind at 1. rewrite broadcast_user_status_run, IH. simpl.
    now rewrite app_assoc.
Qed.

Lemma run_pending_tasks_run w :
  run_pending_tasks env w
  = (Ok tt,
     with_trace (trace w ++ announcements env (tasks w)
                              (all_handles (active_connections w)) (trace w))
                (with_tasks [] w)).
Proof.
  unfold run_pending_tasks, bind at 1. now rewrite run_tasks_run.
Qed.


Lemma is_user_online_run uid w :
  is_user_online uid w
  = (Ok (Nat.ltb 0 (List.length (handles_of uid (active_connections w)))), w).
Proof.
  unfold is_user_online, bind, contains_user, getitem, handles_of,
    PyDict.contains, ret.
  destruct (PyDict.get uid (active_connections w)) eqn:G; simpl;
    rewrite ?G; reflexivity.
Qed.

Lemma connect_run uid websocket w :
  connect env uid websocket w
  = match handles_of uid (active_connections w) with
    | [] => broadcast_user_status env uid "online"
              (after_connect uid websocket w)
    | _ :: _ => (Ok tt, after_connect uid websocket w)
    end.
Proof.
  unfold connect, after_connect, handles_of.
  unfold bind, contains_user, getitem, setitem, PyDict.contains, ret.
  destruct (PyDict.get uid (active_connections w)) as [conns|] eqn:G;
    cbn; rewrite ?G; cbn.
  - rewrite G. destruct conns; reflexivity.
  - rewrite DictFacts.get_set_same. cbn.
    now rewrite DictFacts.set_set.
Qed.

Lemma disconnect_run uid websocket w :
  disconnect uid websocket w = (Ok tt, after_disconnect uid websocket w).
Proof.
  unfold disconnect, after_disconnect.
  unfold bind, contains_user, getitem, setitem, delitem, create_task,
    PyDict.contains, ret.
  destruct (PyDict.get uid (active_connections w)) as [conns|] eqn:G;
    [|reflexivity].
  cbn. rewrite G.
  destruct (list_contains websocket conns) eqn:C.
  - rewrite (list_remove_contains _ _ C). cbn.
    rewrite DictFacts.get_set_same.
    destruct (remove_first websocket conns) eqn:R; cbn.
    + rewrite DictFacts.get_set_same. now rewrite DictFacts.del_set.
    + reflexivity.
  - cbn. rewrite G.
    assert (R : remove_first websocket conns = conns).
    { unfold remove_first. now rewrite (list_remove_absent _ _ C). }
    rewrite R. destruct conns; cbn.
    + now rewrite G.
    + rewrite (DictFacts.set_get_same _ _ G). now destruct w.
Qed.

Lemma handles_after_disconnect uid websocket w :
  handles_of uid (active_connections (after_disconnect uid websocket w))
  = remove_first websocket (handles_of uid (active_connections w)).
Proof.
  unfold after_disconnect, handles_of.
  destruct (PyDict.get uid (active_connections w)) as [conns|] eqn:G.
  - destruct (remove_first websocket conns) eqn:R; simpl.
    + now rewrite DictFacts.get_del_same.
    + now rewrite DictFacts.get_set_same.
  - rewrite G. reflexivity.
Qed.

Lemma others_after_disconnect uid websocket k w :
  uid <> k ->
  PyDict.get k (active_connections (after_disconnect uid websocket w))
  = PyDict.get k (active_connections w).
Proof.
  intros Hne. unfold after_disconnect.
  destruct (PyDict.get uid (active_connections w)) as [conns|] eqn:G;
    [|reflexivity].
  destruct (remove_first websocket conns); simpl.
  - now apply DictFacts.get_del_other.
  - now apply DictFacts.get_set_other.
Qed.

Lemma trace_after_disconnect uid websocket w :
  trace (after_disconnect uid websocket w) = trace w.
Proof.
  unfold after_disconnect.
  destruct (PyDict.get uid (active_connections w)); [|reflexivity].
  destruct (remove_first websocket _); reflexivity.
Qed.

Lemma db_after_disconnect uid websocket w :
  db (after_disconnect uid websocket w) = db w.
Proof.
  unfold after_disconnect.
  destruct (PyDict.get uid (active_connections w)); [|reflexivity].
  destruct (remove_first websocket _); reflexivity.
Qed.

Lemma cleanup_run uid dead w :
  for_each dead (fun connection => disconnect uid connection) w
  = (Ok tt, cleanup uid dead w).
Proof.
  revert w. induction dead as [|c l IH]; intros w; simpl; [reflexivity|].
  unfold bind. rewrite disconnect_run. apply IH.
Qed.

Lemma collect_run payload conns acc w :
  for_acc conns acc (fun connection disconnected =>
    try_except (send_text env connection payload ;; ret disconnected)
               (fun _ => ret (disconnected ++ [connection]))) w
  = (Ok (acc ++ refused (attempts env payload conns (trace w))),
     with_trace (trace w ++ attempts env payload conns (trace w)) w).
Proof.
  revert acc w. induction conns as [|c l IH]; intros acc w; simpl.
  - unfold ret. now rewrite !app_nil_r, with_trace_id.
  - unfold bind at 1. unfold try_except, bind, send_text.
    destruct (send_text_ok env (trace w) c payload) eqn:E;
      unfold ret; rewrite IH; simpl; rewrite <- !app_assoc; reflexivity.
Qed.

Lemma send_personal_message_run payload uid w :
  send_personal_message env payload uid w
  = match PyDict.get uid (active_connections w) with
    | None => (Ok tt, w)
    | Some conns =>
        let pushed := attempts env payload conns (trace w) in
        (Ok tt, cleanup uid (refused pushed)
                        (with_trace (trace w ++ pushed) w))
    end.
Proof.
  unfold send_personal_message.
  erewrite bind_run by (unfold contains_user; reflexivity).
  unfold PyDict.contains.
  destruct (PyDict.get uid (active_connections w)) as [conns|] eqn:G;
    [|reflexivity].
  erewrite bind_run by (unfold getitem; rewrite G; reflexivity).
  erewrite bind_run by apply collect_run.
  apply cleanup_run.
Qed.

End ManagerFacts.

(* ===================================================================== *)
(** ** Presence: the registry under [connect] and [disconnect] *)
(* ===================================================================== *)

Section Presence.
Variable env : Env.

Lemma connect_state uid websocket w :
  exists pushed,
    connect env uid websocket w
    = (Ok tt, with_trace (trace w ++ pushed) (after_connect uid websocket w)).
Proof.
  rewrite connect_run.
  destruct (handles_of uid (active_connections w)).
  - rewrite broadcast_user_status_run. eexists. reflexivity.
  - exists []. rewrite app_nil_r.
    now destruct w.
Qed.

Lemma handles_after_connect uid websocket w :
  handles_of uid (active_connections (after_connect uid websocket w))
  = handles_of uid (active_connections w) ++ [websocket].
Proof.
  unfold after_connect, handles_of at 1. simpl.
  now rewrite DictFacts.get_set_same.
Qed.

Lemma run_calls_ledger uid calls : forall w s,
  (forall x, count_occ ws_eq_dec (handles_of uid (active_connections w)) x
             = present s x) ->
  List.length (handles_of uid (active_connections w)) = net s ->
  exists w',
    run_calls env uid calls w = (Ok tt, w')
    /\ List.length (handles_of uid (active_connections w'))
       = net (fold_left ledger_step calls s).
Proof.
  induction calls as [|c calls IH]; intros w s Hcount Hlen.
  - exists w. split; [reflexivity | exact Hlen].
  - unfold run_calls. simpl.
    destruct c as [ws|ws]; simpl.
    + destruct (connect_state uid ws w) as [pushed Hc].
      erewrite bind_run by exact Hc.
      apply IH; rewrite connections_with_trace, handles_after_connect.
      * intros x. rewrite count_occ_app, Hcount. simpl.
        destruct (ws_eq_dec ws x); lia.
      * rewrite length_app, Hlen. simpl. lia.
    + erewrite bind_run by apply disconnect_run.
      pose proof (Hcount ws) as Hws.
      destruct (Nat.ltb_spec 0 (present s ws)) as [Hpos|Hzero].
      * apply IH; rewrite handles_after_disconnect.
        -- intros x. rewrite remove_first_count, Hcount. reflexivity.
        -- rewrite remove_first_length.
           ++ simpl. rewrite Hlen. lia.
           ++ apply (count_occ_In ws_eq_dec). lia.
      * assert (Hnot : ~ In ws (handles_of uid (active_connections w))).
        { rewrite (count_occ_not_In ws_eq_dec). lia. }
        apply IH; rewrite handles_after_disconnect,
                    (remove_first_absent _ _ Hnot); assumption.
Qed.

(** C2.  After any sequence of [connect] and [disconnect] calls for one
    user on an empty registry, [is_user_online] answers true exactly
    when the net number of registered handles (one up per registration,
    one down, not below zero, per deregistration of a handle present at
    that moment, other deregistrations ignored) is positive. *)
Theorem online_iff_net_registered_positive :
  forall (uid : Z) (calls : list Call)
         (b : Database) (q : list Task) (tr : list Event),
  exists w,
    run_calls env uid calls (mkWorld PyDict.empty b q tr) = (Ok tt, w)
    /\ is_user_online uid w = (Ok (Nat.ltb 0 (net_registered calls)), w).
Proof.
  intros uid calls b q tr.
  destruct (run_calls_ledger uid calls (mkWorld PyDict.empty b q tr)
              (mkLedger (fun _ => 0) 0)) as [w [Hrun Hlen]];
    [reflexivity | reflexivity |].
  exists w. split; [exact Hrun|].
  rewrite is_user_online_run, Hlen. reflexivity.
Qed.

Lemma no_empty_entry_keys d :
  no_empty_entry d ->
  forall k, In k (PyDict.keys d) <-> handles_of k d <> [].
Proof.
  intros Hinv k. rewrite DictFacts.In_keys_get. unfold handles_of.
  destruct (PyDict.get k d) as [conns|] eqn:G.
  - split; [|congruence]. intros _.
    apply DictFacts.get_In in G.
    unfold no_empty_entry in Hinv. rewrite Forall_forall in Hinv.
    exact (Hinv _ G).
  - split; congruence.
Qed.

Lemma no_empty_entry_set uid conns d :
  conns <> [] -> no_empty_entry d -> no_empty_entry (PyDict.set uid conns d).
Proof.
  unfold no_empty_entry. rewrite !Forall_forall.
  intros Hne Hinv kv Hin.
  destruct (DictFacts.In_set _ _ _ _ Hin) as [->|H]; [exact Hne | now apply Hinv].
Qed.

Lemma no_empty_entry_del uid d :
  no_empty_entry d -> no_empty_entry (PyDict.del uid d).
Proof.
  unfold no_empty_entry. rewrite !Forall_forall.
  intros Hinv kv Hin. apply Hinv. now apply DictFacts.In_del in Hin.
Qed.

Lemma no_empty_entry_disconnect uid websocket w :
  no_empty_entry (active_connections w) ->
  no_empty_entry (active_connections (after_disconnect uid websocket w)).
Proof.
  intros Hinv. unfold after_disconnect.
  destruct (PyDict.get uid (active_connections w)); [|exact Hinv].
  destruct (remove_first websocket l) eqn:R; simpl.
  - now apply no_empty_entry_del.
  - apply no_empty_entry_set; [discriminate | exact Hinv].
Qed.

Lemma no_empty_entry_cleanup uid dead : forall w,
  no_empty_entry (active_connections w) ->
  no_empty_entry (active_connections (cleanup uid dead w)).
Proof.
  induction dead as [|c dead IH]; intros w Hinv; simpl; [exact Hinv|].
  apply IH. now apply no_empty_entry_disconnect.
Qed.

(** C3.  [connect], [disconnect] and [send_personal_message] keep the
    registry invariant: no entry is left with an empty list, so a user
    is a key of [active_connections] exactly when its handle list is
    not empty. *)
Theorem registry_invariant_preserved :
  forall (uid : Z) (websocket : WebSocket) (payload : Json) (w : World),
    no_empty_entry (active_connections w) ->
    presence_consistent
      (active_connections (snd (connect env uid websocket w)))
    /\ presence_consistent
         (active_connections (snd (disconnect uid websocket w)))
    /\ presence_consistent
         (active_connections (snd (send_personal_message env payload uid w))).
Proof.
  intros uid websocket payload w Hinv.
  assert (K : forall d, no_empty_entry d -> presence_consistent d)
    by (intros d H; split; [exact H | now apply no_empty_entry_keys]).
  split; [|split]; apply K.
  - destruct (connect_state uid websocket w) as [pushed ->]. simpl.
    apply no_empty_entry_set; [|exact Hinv].
    now destruct (handles_of uid (active_connections w)).
  - rewrite disconnect_run. simpl. now apply no_empty_entry_disconnect.
  - rewrite send_personal_message_run.
    destruct (PyDict.get uid (active_connections w)); [|exact Hinv].
    simpl. now apply no_empty_entry_cleanup.
Qed.

End Presence.

Section PresenceEvents.
Variable env : Env.



(** C5.  [disconnect] of a user's only handle removes the user's entry
    and schedules one "offline" broadcast; [disconnect] of a handle of
    a user who keeps another one schedules nothing.  Neither sends
    anything itself. *)
Theorem disconnect_schedules_offline_on_last_handle :
  forall (uid : Z) (websocket : WebSocket) (w : World),
    (handles_of uid (active_connections w) = [websocket] ->
     exists w',
       disconnect uid websocket w = (Ok tt, w')
       /\ tasks w' = tasks w ++ [BroadcastTask uid "offline"]
       /\ ~ In uid (PyDict.keys (active_connections w'))
       /\ trace w' = trace w)
    /\ (In websocket (handles_of uid (active_connections w)) ->
        2 <= List.length (handles_of uid (active_connections w)) ->
        exists w',
          disconnect uid websocket w = (Ok tt, w')
          /\ tasks w' = tasks w
          /\ trace w' = trace w
          /\ handles_of uid (active_connections w')
             = remove_first websocket (handles_of uid (active_connections w))
          /\ handles_of uid (active_connections w') <> []).
Proof.
  intros uid websocket w. split.
  - intros H. rewrite disconnect_run. eexists. split; [reflexivity|].
    unfold after_disconnect. unfold handles_of in H.
    destruct (PyDict.get uid (active_connections w)) as [conns|];
      [|discriminate].
    subst conns. rewrite remove_first_head. simpl.
    split; [reflexivity|]. split; [|reflexivity].
    rewrite DictFacts.In_keys_get, DictFacts.get_del_same. congruence.
  - intros Hin Hlen. rewrite disconnect_run. eexists.
    split; [reflexivity|].
    pose proof (remove_first_length _ _ Hin) as Hrm.
    rewrite handles_after_disconnect, trace_after_disconnect.
    unfold after_disconnect. unfold handles_of in *.
    destruct (PyDict.get uid (active_connections w)) as [conns|];
      [|contradiction].
    destruct (remove_first websocket conns) eqn:R.
    + simpl in Hrm. lia.
    + repeat split; try reflexivity. discriminate.
Qed.

(** What the scheduled task does once the event loop runs it: the
    status is pushed to every handle then registered. *)
Lemma run_next_task_broadcasts uid status rest w :
  tasks w = BroadcastTask uid status :: rest ->
  exists pushed,
    run_next_task env w
    = (Ok tt, with_trace (trace w ++ pushed) (with_tasks rest w))
    /\ Forall2 (fun c ev =>
                  exists ok, ev = EvSendText c (user_status_message uid status) ok)
               (all_handles (active_connections w)) pushed.
Proof.
  intros H. unfold run_next_task. rewrite H.
  rewrite broadcast_user_status_run. eexists. split; [reflexivity|].
  apply attempts_targets.
Qed.

(** C6, as the code has it.  When the handle is registered at most once
    for the user, a second [disconnect] right after the first changes
    nothing: same registry, same scheduled tasks, same trace, and no
    exception. *)
Theorem disconnect_idempotent_without_duplicates :
  forall (uid : Z) (websocket : WebSocket) (w : World),
    count_occ ws_eq_dec (handles_of uid (active_connections w)) websocket <= 1 ->
    exists w1,
      disconnect uid websocket w = (Ok tt, w1)
      /\ disconnect uid websocket w1 = (Ok tt, w1).
Proof.
  intros uid websocket w Hcount.
  exists (after_disconnect uid websocket w).
  split; [apply disconnect_run|].
  rewrite disconnect_run. f_equal.
  pose proof (handles_after_disconnect uid websocket w) as Hh.
  pose proof (remove_first_count websocket websocket
                (handles_of uid (active_connections w))) as Hc.
  destruct (ws_eq_dec websocket websocket); [|congruence].
  rewrite <- Hh in Hc.
  set (w1 := after_disconnect uid websocket w) in *.
  assert (Hnot : ~ In websocket (handles_of uid (active_connections w1))).
  { rewrite (count_occ_not_In ws_eq_dec). lia. }
  unfold after_disconnect at 1. unfold handles_of in Hnot.
  destruct (PyDict.get uid (active_connections w1)) as [conns|] eqn:G;
    [|reflexivity].
  rewrite (remove_first_absent _ _ Hnot).
  destruct conns as [|c conns].
  - exfalso. subst w1. unfold after_disconnect in G.
    destruct (PyDict.get uid (active_connections w)) as [l|] eqn:G0.
    + destruct (remove_first websocket l) eqn:R; simpl in G.
      * rewrite DictFacts.get_del_same in G. discriminate.
      * rewrite DictFacts.get_set_same in G. discriminate.
    + rewrite G0 in G. discriminate.
  - rewrite (DictFacts.set_get_same _ _ G). now destruct w1.
Qed.

(** X8.  A presence broadcast contains its failures: every handle of the
    registry gets its attempt whatever the others do, nothing is raised,
    and the registry is left as it was. *)
Lemma broadcast_attempts_every_handle uid status w :
  exists pushed,
    broadcast_user_status env uid status w
    = (Ok tt, with_trace (trace w ++ pushed) w)
    /\ Forall2 (fun c ev =>
                  exists ok, ev = EvSendText c (user_status_message uid status) ok)
               (all_handles (active_connections w)) pushed.
Proof.
  rewrite broadcast_user_status_run. eexists. split; [reflexivity|].
  apply attempts_targets.
Qed.

End PresenceEvents.

(* ===================================================================== *)
(** ** The storage functions *)
(* ===================================================================== *)

Lemma sends_app (t1 t2 : list Event) : sends (t1 ++ t2) = sends t1 ++ sends t2.
Proof. unfold sends. apply filter_app. Qed.

Lemma quiet_ret {A} (a : A) : quiet (ret a).
Proof. intros w. repeat split. Qed.

Lemma quiet_raise {A} (e : Exn) : quiet (@raise A e).
Proof. intros w. repeat split. Qed.

Lemma quiet_at_bind {A B} (m : M A) (k : A -> M B) w :
  quiet_at m w ->
  (forall a w1, m w = (Ok a, w1) -> quiet_at (k a) w1) ->
  quiet_at (bind m k) w.
Proof.
  unfold quiet_at, bind. intros Hm Hk.
  destruct (m w) as [[a|e] w1] eqn:E; simpl in Hm.
  - specialize (Hk a w1 eq_refl).
    destruct Hm as (H1 & H2 & H3), Hk as (K1 & K2 & K3).
    repeat split; congruence.
  - exact Hm.
Qed.

Lemma quiet_bind {A B} (m : M A) (k : A -> M B) :
  quiet m -> (forall a, quiet (k a)) -> quiet (bind m k).
Proof.
  intros Hm Hk w. apply quiet_at_bind; [apply Hm|].
  intros a w1 _. apply Hk.
Qed.

Lemma quiet_at_try_except {A} (m : M A) (h : Exn -> M A) w :
  quiet_at m w -> (forall e, quiet (h e)) -> quiet_at (try_except m h) w.
Proof.
  unfold quiet_at, try_except. intros Hm Hh.
  destruct (m w) as [[a|e] w1] eqn:E; simpl in Hm; [exact Hm|].
  destruct (Hh e w1) as (K1 & K2 & K3), Hm as (H1 & H2 & H3).
  repeat split; congruence.
Qed.

Lemma quiet_scalar_one_or_none {A} (rows : list A) :
  quiet (scalar_one_or_none rows).
Proof.
  destruct rows as [|r [|r' rows]]; simpl;
    [apply quiet_ret | apply quiet_ret | apply quiet_raise].
Qed.

Ltac quiet_db :=
  intros w; unfold quiet_at; simpl;
  repeat match goal with
         | |- context [match ?x with _ => _ end] => destruct x; simpl
         end;
  rewrite ?sends_app; simpl; rewrite ?app_nil_r; repeat split.

Section StorageFacts.
Variable env : Env.

Lemma quiet_now : quiet (now env).
Proof. quiet_db. Qed.

Lemma quiet_select_users p : quiet (select_users p).
Proof. quiet_db. Qed.

Lemma quiet_select_conversations p : quiet (select_conversations p).
Proof. quiet_db. Qed.

Lemma quiet_select_messages p : quiet (select_messages p).
Proof. quiet_db. Qed.

Lemma quiet_insert_user n e p f b a : quiet (insert_user env n e p f b a).
Proof. unfold insert_user. quiet_db. Qed.

Lemma quiet_update_user row : quiet (update_user row).
Proof. unfold update_user. quiet_db. Qed.

Lemma quiet_insert_conversation p1 p2 t :
  quiet (insert_conversation p1 p2 t).
Proof. unfold insert_conversation. quiet_db. Qed.

Lemma quiet_insert_message c s x t st :
  quiet (insert_message c s x t st).
Proof. unfold insert_message. quiet_db. Qed.

Lemma quiet_write_message_status i st : quiet (write_message_status i st).
Proof. unfold write_message_status. quiet_db. Qed.

Lemma quiet_get_or_create_conversation a b :
  quiet (get_or_create_conversation env a b).
Proof.
  unfold get_or_create_conversation.
  apply quiet_bind; [apply quiet_select_conversations | intros rows].
  apply quiet_bind; [apply quiet_scalar_one_or_none | intros [c|]].
  - apply quiet_ret.
  - apply quiet_bind; [apply quiet_now | intros t].
    apply quiet_insert_conversation.
Qed.

Lemma quiet_create_message sid data : quiet (create_message env sid data).
Proof.
  unfold create_message.
  apply quiet_bind; [apply quiet_get_or_create_conversation | intros c].
  apply quiet_bind; [apply quiet_now | intros t].
  apply quiet_insert_message.
Qed.

Lemma quiet_get_user_by_id uid : quiet (get_user_by_id uid).
Proof.
  unfold get_user_by_id.
  apply quiet_bind; [apply quiet_select_users | intros rows].
  apply quiet_scalar_one_or_none.
Qed.

Lemma quiet_get_or_create_user n e p f b a :
  quiet (get_or_create_user env n e p f b a).
Proof.
  unfold get_or_create_user, get_user_by_username, create_user.
  apply quiet_bind.
  - apply quiet_bind; [apply quiet_select_users | intros rows].
    apply quiet_scalar_one_or_none.
  - intros [user|]; [|apply quiet_insert_user].
    apply quiet_bind; [|intros; apply quiet_ret].
    destruct (user_eqb _ user); [apply quiet_ret | apply quiet_update_user].
Qed.

Lemma rows_between_comm a b d : rows_between a b d = rows_between b a d.
Proof. unfold rows_between. now rewrite Z.min_comm, Z.max_comm. Qed.

Lemma get_or_create_conversation_comm a b w :
  get_or_create_conversation env a b w = get_or_create_conversation env b a w.
Proof.
  unfold get_or_create_conversation.
  now rewrite (Z.min_comm a b), (Z.max_comm a b).
Qed.

Lemma get_or_create_conversation_found a b c w :
  rows_between a b (db w) = [c] ->
  get_or_create_conversation env a b w = (Ok c, w).
Proof.
  intros H. unfold get_or_create_conversation.
  erewrite bind_run by (unfold select_conversations; reflexivity).
  fold (rows_between a b (db w)). rewrite H. reflexivity.
Qed.

Lemma rows_between_In a b c d :
  In c (rows_between a b d) ->
  participant_1_id c = Z.min a b /\ participant_2_id c = Z.max a b
  /\ conversation_exists (conv_id c) d = true.
Proof.
  unfold rows_between. rewrite filter_In, andb_true_iff, !Z.eqb_eq.
  intros [Hin [H1 H2]]. repeat split; try assumption.
  unfold conversation_exists. apply existsb_exists.
  exists c. split; [exact Hin | apply Z.eqb_refl].
Qed.

(** Whatever the lookup returns is, from then on, the one row of the
    pair. *)
Lemma get_or_create_conversation_inv a b c w w1 :
  get_or_create_conversation env a b w = (Ok c, w1) ->
  rows_between a b (db w1) = [c]
  /\ users (db w1) = users (db w)
  /\ messages (db w1) = messages (db w)
  /\ next_message_id (db w1) = next_message_id (db w).
Proof.
  unfold get_or_create_conversation.
  erewrite bind_run by (unfold select_conversations; reflexivity).
  fold (rows_between a b (db w)).
  destruct (rows_between a b (db w)) as [|c0 [|c1 rows]] eqn:R; simpl.
  - unfold bind, ret, now, insert_conversation.
    destruct (user_exists (Z.min a b) (db w) && user_exists (Z.max a b) (db w));
      [|discriminate].
    intros [= <- <-]. simpl. repeat split.
    unfold rows_between in *. simpl. rewrite filter_app, R. simpl.
    now rewrite !Z.eqb_refl.
  - unfold bind, ret. intros [= <- <-]. now repeat split.
  - unfold bind, raise. discriminate.
Qed.

Lemma user_exists_min_max a b d :
  user_exists a d = true -> user_exists b d = true ->
  user_exists (Z.min a b) d && user_exists (Z.max a b) d = true.
Proof.
  intros Ha Hb.
  destruct (Z.min_spec a b) as [[_ ->]|[_ ->]],
           (Z.max_spec a b) as [[_ ->]|[_ ->]];
    now rewrite ?Ha, ?Hb.
Qed.

(** The lookup succeeds when both users exist and the pair has at most
    one row. *)
Lemma get_or_create_conversation_ok a b w :
  List.length (rows_between a b (db w)) <= 1 ->
  user_exists a (db w) = true -> user_exists b (db w) = true ->
  exists c w1 evs,
    get_or_create_conversation env a b w = (Ok c, w1)
    /\ trace w1 = trace w ++ evs /\ sends evs = []
    /\ conversation_exists (conv_id c) (db w1) = true.
Proof.
  intros Hlen Ha Hb.
  destruct (rows_between a b (db w)) as [|c0 [|c1 rows]] eqn:R.
  - unfold get_or_create_conversation.
    erewrite bind_run by (unfold select_conversations; reflexivity).
    fold (rows_between a b (db w)). rewrite R. simpl.
    unfold bind, ret, now, insert_conversation.
    rewrite (user_exists_min_max _ _ _ Ha Hb).
    eexists. eexists. eexists.
    split; [reflexivity|]. split; [reflexivity|]. split; [reflexivity|].
    unfold conversation_exists. simpl. rewrite existsb_app. simpl.
    rewrite Z.eqb_refl. now rewrite orb_true_r.
  - exists c0, w, []. rewrite (get_or_create_conversation_found _ _ _ R).
    rewrite app_nil_r. repeat split.
    apply (rows_between_In a b). rewrite R. now left.
  - simpl in Hlen. lia.
Qed.

End StorageFacts.

(* ===================================================================== *)
(** ** Routing a new message *)
(* ===================================================================== *)

Lemma try_except_ok {A} (m : M A) (h : Exn -> M A) w a w1 :
  m w = (Ok a, w1) -> try_except m h w = (Ok a, w1).
Proof. intros H. unfold try_except. now rewrite H. Qed.

Lemma user_eqb_refl (u : User) : user_eqb u u = true.
Proof.
  unfold user_eqb.
  rewrite Z.eqb_refl, !String.eqb_refl.
  destruct (user_full_name u), (user_bio u), (user_avatar_url u);
    simpl; now rewrite ?String.eqb_refl.
Qed.

Lemma filter_singleton_In {A} (p : A -> bool) (l : list A) (x : A) :
  filter p l = [x] -> In x l /\ p x = true.
Proof.
  intros H. apply filter_In. rewrite H. now left.
Qed.

Lemma filter_fresh_id (n : Z) (l : list Message) :
  Forall (fun m => (msg_id m < n)%Z) l ->
  filter (fun m => (msg_id m =? n)%Z) l = [].
Proof.
  induction 1 as [|m l Hm _ IH]; simpl; [reflexivity|].
  destruct (Z.eqb_spec (msg_id m) n); [lia | exact IH].
Qed.

Lemma filter_id_map_status (n : Z) (st : MessageStatus) (l : list Message) :
  filter (fun m => (msg_id m =? n)%Z)
         (map (fun m => if (msg_id m =? n)%Z then set_msg_status st m else m) l)
  = map (set_msg_status st) (filter (fun m => (msg_id m =? n)%Z) l).
Proof.
  induction l as [|m l IH]; simpl; [reflexivity|].
  destruct (Z.eqb_spec (msg_id m) n) as [E|E]; simpl.
  - destruct (Z.eqb_spec (msg_id m) n); [|contradiction].
    now rewrite IH.
  - destruct (Z.eqb_spec (msg_id m) n); [contradiction | exact IH].
Qed.

Lemma fold_remove_first_perm (dead : list WebSocket) :
  forall l rest,
    Permutation l (dead ++ rest) ->
    Permutation (fold_left (fun l' c => remove_first c l') dead l) rest.
Proof.
  induction dead as [|c dead IH]; intros l rest H; simpl; [exact H|].
  apply IH.
  assert (Hin : In c l).
  { apply (Permutation_in c (Permutation_sym H)). now left. }
  apply Permutation_cons_inv with (a := c).
  rewrite <- (remove_first_perm _ _ Hin). exact H.
Qed.

Section Routing.
Variable env : Env.

Lemma db_cleanup uid dead : forall w, db (cleanup uid dead w) = db w.
Proof.
  induction dead as [|c dead IH]; intros w; simpl; [reflexivity|].
  rewrite IH. apply db_after_disconnect.
Qed.

Lemma trace_cleanup uid dead : forall w, trace (cleanup uid dead w) = trace w.
Proof.
  induction dead as [|c dead IH]; intros w; simpl; [reflexivity|].
  rewrite IH. apply trace_after_disconnect.
Qed.

Lemma handles_cleanup uid dead : forall w,
  handles_of uid (active_connections (cleanup uid dead w))
  = fold_left (fun l c => remove_first c l) dead
              (handles_of uid (active_connections w)).
Proof.
  induction dead as [|c dead IH]; intros w; simpl; [reflexivity|].
  rewrite IH. now rewrite handles_after_disconnect.
Qed.

Lemma others_cleanup uid k dead : forall w,
  uid <> k ->
  PyDict.get k (active_connections (cleanup uid dead w))
  = PyDict.get k (active_connections w).
Proof.
  induction dead as [|c dead IH]; intros w Hne; simpl; [reflexivity|].
  rewrite IH by assumption. now apply others_after_disconnect.
Qed.

Lemma get_or_create_user_found name sender w :
  filter (fun u => String.eqb (user_username u) name) (users (db w))
  = [sender] ->
  get_or_create_user env name None None None None None w = (Ok sender, w).
Proof.
  intros H. unfold get_or_create_user, get_user_by_username.
  erewrite bind_run
    by (erewrite bind_run by (unfold select_users; reflexivity);
        rewrite H; reflexivity).
  simpl.
  replace (mkUser _ _ _ _ _ _ _ _) with sender by now destruct sender.
  rewrite user_eqb_refl. reflexivity.
Qed.

Lemma get_user_by_id_found uid receiver w :
  filter (fun u => (user_id u =? uid)%Z) (users (db w)) = [receiver] ->
  get_user_by_id uid w = (Ok (Some receiver), w).
Proof.
  intros H. unfold get_user_by_id.
  erewrite bind_run by (unfold select_users; reflexivity).
  rewrite H. reflexivity.
Qed.

Lemma user_exists_filter (p : User -> bool) (u : User) d :
  filter p (users d) = [u] -> user_exists (user_id u) d = true.
Proof.
  intros H. apply filter_singleton_In in H. destruct H as [Hin _].
  unfold user_exists. apply existsb_exists.
  exists u. split; [exact Hin | apply Z.eqb_refl].
Qed.

(** [create_message] stores one new row with status [SENT]. *)
Lemma create_message_ok sid data w :
  List.length (rows_between sid (receiver_id data) (db w)) <= 1 ->
  user_exists sid (db w) = true ->
  user_exists (receiver_id data) (db w) = true ->
  exists m w1 pre,
    create_message env sid data w = (Ok m, w1)
    /\ msg_id m = next_message_id (db w)
    /\ msg_status m = SENT
    /\ messages (db w1) = messages (db w) ++ [m]
    /\ trace w1 = trace w ++ pre
    /\ sends pre = []
    /\ In (EvInsertMessage m) pre.
Proof.
  intros Hlen Hs Hr.
  destruct (get_or_create_conversation_ok env _ _ w Hlen Hs Hr)
    as (c & wa & evs & Hc & Htr & Hev & Hex).
  destruct (get_or_create_conversation_inv _ _ _ _ Hc) as (_ & Hu & Hm & Hn).
  unfold create_message.
  erewrite bind_run by exact Hc.
  unfold bind, now, insert_message.
  assert (Hs' : user_exists sid (db wa) = true).
  { unfold user_exists in *. now rewrite Hu. }
  rewrite Hex, Hs'. simpl.
  eexists. eexists. exists (evs ++ [EvInsertMessage
    (mkMessage (next_message_id (db wa)) (conv_id c) sid (content data)
               (utcnow env (trace wa)) SENT)]).
  split; [reflexivity|]. simpl.
  split; [exact Hn|]. split; [reflexivity|].
  split; [now rewrite Hm|].
  split; [rewrite Htr; now rewrite app_assoc|].
  split; [rewrite sends_app, Hev; reflexivity|].
  apply in_or_app. right. now left.
Qed.

Lemma update_message_status_run mid st m w :
  filter (fun x => (msg_id x =? mid)%Z) (messages (db w)) = [m] ->
  status_eqb (msg_status m) st = false ->
  exists d,
    update_message_status mid st w
    = (Ok (Some (set_msg_status st m)),
       with_trace (trace w ++ [EvUpdateStatus mid st]) (with_db d w))
    /\ stored_status mid d = [st].
Proof.
  intros Hsel Hst. eexists. split.
  - unfold update_message_status.
    erewrite bind_run by (unfold select_messages; reflexivity).
    rewrite Hsel. unfold bind, scalar_one_or_none, ret.
    rewrite Hst. reflexivity.
  - unfold stored_status. simpl. rewrite filter_id_map_status, Hsel.
    reflexivity.
Qed.

Lemma cleanup_tasks uid dead : forall w conns rest,
  PyDict.get uid (active_connections w) = Some conns ->
  conns <> [] ->
  Permutation conns (dead ++ rest) ->
  tasks (cleanup uid dead w)
  = tasks w ++ match rest with
               | [] => [BroadcastTask uid "offline"]
               | _ :: _ => []
               end.
Proof.
  induction dead as [|c dead IH]; intros w conns rest G Hne Hperm.
  - simpl in *. destruct rest as [|r rest].
    + apply Permutation_sym, Permutation_nil in Hperm. contradiction.
    + now rewrite app_nil_r.
  - assert (Hin : In c conns).
    { apply (Permutation_in c (Permutation_sym Hperm)). now left. }
    assert (Hp : Permutation (remove_first c conns) (dead ++ rest)).
    { apply Permutation_cons_inv with (a := c).
      rewrite <- (remove_first_perm _ _ Hin). exact Hperm. }
    change (cleanup uid (c :: dead) w)
      with (cleanup uid dead (after_disconnect uid c w)).
    unfold after_disconnect. rewrite G.
    destruct (remove_first c conns) as [|x l] eqn:R.
    + apply Permutation_nil in Hp.
      destruct dead as [|c' dead]; [|discriminate].
      simpl in Hp. subst rest. reflexivity.
    + rewrite (IH _ (x :: l) rest); [reflexivity | | discriminate | exact Hp].
      simpl. apply DictFacts.get_set_same.
Qed.

(** [send_message] for a recipient with a handle: every handle of the
    recipient gets one push of the envelope built from the stored row,
    the refused handles are deregistered, what is scheduled by then runs
    (the offline broadcast, when every handle refused), and the row is
    then marked delivered, whatever the pushes did. *)
Lemma send_message_online_run data current_user sender w :
  ready_to_send (db w) current_user data sender ->
  handles_of (receiver_id data) (active_connections w) <> [] ->
  exists resp w' pre pushed created announced,
    send_message env data current_user w = (Ok resp, w')
    /\ resp_status resp = DELIVERED
    /\ stored_status (resp_id resp) (db w') = [DELIVERED]
    /\ trace w'
       = trace w ++ pre ++ pushed ++ announced
         ++ [EvUpdateStatus (resp_id resp) DELIVERED]
    /\ sends pre = []
    /\ In (EvInsertMessage created) pre
    /\ model_validate created = set_resp_status SENT resp
    /\ Forall2 (fun c ev =>
                  exists ok,
                    ev = EvSendText c
                           (new_message_envelope (set_resp_status SENT resp))
                           ok)
               (handles_of (receiver_id data) (active_connections w)) pushed
    /\ Permutation
         (handles_of (receiver_id data) (active_connections w'))
         (accepted pushed)
    /\ (forall k, receiver_id data <> k ->
                  PyDict.get k (active_connections w')
                  = PyDict.get k (active_connections w))
    /\ announced
       = announcements env
           (tasks w ++ match accepted pushed with
                       | [] => [BroadcastTask (receiver_id data) "offline"]
                       | _ :: _ => []
                       end)
           (all_handles (active_connections w'))
           (trace w ++ pre ++ pushed)
    /\ tasks w' = [].
Proof.
  intros (Hsender & (receiver & Hreceiver) & Hlen & Hfresh) Honline.
  assert (Hrid : user_exists (receiver_id data) (db w) = true).
  { pose proof (user_exists_filter _ _ Hreceiver) as H.
    destruct (filter_singleton_In _ _ Hreceiver) as [_ E].
    apply Z.eqb_eq in E. now rewrite <- E. }
  destruct (create_message_ok (user_id sender) data w Hlen
              (user_exists_filter _ _ Hsender) Hrid)
    as (m & w1 & pre & Hcreate & Hid & Hst & Hmsgs & Htr & Hpre & Hin).
  destruct (quiet_create_message env (user_id sender) data w)
    as (Hac & Htasks & _).
  rewrite Hcreate in Hac, Htasks. simpl in Hac, Htasks.
  set (payload := new_message_envelope (model_validate m)).
  set (conns := handles_of (receiver_id data) (active_connections w)) in *.
  assert (G : PyDict.get (receiver_id data) (active_connections w1)
              = Some conns).
  { rewrite Hac. subst conns. unfold handles_of in *.
    destruct (PyDict.get (receiver_id data) (active_connections w));
      [reflexivity | congruence]. }
  set (pushed := attempts env payload conns (trace w1)).
  set (w2 := cleanup (receiver_id data) (refused pushed)
                     (with_trace (trace w1 ++ pushed) w1)).
  set (announced := announcements env (tasks w2)
                      (all_handles (active_connections w2)) (trace w2)).
  set (w3 := with_trace (trace w2 ++ announced) (with_tasks [] w2)).
  assert (Hdb2 : db w2 = db w1) by (subst w2; now rewrite db_cleanup).
  assert (Htr2 : trace w2 = trace w1 ++ pushed)
    by (subst w2; now rewrite trace_cleanup).
  assert (Htasks2 : tasks w2
                    = tasks w ++ match accepted pushed with
                                 | [] => [BroadcastTask (receiver_id data)
                                            "offline"]
                                 | _ :: _ => []
                                 end).
  { subst w2. rewrite <- Htasks.
    apply (@cleanup_tasks (receiver_id data) (refused pushed)
             (with_trace (trace w1 ++ pushed) w1) conns (accepted pushed)).
    - exact G.
    - exact Honline.
    - apply attempts_split. }
  assert (Hsel : filter (fun x => (msg_id x =? msg_id m)%Z) (messages (db w3))
                 = [m]).
  { subst w3. simpl. rewrite Hdb2, Hmsgs, filter_app, Hid,
      (filter_fresh_id Hfresh).
    simpl. rewrite <- Hid. now rewrite Z.eqb_refl. }
  assert (Hne : status_eqb (msg_status m) DELIVERED = false)
    by now rewrite Hst.
  destruct (update_message_status_run _ _ _ Hsel Hne) as (d & Hupd & Hstored).
  exists (set_resp_status DELIVERED (model_validate m)).
  eexists. exists pre, pushed, m, announced.
  split.
  - unfold send_message. apply try_except_ok.
    erewrite bind_run by (apply get_or_create_user_found; exact Hsender).
    erewrite bind_run by (apply get_user_by_id_found; exact Hreceiver).
    cbv iota.
    erewrite bind_run by exact Hcreate.
    erewrite bind_run by apply is_user_online_run.
    rewrite Hac. fold conns.
    assert (Hlt : Nat.ltb 0 (List.length conns) = true)
      by (destruct conns; [congruence | reflexivity]).
    rewrite Hlt.
    erewrite bind_run
      by (rewrite send_personal_message_run, G; reflexivity).
    fold payload. fold pushed. fold w2.
    erewrite bind_run by apply run_pending_tasks_run.
    fold announced. fold w3.
    erewrite bind_run by exact Hupd.
    reflexivity.
  - simpl.
    split; [reflexivity|].
    split; [exact Hstored|].
    split.
    { rewrite Htr2, Htr. now rewrite <- !app_assoc. }
    split; [exact Hpre|]. split; [exact Hin|].
    assert (Hresp : model_validate m
                    = set_resp_status SENT
                        (set_resp_status DELIVERED (model_validate m))).
    { destruct m; simpl in *. subst. reflexivity. }
    split; [exact Hresp|].
    split.
    { rewrite <- Hresp. apply attempts_targets. }
    split.
    { subst w2. rewrite handles_cleanup. simpl.
      rewrite Hac. fold conns.
      apply fold_remove_first_perm. apply attempts_split. }
    split.
    { intros k Hk. subst w2. rewrite others_cleanup by assumption.
      simpl. now rewrite Hac. }
    split.
    { subst announced. rewrite Htasks2, Htr2, Htr.
      now rewrite <- app_assoc. }
    reflexivity.
Qed.

End Routing.


Lemma pushes_are_sends (targets : list WebSocket)
      (pushed : list Event) (payload : Json) :
  Forall2 (fun c ev => exists ok, ev = EvSendText c payload ok) targets pushed ->
  Forall (fun ev => exists c ok, ev = EvSendText c payload ok) pushed.
Proof.
  induction 1 as [|c ev l l' [ok ->] _ IH]; constructor;
    [eexists; eexists; reflexivity | exact IH].
Qed.

Section RoutingClaims.
Variable env : Env.

(** What runs while [send_message] is suspended, on an idle loop: the
    offline broadcast when no handle took the push, nothing otherwise. *)
Lemma offline_announcement (rid : Z) (took : list WebSocket)
      (targets : list WebSocket) (tr : list Event) :
  (took <> [] ->
   announcements env
     (match took with
      | [] => [BroadcastTask rid "offline"]
      | _ :: _ => []
      end) targets tr = [])
  /\ (took = [] ->
      Forall2 (fun c ev =>
                 exists ok,
                   ev = EvSendText c (user_status_message rid "offline") ok)
              targets
              (announcements env
                 (match took with
                  | [] => [BroadcastTask rid "offline"]
                  | _ :: _ => []
                  end) targets tr)).
Proof.
  destruct took as [|c took]; split; intros H; try congruence.
  - simpl. rewrite app_nil_r. apply attempts_targets.
  - reflexivity.
Qed.


(** C7.  For a recipient with no registered handle [send_message]
    attempts no send and leaves the registry and the task queue as they
    are, however the call ends; and once the tables let the message be
    stored, the call returns it with status "sent", which is also the
    stored status. *)
Theorem routing_to_offline_recipient_is_queued :
  forall (data : MessageCreate) (current_user : AuthenticatedUser)
         (w : World),
    handles_of (receiver_id data) (active_connections w) = [] ->
    (active_connections (snd (send_message env data current_user w))
     = active_connections w
     /\ tasks (snd (send_message env data current_user w)) = tasks w
     /\ sends (trace (snd (send_message env data current_user w)))
        = sends (trace w))
    /\ (forall sender,
           ready_to_send (db w) current_user data sender ->
           exists resp w',
             send_message env data current_user w = (Ok resp, w')
             /\ resp_status resp = SENT
             /\ stored_status (resp_id resp) (db w') = [SENT]).
Proof.
  intros data current_user w Hoff. split.
  - change (quiet_at (send_message env data current_user) w).
    unfold send_message. apply quiet_at_try_except.
    + apply quiet_at_bind; [apply quiet_get_or_create_user|].
      intros sender w1 E1.
      pose proof (quiet_get_or_create_user env (auth_username current_user)
                    None None None None None w) as (A1 & _).
      rewrite E1 in A1. simpl in A1.
      apply quiet_at_bind; [apply quiet_get_user_by_id|].
      intros [receiver|] w2 E2; [|apply quiet_raise].
      pose proof (quiet_get_user_by_id (receiver_id data) w1) as (A2 & _).
      rewrite E2 in A2. simpl in A2.
      apply quiet_at_bind; [apply quiet_create_message|].
      intros m w3 E3.
      pose proof (quiet_create_message env (user_id sender) data w2)
        as (A3 & _).
      rewrite E3 in A3. simpl in A3.
      assert (Hoff3 : handles_of (receiver_id data) (active_connections w3)
                      = []) by (rewrite A3, A2, A1; exact Hoff).
      unfold quiet_at.
      erewrite bind_run by apply is_user_online_run.
      rewrite Hoff3. simpl. repeat split.
    + intros e. destruct e; apply quiet_raise.
  - intros sender (Hsender & (receiver & Hreceiver) & Hlen & Hfresh).
    assert (Hrid : user_exists (receiver_id data) (db w) = true).
    { pose proof (user_exists_filter _ _ Hreceiver) as H.
      destruct (filter_singleton_In _ _ Hreceiver) as [_ E].
      apply Z.eqb_eq in E. now rewrite <- E. }
    destruct (create_message_ok env (user_id sender) data w Hlen
                (user_exists_filter _ _ Hsender) Hrid)
      as (m & w1 & pre & Hcreate & Hid & Hst & Hmsgs & _).
    destruct (quiet_create_message env (user_id sender) data w)
      as (Hac & _ & _).
    rewrite Hcreate in Hac. simpl in Hac.
    exists (model_validate m), w1. split.
    + unfold send_message. apply try_except_ok.
      erewrite bind_run by (apply get_or_create_user_found; exact Hsender).
      erewrite bind_run by (apply get_user_by_id_found; exact Hreceiver).
      cbv iota.
      erewrite bind_run by exact Hcreate.
      erewrite bind_run by apply is_user_online_run.
      rewrite Hac, Hoff. reflexivity.
    + split; [exact Hst|].
      unfold stored_status. simpl.
      rewrite Hmsgs, filter_app, Hid, (filter_fresh_id Hfresh).
      simpl. rewrite <- Hid, Z.eqb_refl. simpl. now rewrite Hst.
Qed.

(** C9.  For an online recipient, on an idle loop, each of the
    recipient's handles is pushed the envelope
    [{"type": "new_message", "message": {...}}] whose message carries
    the fields of the returned message and status "sent", the status of
    the row as it was inserted; the update of the stored status to
    "delivered" comes after all pushes, and is the last thing the call
    does.  Between the pushes and the update nothing happens when a
    handle took the push; when none did, the offline status of the
    recipient is sent there. *)
Theorem pushed_message_says_sent_before_delivered_is_stored :
  forall (data : MessageCreate) (current_user : AuthenticatedUser)
         (sender : User) (w : World),
    ready_to_send (db w) current_user data sender ->
    handles_of (receiver_id data) (active_connections w) <> [] ->
    tasks w = [] ->
    exists resp w' pre pushed announced created,
      send_message env data current_user w = (Ok resp, w')
      /\ trace w'
         = trace w ++ pre ++ pushed ++ announced
           ++ [EvUpdateStatus (resp_id resp) DELIVERED]
      /\ sends pre = []
      /\ In (EvInsertMessage created) pre
      /\ msg_id created = resp_id resp
      /\ msg_status created = SENT
      /\ pushed <> []
      /\ Forall2
           (fun c ev =>
              exists ok,
                ev = EvSendText c
                  (JObject
                     [("type", JStr "new_message");
                      ("message",
                       JObject
                         [("id", JInt (resp_id resp));
                          ("conversation_id",
                           JInt (resp_conversation_id resp));
                          ("sender_id", JInt (resp_sender_id resp));
                          ("content", JStr (resp_content resp));
                          ("timestamp", JStr (resp_timestamp resp));
                          ("status", JStr "sent")])]%string)
                  ok)
           (handles_of (receiver_id data) (active_connections w)) pushed
      /\ (accepted pushed <> [] -> announced = [])
      /\ Forall (fun ev =>
                   exists c ok,
                     ev = EvSendText c
                            (user_status_message (receiver_id data) "offline")
                            ok)
                announced
      /\ stored_status (resp_id resp) (db w') = [DELIVERED]
      /\ resp_status resp = DELIVERED.
Proof.
  intros data current_user sender w Hready Honline Hidle.
  edestruct (send_message_online_run env)
    as (resp & w' & pre & pushed & created & announced & Hrun & Hst & Hstored
        & Htr & Hpre & Hin & Hcreated & Hpush & _ & _ & Hann & _);
    [exact Hready | exact Honline |].
  rewrite Hidle in Hann. simpl in Hann.
  destruct (offline_announcement (receiver_id data) (accepted pushed)
              (all_handles (active_connections w'))
              (trace w ++ pre ++ pushed)) as [Hquiet Hloud].
  rewrite <- Hann in Hquiet, Hloud.
  exists resp, w', pre, pushed, announced, created.
  split; [exact Hrun|]. split; [exact Htr|]. split; [exact Hpre|].
  split; [exact Hin|].
  split; [exact (f_equal resp_id Hcreated)|].
  split; [exact (f_equal resp_status Hcreated)|].
  split.
  { intros ->. inversion Hpush as [E|]. now rewrite <- E in Honline. }
  split; [exact Hpush|]. split; [exact Hquiet|].
  split; [|split; [exact Hstored | exact Hst]].
  destruct (accepted pushed) as [|c took] eqn:E.
  - eapply pushes_are_sends. now apply Hloud.
  - rewrite Hquiet by discriminate. constructor.
Qed.

End RoutingClaims.

Section Scenarios.
Import Scenario.

Lemma tables_ready : ready_to_send tables as_alice hello alice.
Proof.
  unfold ready_to_send. split; [reflexivity|].
  split; [exists bob; reflexivity|].
  split; [simpl; lia | constructor].
Qed.


(** Counterexample to C6 as stated: after the same handle was registered twice,
    one [disconnect] leaves the user online and schedules nothing; the
    second one removes the entry and schedules an offline broadcast. *)
Lemma second_disconnect_differs_for_duplicate_handle :
  active_connections registered_twice = [(7%Z, [Socket 1; Socket 1])]
  /\ active_connections deregistered_once = [(7%Z, [Socket 1])]
  /\ tasks deregistered_once = []
  /\ disconnect 7 (Socket 1) deregistered_once = (Ok tt, deregistered_twice)
  /\ active_connections deregistered_twice = []
  /\ tasks deregistered_twice = [BroadcastTask 7 "offline"]
  /\ deregistered_twice <> deregistered_once.
Proof.
  vm_compute. repeat split. discriminate.
Qed.

(** C8 on the code: user 7's handle refuses the status frame.  The
    broadcast goes on to user 9's handle and raises nothing, but it
    returns no report, schedules nothing, and user 7's handle is still
    registered afterwards. *)
Theorem broadcast_keeps_refusing_handle :
  broadcast_user_status (all_but (Socket 1)) 9 "online" both_online
  = (Ok tt,
     mkWorld [(7%Z, [Socket 1]); (9%Z, [Socket 2])] tables []
             [EvSendText (Socket 1) (user_status_message 9 "online") false;
              EvSendText (Socket 2) (user_status_message 9 "online") true]).
Proof. reflexivity. Qed.


Lemma registry_invariant_preserved_witness :
  no_empty_entry (active_connections both_online)
  /\ presence_consistent
       (active_connections
          (snd (connect peers_accept 7 (Socket 3) both_online)))
  /\ presence_consistent
       (active_connections (snd (disconnect 9 (Socket 2) both_online)))
  /\ presence_consistent
       (active_connections
          (snd (send_personal_message peers_refuse JNull 9 both_online))).
Proof.
  assert (H : no_empty_entry (active_connections both_online))
    by (repeat constructor; discriminate).
  split; [exact H|].
  pose proof (@registry_invariant_preserved peers_accept 7 (Socket 3) JNull
                both_online H) as (K1 & _ & _).
  pose proof (@registry_invariant_preserved peers_refuse 9 (Socket 2) JNull
                both_online H) as (_ & K2 & K3).
  repeat split; try apply K1; try apply K2; try apply K3.
Defined.


Lemma disconnect_schedules_offline_on_last_handle_witness :
  (handles_of 9 (active_connections both_online) = [Socket 2]
   /\ exists w',
       disconnect 9 (Socket 2) both_online = (Ok tt, w')
       /\ tasks w' = tasks both_online ++ [BroadcastTask 9 "offline"]
       /\ ~ In 9%Z (PyDict.keys (active_connections w'))
       /\ trace w' = trace both_online)
  /\ (In (Socket 3) (handles_of 7 (active_connections two_tabs))
      /\ 2 <= List.length (handles_of 7 (active_connections two_tabs))
      /\ exists w',
          disconnect 7 (Socket 3) two_tabs = (Ok tt, w')
          /\ tasks w' = tasks two_tabs
          /\ trace w' = trace two_tabs
          /\ handles_of 7 (active_connections w')
             = remove_first (Socket 3)
                 (handles_of 7 (active_connections two_tabs))
          /\ handles_of 7 (active_connections w') <> []).
Proof.
  split.
  - split; [reflexivity|].
    apply (proj1 (@disconnect_schedules_offline_on_last_handle
                    9 (Socket 2) both_online)).
    reflexivity.
  - split; [simpl; tauto|]. split; [simpl; lia|].
    apply (proj2 (@disconnect_schedules_offline_on_last_handle
                    7 (Socket 3) two_tabs)).
    + simpl. tauto.
    + simpl. lia.
Defined.

Lemma disconnect_idempotent_without_duplicates_witness :
  count_occ ws_eq_dec (handles_of 7 (active_connections two_tabs))
            (Socket 3) <= 1
  /\ exists w1,
      disconnect 7 (Socket 3) two_tabs = (Ok tt, w1)
      /\ disconnect 7 (Socket 3) w1 = (Ok tt, w1).
Proof.
  split; [vm_compute; lia|].
  apply (@disconnect_idempotent_without_duplicates 7 (Socket 3) two_tabs).
  vm_compute. lia.
Defined.

Lemma routing_to_offline_recipient_is_queued_witness :
  handles_of (receiver_id to_nobody) (active_connections boot) = []
  /\ ready_to_send (db boot) as_alice to_nobody alice
  /\ (active_connections (snd (send_message peers_accept to_nobody as_alice boot))
      = active_connections boot
      /\ tasks (snd (send_message peers_accept to_nobody as_alice boot))
         = tasks boot
      /\ sends (trace (snd (send_message peers_accept to_nobody as_alice boot)))
         = sends (trace boot))
  /\ exists resp w',
      send_message peers_accept to_nobody as_alice boot = (Ok resp, w')
      /\ resp_status resp = SENT
      /\ stored_status (resp_id resp) (db w') = [SENT].
Proof.
  split; [reflexivity|]. split; [exact tables_ready|].
  pose proof (@routing_to_offline_recipient_is_queued
                peers_accept to_nobody as_alice boot eq_refl) as [F S].
  split; [exact F|]. exact (S alice tables_ready).
Defined.

Lemma pushed_message_says_sent_witness :
  ready_to_send (db both_online) as_alice hello alice
  /\ handles_of (receiver_id hello) (active_connections both_online) <> []
  /\ tasks both_online = []
  /\ exists resp w' pre pushed announced created,
      send_message (all_but (Socket 2)) hello as_alice both_online
      = (Ok resp, w')
      /\ trace w'
         = trace both_online ++ pre ++ pushed ++ announced
           ++ [EvUpdateStatus (resp_id resp) DELIVERED]
      /\ sends pre = []
      /\ In (EvInsertMessage created) pre
      /\ msg_id created = resp_id resp
      /\ msg_status created = SENT
      /\ pushed <> []
      /\ Forall2
           (fun c ev =>
              exists ok,
                ev = EvSendText c
                  (JObject
                     [("type", JStr "new_message");
                      ("message",
                       JObject
                         [("id", JInt (resp_id resp));
                          ("conversation_id",
                           JInt (resp_conversation_id resp));
                          ("sender_id", JInt (resp_sender_id resp));
                          ("content", JStr (resp_content resp));
                          ("timestamp", JStr (resp_timestamp resp));
                          ("status", JStr "sent")])]%string)
                  ok)
           (handles_of (receiver_id hello) (active_connections both_online))
           pushed
      /\ (accepted pushed <> [] -> announced = [])
      /\ Forall (fun ev =>
                   exists c ok,
                     ev = EvSendText c
                            (user_status_message (receiver_id hello) "offline")
                            ok)
                announced
      /\ stored_status (resp_id resp) (db w') = [DELIVERED]
      /\ resp_status resp = DELIVERED.
Proof.
  split; [exact tables_ready|].
  split; [discriminate|].
  split; [reflexivity|].
  apply (@pushed_message_says_sent_before_delivered_is_stored
           (all_but (Socket 2)) hello as_alice alice both_online).
  - exact tables_ready.
  - discriminate.
  - reflexivity.
Defined.

End Scenarios.

(* ===================================================================== *)
(** ** More about the registry *)
(* ===================================================================== *)

Lemma remove_first_last x l : ~ In x l -> remove_first x (l ++ [x]) = l.
Proof.
  induction l as [|y l IH]; intros Hnot.
  - apply remove_first_head.
  - simpl. rewrite remove_first_cons_other.
    + rewrite IH; [reflexivity|]. intros H. apply Hnot. now right.
    + intros ->. apply Hnot. now left.
Qed.

Lemma send_online_users_run env websocket w :
  send_online_users env websocket w
  = (Ok tt,
     with_trace
       (trace w ++
        [EvSendText websocket
           (online_users_message (PyDict.keys (active_connections w)))
           (send_text_ok env (trace w) websocket
              (online_users_message (PyDict.keys (active_connections w))))])
       w).
Proof.
  unfold send_online_users, bind, try_except, send_text, ret,
    online_users_message.
  destruct (send_text_ok env (trace w) websocket _); reflexivity.
Qed.

Section RegistryUse.
Variable env : Env.

(** X1.  The roster a client is sent names exactly the users that
    [is_user_online] calls online; sending it is one frame to that client
    and nothing else, whether the client takes it or not. *)
Theorem roster_names_exactly_the_online_users :
  forall (websocket : WebSocket) (w : World),
    no_empty_entry (active_connections w) ->
    exists ok,
      send_online_users env websocket w
      = (Ok tt,
         with_trace
           (trace w ++
            [EvSendText websocket
               (online_users_message (PyDict.keys (active_connections w)))
               ok]) w)
      /\ forall uid,
           In uid (PyDict.keys (active_connections w))
           <-> is_user_online uid w = (Ok true, w).
Proof.
  intros websocket w Hinv. eexists. split; [apply send_online_users_run|].
  intros uid. rewrite is_user_online_run.
  rewrite (no_empty_entry_keys Hinv).
  destruct (handles_of uid (active_connections w)); simpl.
  - split; [congruence | discriminate].
  - split; [reflexivity | discriminate].
Qed.

(** X2.  [disconnect] for a handle that is not registered under the user
    changes nothing, as long as the user has no entry or a non-empty
    one. *)
Theorem disconnect_of_unregistered_handle_changes_nothing :
  forall (uid : Z) (websocket : WebSocket) (w : World),
    ~ In websocket (handles_of uid (active_connections w)) ->
    PyDict.get uid (active_connections w) <> Some [] ->
    disconnect uid websocket w = (Ok tt, w).
Proof.
  intros uid websocket w Hnot Hne. rewrite disconnect_run. f_equal.
  unfold after_disconnect. unfold handles_of in Hnot.
  destruct (PyDict.get uid (active_connections w)) as [conns|] eqn:G;
    [|reflexivity].
  rewrite (remove_first_absent _ _ Hnot).
  destruct conns; [congruence|].
  rewrite (DictFacts.set_get_same _ _ G). now destruct w.
Qed.

(** X3.  Registering a new handle and deregistering it again gives back the
    registry as it was, key order included.  If the user had no handle the
    pair of calls broadcasts "online" and schedules one "offline"
    broadcast; otherwise it sends and schedules nothing. *)
Theorem connect_then_disconnect_restores_registry :
  forall (uid : Z) (websocket : WebSocket) (w : World),
    ~ In websocket (handles_of uid (active_connections w)) ->
    PyDict.get uid (active_connections w) <> Some [] ->
    exists w1 w2,
      connect env uid websocket w = (Ok tt, w1)
      /\ disconnect uid websocket w1 = (Ok tt, w2)
      /\ active_connections w2 = active_connections w
      /\ db w2 = db w
      /\ (handles_of uid (active_connections w) = [] ->
          tasks w2 = tasks w ++ [BroadcastTask uid "offline"])
      /\ (handles_of uid (active_connections w) <> [] ->
          tasks w2 = tasks w /\ trace w2 = trace w).
Proof.
  intros uid websocket w Hnot Hne.
  destruct (connect_state env uid websocket w) as [pushed Hc].
  eexists. eexists. split; [exact Hc|].
  split; [apply disconnect_run|].
  assert (Hpushed : handles_of uid (active_connections w) <> [] -> pushed = []).
  { intros Hl. rewrite connect_run in Hc.
    destruct (handles_of uid (active_connections w)); [congruence|].
    injection Hc as Hc.
    rewrite <- (app_nil_r (trace w)) in Hc at 1.
    apply app_inv_head in Hc. congruence. }
  unfold after_disconnect. simpl. unfold handles_of in *.
  rewrite DictFacts.get_set_same.
  destruct (PyDict.get uid (active_connections w)) as [conns|] eqn:G.
  - rewrite remove_first_last by exact Hnot.
    destruct conns as [|c conns]; [congruence|]. simpl.
    rewrite DictFacts.set_set, (DictFacts.set_get_same _ _ G).
    repeat split; try congruence.
    rewrite Hpushed by discriminate. now rewrite app_nil_r.
  - simpl. rewrite remove_first_head. simpl.
    rewrite DictFacts.del_set, (DictFacts.del_absent _ _ G).
    repeat split; congruence.
Qed.

(** X4.  [connect], [disconnect] and [send_personal_message] for one user
    leave every other user's entry as it is. *)
Theorem manager_calls_touch_one_user_only :
  forall (uid other : Z) (websocket : WebSocket) (message : Json) (w : World),
    uid <> other ->
    PyDict.get other (active_connections (snd (connect env uid websocket w)))
    = PyDict.get other (active_connections w)
    /\ PyDict.get other (active_connections (snd (disconnect uid websocket w)))
       = PyDict.get other (active_connections w)
    /\ PyDict.get other
         (active_connections (snd (send_personal_message env message uid w)))
       = PyDict.get other (active_connections w).
Proof.
  intros uid other websocket message w Hne. split; [|split].
  - destruct (connect_state env uid websocket w) as [pushed ->]. simpl.
    now apply DictFacts.get_set_other.
  - rewrite disconnect_run. simpl. now apply others_after_disconnect.
  - rewrite send_personal_message_run.
    destruct (PyDict.get uid (active_connections w)); [|reflexivity].
    simpl. now rewrite others_cleanup.
Qed.

(** X5.  A personal message is pushed once to each handle of the addressed
    user, in order, and to no other connection; for a user without an
    entry nothing is sent.  The call raises nothing and leaves the
    database alone. *)
Theorem personal_message_reaches_only_its_user :
  forall (message : Json) (uid : Z) (w : World),
    exists w' pushed,
      send_personal_message env message uid w = (Ok tt, w')
      /\ trace w' = trace w ++ pushed
      /\ Forall2 (fun c ev => exists ok, ev = EvSendText c message ok)
                 (handles_of uid (active_connections w)) pushed
      /\ db w' = db w.
Proof.
  intros message uid w. rewrite send_personal_message_run.
  unfold handles_of.
  destruct (PyDict.get uid (active_connections w)) as [conns|].
  - eexists. eexists. split; [reflexivity|].
    rewrite trace_cleanup, db_cleanup. simpl.
    split; [reflexivity|]. split; [apply attempts_targets | reflexivity].
  - exists w, []. rewrite app_nil_r. repeat split. constructor.
Qed.

End RegistryUse.

Lemma all_handles_cons k (v : list WebSocket) d :
  all_handles ((k, v) :: d) = v ++ all_handles d.
Proof. reflexivity. Qed.

Lemma all_handles_set_present uid l l' d :
  PyDict.get uid d = Some l ->
  exists pre post,
    all_handles d = pre ++ l ++ post
    /\ all_handles (PyDict.set uid l' d) = pre ++ l' ++ post.
Proof.
  induction d as [|[k v] d IH]; simpl; [discriminate|].
  destruct (Z.eqb_spec uid k).
  - intros [= ->]. exists [], (all_handles d). split; reflexivity.
  - intros G. destruct (IH G) as (pre & post & E1 & E2).
    exists (v ++ pre), post. rewrite !all_handles_cons, E1, E2.
    now rewrite <- !app_assoc.
Qed.

Lemma all_handles_set_absent uid l' d :
  PyDict.get uid d = None ->
  all_handles (PyDict.set uid l' d) = all_handles d ++ l'.
Proof.
  induction d as [|[k v] d IH]; simpl.
  - intros _. unfold all_handles. simpl. now rewrite app_nil_r.
  - destruct (Z.eqb_spec uid k); [discriminate|].
    intros G. rewrite !all_handles_cons, (IH G). now rewrite app_assoc.
Qed.

Lemma all_handles_del uid d :
  exists removed,
    Permutation (all_handles d) (removed ++ all_handles (PyDict.del uid d)).
Proof.
  unfold PyDict.del.
  induction d as [|[k v] d [removed IH]]; simpl.
  - exists []. constructor.
  - destruct (Z.eqb_spec uid k); simpl.
    + exists (v ++ removed). rewrite all_handles_cons, <- app_assoc.
      now apply Permutation_app_head.
    + exists removed. rewrite !all_handles_cons.
      rewrite IH. apply Permutation_app_swap_app.
Qed.

Lemma all_handles_after_connect uid websocket w :
  Permutation (all_handles (active_connections (after_connect uid websocket w)))
              (websocket :: all_handles (active_connections w)).
Proof.
  unfold after_connect, handles_of. simpl.
  destruct (PyDict.get uid (active_connections w)) as [l|] eqn:G.
  - destruct (@all_handles_set_present uid l (l ++ [websocket]) _ G)
      as (pre & post & -> & ->).
    rewrite <- app_assoc. simpl.
    apply Permutation_sym.
    rewrite (app_assoc pre l (websocket :: post)), (app_assoc pre l post).
    now apply Permutation_cons_app.
  - rewrite (@all_handles_set_absent uid _ _ G). simpl.
    apply Permutation_sym, Permutation_cons_append.
Qed.

Lemma all_handles_after_disconnect uid websocket w :
  exists removed,
    Permutation (all_handles (active_connections w))
                (removed
                 ++ all_handles
                      (active_connections (after_disconnect uid websocket w))).
Proof.
  unfold after_disconnect.
  destruct (PyDict.get uid (active_connections w)) as [l|] eqn:G;
    [|exists []; reflexivity].
  assert (Hrm : exists r, Permutation l (r ++ remove_first websocket l)).
  { destruct (in_dec ws_eq_dec websocket l) as [Hin|Hnot].
    - exists [websocket]. now apply remove_first_perm.
    - exists []. now rewrite remove_first_absent. }
  destruct Hrm as [r Hr].
  destruct (remove_first websocket l) as [|c l'] eqn:R; simpl.
  - apply all_handles_del.
  - destruct (@all_handles_set_present uid l (c :: l') _ G)
      as (pre & post & -> & ->).
    exists r. rewrite Hr.
    rewrite <- !app_assoc. apply Permutation_app_swap_app.
Qed.

Lemma all_handles_cleanup uid dead : forall w,
  exists removed,
    Permutation (all_handles (active_connections w))
                (removed
                 ++ all_handles (active_connections (cleanup uid dead w))).
Proof.
  induction dead as [|c dead IH]; intros w; simpl.
  - exists []. reflexivity.
  - destruct (all_handles_after_disconnect uid c w) as [r1 H1].
    destruct (IH (after_disconnect uid c w)) as [r2 H2].
    exists (r1 ++ r2). rewrite H1, H2. now rewrite app_assoc.
Qed.

Section RegistryRuns.
Variable env : Env.

(** One call on the manager: it returns, the database is as before, no
    entry becomes empty, and the handles registered afterwards are those
    registered before plus the one connected, minus some. *)
Lemma manager_call_step c w :
  exists w' removed,
    run_manager_call env c w = (Ok tt, w')
    /\ db w' = db w
    /\ (no_empty_entry (active_connections w) ->
        no_empty_entry (active_connections w'))
    /\ Permutation (connected_handles [c] ++ all_handles (active_connections w))
                   (removed ++ all_handles (active_connections w')).
Proof.
  destruct c as [uid ws|uid ws|uid status|ws|message uid]; simpl.
  - destruct (connect_state env uid ws w) as [pushed Hc].
    exists (with_trace (trace w ++ pushed) (after_connect uid ws w)), [].
    split; [exact Hc|]. split; [reflexivity|]. split.
    + intros Hinv. simpl. apply no_empty_entry_set; [|exact Hinv].
      now destruct (handles_of uid (active_connections w)).
    + simpl. apply Permutation_sym.
      apply (all_handles_after_connect uid ws w).
  - destruct (all_handles_after_disconnect uid ws w) as [removed Hp].
    exists (after_disconnect uid ws w), removed.
    split; [apply disconnect_run|]. split; [apply db_after_disconnect|].
    split; [apply no_empty_entry_disconnect | exact Hp].
  - eexists. exists []. split; [apply broadcast_user_status_run|].
    repeat split; trivial.
  - eexists. exists []. split; [apply send_online_users_run|].
    repeat split; trivial.
  - rewrite send_personal_message_run.
    destruct (PyDict.get uid (active_connections w)) as [conns|].
    + simpl.
      destruct (all_handles_cleanup uid
                  (refused (attempts env message conns (trace w)))
                  (with_trace
                     (trace w ++ attempts env message conns (trace w)) w))
        as [removed Hp].
      eexists. exists removed. split; [reflexivity|].
      split; [now rewrite db_cleanup|].
      split; [intros Hinv; now apply no_empty_entry_cleanup | exact Hp].
    + exists w, []. repeat split; trivial.
Qed.

Lemma manager_calls_run calls : forall w,
  exists w' removed,
    run_manager_calls env calls w = (Ok tt, w')
    /\ db w' = db w
    /\ (no_empty_entry (active_connections w) ->
        no_empty_entry (active_connections w'))
    /\ Permutation
         (connected_handles calls ++ all_handles (active_connections w))
         (removed ++ all_handles (active_connections w')).
Proof.
  induction calls as [|c calls IH]; intros w.
  - exists w, []. repeat split; trivial.
  - destruct (manager_call_step c w) as (w1 & r1 & H1 & D1 & I1 & P1).
    destruct (IH w1) as (w2 & r2 & H2 & D2 & I2 & P2).
    exists w2, (r1 ++ r2).
    split.
    { unfold run_manager_calls. simpl.
      erewrite bind_run by exact H1. exact H2. }
    split; [congruence|]. split; [tauto|].
    assert (E : connected_handles (c :: calls)
                = connected_handles [c] ++ connected_handles calls)
      by (unfold connected_handles; simpl; now rewrite app_nil_r).
    rewrite E, <- app_assoc.
    rewrite (Permutation_app_swap_app (connected_handles [c])).
    rewrite P1.
    rewrite (Permutation_app_swap_app (connected_handles calls)).
    rewrite P2. now rewrite app_assoc.
Qed.

(** X6.  Whatever is called on the manager, in whatever order and whatever
    the peers do, no exception leaves it (no [KeyError], no
    [ValueError]), the database is not touched, and started from an empty
    registry the registry invariant holds at the end. *)
Theorem manager_never_raises_and_keeps_registry_consistent :
  forall (calls : list ManagerCall)
         (b : Database) (q : list Task) (tr : list Event),
  exists w,
    run_manager_calls env calls (mkWorld PyDict.empty b q tr) = (Ok tt, w)
    /\ db w = b
    /\ presence_consistent (active_connections w).
Proof.
  intros calls b q tr.
  destruct (manager_calls_run calls (mkWorld PyDict.empty b q tr))
    as (w & removed & Hrun & Hdb & Hinv & _).
  exists w. split; [exact Hrun|]. split; [exact Hdb|].
  assert (H : no_empty_entry (active_connections w))
    by (apply Hinv; constructor).
  split; [exact H | now apply no_empty_entry_keys].
Qed.

(** X7.  When no handle is handed to [connect] twice, as is the case for the
    socket endpoint, which connects each [WebSocket] object once, no
    handle is ever registered twice, under one user or under two, and
    every registered handle is one that was connected. *)
Theorem handles_connected_once_are_registered_once :
  forall (calls : list ManagerCall)
         (b : Database) (q : list Task) (tr : list Event),
    NoDup (connected_handles calls) ->
    exists w,
      run_manager_calls env calls (mkWorld PyDict.empty b q tr) = (Ok tt, w)
      /\ NoDup (all_handles (active_connections w))
      /\ incl (all_handles (active_connections w)) (connected_handles calls).
Proof.
  intros calls b q tr Hnodup.
  destruct (manager_calls_run calls (mkWorld PyDict.empty b q tr))
    as (w & removed & Hrun & _ & _ & Hperm).
  exists w. split; [exact Hrun|].
  simpl in Hperm. change (all_handles PyDict.empty) with (@nil WebSocket) in Hperm.
  rewrite app_nil_r in Hperm. split.
  - apply (Permutation_NoDup Hperm) in Hnodup.
    now apply NoDup_app_remove_l in Hnodup.
  - intros x Hx. apply (Permutation_in x (Permutation_sym Hperm)).
    apply in_or_app. now right.
Qed.

End RegistryRuns.

(* ===================================================================== *)
(** ** More about the storage functions *)
(* ===================================================================== *)

Lemma status_eqb_eq (a b : MessageStatus) : status_eqb a b = true -> a = b.
Proof. destruct a, b; simpl; congruence. Qed.

Lemma set_msg_status_same (m : Message) : set_msg_status (msg_status m) m = m.
Proof. now destruct m. Qed.

Lemma map_where_fixed {A} (p : A -> bool) (g : A -> A) (l : list A) :
  (forall x, In x l -> p x = true -> g x = x) ->
  map (fun x => if p x then g x else x) l = l.
Proof.
  induction l as [|y l IH]; intros H; simpl; [reflexivity|].
  rewrite IH by (intros x Hx; apply H; now right).
  destruct (p y) eqn:E; [|reflexivity].
  now rewrite (H y (or_introl eq_refl) E).
Qed.

Lemma filter_nil_none {A} (p : A -> bool) (l : list A) (x : A) :
  filter p l = [] -> In x l -> p x = false.
Proof.
  intros H Hin. destruct (p x) eqn:E; [|reflexivity].
  assert (Hx : In x (filter p l)) by (apply filter_In; now split).
  rewrite H in Hx. destruct Hx.
Qed.

Section StorageWrites.
Variable env : Env.

(** X9.  [update_message_status] changes the status of the row with that id
    and nothing else: the other rows, the other tables, the registry and
    the task queue stay as they are and nothing is sent.  It returns the
    updated row, or [None], with nothing changed, when no row has the
    id. *)
Theorem update_message_status_changes_one_status :
  forall (message_id : Z) (status : MessageStatus) (w : World),
    List.length (filter (fun m => (msg_id m =? message_id)%Z)
                        (messages (db w))) <= 1 ->
    exists r w',
      update_message_status message_id status w = (Ok r, w')
      /\ messages (db w')
         = map (fun m => if (msg_id m =? message_id)%Z
                         then set_msg_status status m else m)
               (messages (db w))
      /\ users (db w') = users (db w)
      /\ conversations (db w') = conversations (db w)
      /\ active_connections w' = active_connections w
      /\ tasks w' = tasks w
      /\ sends (trace w') = sends (trace w)
      /\ (r = None <->
          filter (fun m => (msg_id m =? message_id)%Z) (messages (db w)) = [])
      /\ (r = None -> w' = w)
      /\ (forall m, r = Some m ->
            msg_id m = message_id /\ msg_status m = status
            /\ stored_status message_id (db w') = [status]).
Proof.
  intros mid st w Hlen.
  unfold update_message_status.
  erewrite bind_run by (unfold select_messages; reflexivity).
  destruct (filter (fun m => (msg_id m =? mid)%Z) (messages (db w)))
    as [|m [|m' rest]] eqn:F; [| |simpl in Hlen; lia].
  - exists None, w. split; [reflexivity|].
    split.
    { symmetry. apply map_where_fixed. intros x Hx Hp.
      rewrite (filter_nil_none _ _ _ F Hx) in Hp. discriminate. }
    repeat split; trivial; discriminate.
  - destruct (filter_singleton_In _ _ F) as [Hin Hid].
    apply Z.eqb_eq in Hid.
    unfold bind, scalar_one_or_none, ret.
    destruct (status_eqb (msg_status m) st) eqn:E.
    + apply status_eqb_eq in E.
      exists (Some (set_msg_status st m)), w. split; [reflexivity|].
      split.
      { symmetry. apply map_where_fixed. intros x Hx Hp.
        assert (Hxm : In x [m]) by (rewrite <- F; apply filter_In; now split).
        destruct Hxm as [<-|[]]. rewrite <- E. apply set_msg_status_same. }
      repeat split; trivial; try discriminate;
        try (match goal with
             | H : Some _ = Some _ |- _ => injection H as <-
             end).
      * exact Hid.
      * reflexivity.
      * unfold stored_status. rewrite F. simpl. now rewrite E.
    + eexists. eexists. split; [reflexivity|]. simpl.
      split; [reflexivity|].
      repeat split; trivial; try discriminate;
        try (match goal with
             | H : Some _ = Some _ |- _ => injection H as <-
             end).
      * rewrite sends_app. simpl. now rewrite app_nil_r.
      * exact Hid.
      * reflexivity.
      * unfold stored_status. simpl. now rewrite filter_id_map_status, F.
Qed.

Lemma filter_fresh_user (n : Z) (l : list User) :
  Forall (fun u => (user_id u < n)%Z) l ->
  filter (fun u => (user_id u =? n)%Z) l = [].
Proof.
  induction 1 as [|u l Hu _ IH]; simpl; [reflexivity|].
  destruct (Z.eqb_spec (user_id u) n); [lia | exact IH].
Qed.

Lemma existsb_false_filter {A} (p q : A -> bool) (l : list A) :
  existsb p l = false -> (forall x, q x = true -> p x = true) ->
  filter q l = [].
Proof.
  intros H Hpq. induction l as [|y l IH]; simpl in *; [reflexivity|].
  apply orb_false_iff in H. destruct H as [Hy Hl].
  destruct (q y) eqn:E; [|now apply IH].
  rewrite (Hpq y E) in Hy. discriminate.
Qed.

(** X10.  A user that [create_user] stored is found again under its id and
    under its username, and a second [create_user] with that username is
    refused with the tables left as they are. *)
Theorem created_user_is_found_and_not_created_twice :
  forall (username : string)
         (email password full_name bio avatar_url : option string)
         (u : User) (w w1 : World),
    Forall (fun r => (user_id r < next_user_id (db w))%Z) (users (db w)) ->
    create_user env username email password full_name bio avatar_url w
    = (Ok u, w1) ->
    user_username u = username
    /\ get_user_by_id (user_id u) w1 = (Ok (Some u), w1)
    /\ get_user_by_username username w1 = (Ok (Some u), w1)
    /\ forall email' password' full_name' bio' avatar_url',
         create_user env username email' password' full_name' bio' avatar_url'
                     w1
         = (Raise IntegrityError, w1).
Proof.
  intros username email password full_name bio avatar_url u w w1 Hfresh.
  unfold create_user, insert_user.
  destruct email as [e|]; [|discriminate].
  destruct password as [p|]; [|discriminate].
  destruct (existsb _ (users (db w))) eqn:Ex; [discriminate|].
  intros [= <- <-]. simpl.
  split; [reflexivity|]. split; [|split].
  - unfold get_user_by_id.
    erewrite bind_run by (unfold select_users; reflexivity).
    simpl. rewrite filter_app, (filter_fresh_user Hfresh). simpl.
    now rewrite Z.eqb_refl.
  - unfold get_user_by_username.
    erewrite bind_run by (unfold select_users; reflexivity).
    simpl. rewrite filter_app. simpl. rewrite String.eqb_refl.
    rewrite (@existsb_false_filter User _
               (fun u => String.eqb (user_username u) username) _ Ex);
      [reflexivity|].
    intros x Hx. simpl in Hx. now rewrite Hx.
  - intros e' p' f' b' a'.
    destruct e' as [e'|]; [|reflexivity].
    destruct p' as [p'|]; [|reflexivity].
    rewrite existsb_app. simpl. rewrite String.eqb_refl. simpl.
    now rewrite orb_true_r.
Qed.

End StorageWrites.

Lemma NoDup_map_In_eq {A B} (f : A -> B) (l : list A) (x y : A) :
  NoDup (map f l) -> In x l -> In y l -> f x = f y -> x = y.
Proof.
  induction l as [|z l IH]; simpl; [tauto|].
  intros Hnd [->|Hx] [->|Hy] E; inversion Hnd as [|? ? Hnot Hrest]; subst.
  - reflexivity.
  - exfalso. apply Hnot. rewrite E. now apply in_map.
  - exfalso. apply Hnot. rewrite <- E. now apply in_map.
  - now apply IH.
Qed.

Lemma filter_map_commute {A} (p : A -> bool) (g : A -> A) (l : list A) :
  (forall x, In x l -> p (g x) = p x) ->
  filter p (map g l) = map g (filter p l).
Proof.
  induction l as [|y l IH]; intros H; simpl; [reflexivity|].
  rewrite (H y (or_introl eq_refl)).
  rewrite IH by (intros x Hx; apply H; now right).
  now destruct (p y).
Qed.

Lemma map_map_same {A B} (f : A -> B) (g : A -> A) (l : list A) :
  (forall x, In x l -> f (g x) = f x) -> map f (map g l) = map f l.
Proof.
  intros H. rewrite map_map. apply map_ext_in. exact H.
Qed.

Lemma NoDup_snoc {A} (l : list A) (x : A) :
  NoDup l -> ~ In x l -> NoDup (l ++ [x]).
Proof.
  intros Hl Hx. apply NoDup_app; [exact Hl | repeat constructor; intros [] |].
  intros y Hy [<-|[]]. now apply Hx.
Qed.

Lemma Forall_lt_not_In {A} (f : A -> Z) (n : Z) (l : list A) :
  Forall (fun x => (f x < n)%Z) l -> ~ In n (map f l).
Proof.
  intros H Hin. apply in_map_iff in Hin. destruct Hin as (x & E & Hx).
  rewrite Forall_forall in H. specialize (H x Hx). lia.
Qed.

Lemma Forall_lt_succ {A} (f : A -> Z) (n : Z) (l : list A) :
  Forall (fun x => (f x < n)%Z) l -> Forall (fun x => (f x < n + 1)%Z) l.
Proof. apply Forall_impl. intros x. lia. Qed.

Lemma synced_row_twice u e p f b a :
  synced_row (synced_row u e p f b a) e p f b a = synced_row u e p f b a.
Proof.
  unfold synced_row. simpl.
  destruct e as [e|], p as [p|], f as [f|], b as [b|], a as [a|]; simpl;
    repeat match goal with
           | |- context [negb (String.eqb ?s "")] =>
               destruct (String.eqb s "")
           end; reflexivity.
Qed.

Lemma synced_row_inserted i e p n f b a t :
  synced_row (mkUser i e p n f b a t) (Some e) (Some p) f b a
  = mkUser i e p n f b a t.
Proof.
  unfold synced_row. simpl.
  destruct f as [f|], b as [b|], a as [a|]; simpl;
    repeat match goal with
           | |- context [negb (String.eqb ?s "")] =>
               destruct (String.eqb s "")
           end; reflexivity.
Qed.

Section UserSync.
Variable env : Env.

Lemma get_or_create_user_unfold name e p f b a w :
  get_or_create_user env name e p f b a w
  = match filter (fun u => String.eqb (user_username u) name) (users (db w))
    with
    | [] => insert_user env name e p f b a w
    | [u0] =>
        let u1 := synced_row u0 e p f b a in
        if user_eqb u1 u0 then (Ok u1, w)
        else match update_user u1 w with
             | (Ok _, w1) => (Ok u1, w1)
             | (Raise x, w1) => (Raise x, w1)
             end
    | _ :: _ :: _ => (Raise MultipleResultsFound, w)
    end.
Proof.
  unfold get_or_create_user, get_user_by_username, create_user.
  unfold bind at 1. unfold bind at 1. unfold select_users at 1.
  destruct (filter _ (users (db w))) as [|u0 [|u0' rest]]; try reflexivity.
  simpl. fold (synced_row u0 e p f b a).
  unfold bind, ret.
  destruct (user_eqb (synced_row u0 e p f b a) u0); [reflexivity|].
  destruct (update_user (synced_row u0 e p f b a) w) as [[[]|x] w1];
    reflexivity.
Qed.

Lemma get_or_create_user_again :
  forall (username : string)
         (email password full_name bio avatar_url : option string)
         (u : User) (w w1 : World),
    NoDup (map user_id (users (db w))) ->
    get_or_create_user env username email password full_name bio avatar_url w
    = (Ok u, w1) ->
    get_or_create_user env username email password full_name bio avatar_url w1
    = (Ok u, w1).
Proof.
  intros name e p f b a u w w1 Hids.
  rewrite (get_or_create_user_unfold name e p f b a w).
  destruct (filter (fun x => String.eqb (user_username x) name) (users (db w)))
    as [|u0 [|u0' rest]] eqn:F; [| |discriminate].
  - unfold insert_user.
    destruct e as [e|]; [|discriminate].
    destruct p as [p|]; [|discriminate].
    destruct (existsb _ (users (db w))) eqn:Ex; [discriminate|].
    intros [= <- <-].
    rewrite get_or_create_user_unfold. simpl.
    rewrite filter_app, F. simpl. rewrite String.eqb_refl. simpl.
    rewrite synced_row_inserted, user_eqb_refl. reflexivity.
  - cbv zeta.
    destruct (user_eqb (synced_row u0 e p f b a) u0) eqn:Eq.
    + intros [= <- <-].
      rewrite get_or_create_user_unfold, F. cbv zeta. now rewrite Eq.
    + unfold update_user.
      destruct (existsb _ (users (db w))); [discriminate|].
      intros [= <- <-].
      rewrite get_or_create_user_unfold. simpl.
      destruct (filter_singleton_In _ _ F) as [Hin0 Hname].
      rewrite filter_map_commute.
      * rewrite F. simpl. rewrite Z.eqb_refl.
        rewrite synced_row_twice, user_eqb_refl. reflexivity.
      * intros x Hx. destruct (Z.eqb_spec (user_id x) (user_id u0)) as [E|E];
          [|reflexivity].
        rewrite (NoDup_map_In_eq user_id _ _ _ Hids Hx Hin0 E).
        reflexivity.
Qed.

(** X11.  Syncing a user twice with the same data is the same as syncing it
    once: the second [get_or_create_user] returns the same row and writes
    nothing. *)
Theorem get_or_create_user_twice_is_once :
  forall (username : string)
         (email password full_name bio avatar_url : option string)
         (u : User) (w w1 : World),
    NoDup (map user_id (users (db w))) ->
    get_or_create_user env username email password full_name bio avatar_url w
    = (Ok u, w1) ->
    get_or_create_user env username email password full_name bio avatar_url w1
    = (Ok u, w1).
Proof.
  intros name e p f b a u w w1 Hids H.
  eapply get_or_create_user_again; eassumption.
Qed.

End UserSync.

(* ===================================================================== *)
(** ** The tables stay consistent *)
(* ===================================================================== *)

Lemma Forall_lt_map {A} (f : A -> Z) (n : Z) (l l' : list A) :
  map f l' = map f l ->
  Forall (fun x => (f x < n)%Z) l -> Forall (fun x => (f x < n)%Z) l'.
Proof.
  intros E H.
  apply (proj1 (Forall_map f (fun z => (z < n)%Z) l')). rewrite E.
  now apply (proj2 (Forall_map f (fun z => (z < n)%Z) l)).
Qed.

Lemma tables_add_user d row :
  tables_consistent d ->
  user_id row = next_user_id d ->
  ~ In (user_username row) (map user_username (users d)) ->
  tables_consistent
    (mkDatabase (users d ++ [row]) (next_user_id d + 1)
                (conversations d) (next_conversation_id d)
                (messages d) (next_message_id d)).
Proof.
  intros (U1 & U2 & U3 & C1 & C2 & C3 & C4 & M1 & M2) Hid Hname.
  unfold tables_consistent. simpl. rewrite !map_app. simpl.
  repeat split; try assumption.
  - apply NoDup_snoc; [exact U1|]. rewrite Hid.
    now apply Forall_lt_not_In.
  - now apply NoDup_snoc.
  - apply Forall_app. split; [now apply Forall_lt_succ|].
    constructor; [lia | constructor].
Qed.

Lemma tables_replace_users d users' :
  tables_consistent d ->
  map user_id users' = map user_id (users d) ->
  map user_username users' = map user_username (users d) ->
  tables_consistent
    (mkDatabase users' (next_user_id d)
                (conversations d) (next_conversation_id d)
                (messages d) (next_message_id d)).
Proof.
  intros (U1 & U2 & U3 & C1 & C2 & C3 & C4 & M1 & M2) Hid Hname.
  unfold tables_consistent. simpl. rewrite Hid, Hname.
  repeat split; try assumption.
  eapply Forall_lt_map; [exact Hid | exact U3].
Qed.

Lemma tables_add_conversation d row :
  tables_consistent d ->
  conv_id row = next_conversation_id d ->
  (participant_1_id row <= participant_2_id row)%Z ->
  ~ In (participant_1_id row, participant_2_id row)
       (map (fun c => (participant_1_id c, participant_2_id c))
            (conversations d)) ->
  tables_consistent
    (mkDatabase (users d) (next_user_id d)
                (conversations d ++ [row]) (next_conversation_id d + 1)
                (messages d) (next_message_id d)).
Proof.
  intros (U1 & U2 & U3 & C1 & C2 & C3 & C4 & M1 & M2) Hid Hle Hpair.
  unfold tables_consistent. simpl. rewrite !map_app. simpl.
  repeat split; try assumption.
  - apply NoDup_snoc; [exact C1|]. rewrite Hid.
    now apply Forall_lt_not_In.
  - apply Forall_app. split; [now apply Forall_lt_succ|].
    constructor; [lia | constructor].
  - apply Forall_app. split; [exact C3|]. now repeat constructor.
  - now apply NoDup_snoc.
Qed.

Lemma tables_add_message d row :
  tables_consistent d ->
  msg_id row = next_message_id d ->
  tables_consistent
    (mkDatabase (users d) (next_user_id d)
                (conversations d) (next_conversation_id d)
                (messages d ++ [row]) (next_message_id d + 1)).
Proof.
  intros (U1 & U2 & U3 & C1 & C2 & C3 & C4 & M1 & M2) Hid.
  unfold tables_consistent. simpl. rewrite !map_app. simpl.
  repeat split; try assumption.
  - apply NoDup_snoc; [exact M1|]. rewrite Hid.
    now apply Forall_lt_not_In.
  - apply Forall_app. split; [now apply Forall_lt_succ|].
    constructor; [lia | constructor].
Qed.

Lemma tables_replace_messages d messages' :
  tables_consistent d ->
  map msg_id messages' = map msg_id (messages d) ->
  tables_consistent
    (mkDatabase (users d) (next_user_id d)
                (conversations d) (next_conversation_id d)
                messages' (next_message_id d)).
Proof.
  intros (U1 & U2 & U3 & C1 & C2 & C3 & C4 & M1 & M2) Hid.
  unfold tables_consistent. simpl. rewrite Hid.
  repeat split; try assumption.
  eapply Forall_lt_map; [exact Hid | exact M2].
Qed.

Lemma keeps_same_db {A} (m : M A) w :
  db (snd (m w)) = db w -> keeps_tables_at m w.
Proof. intros E H. now rewrite E. Qed.

Lemma keeps_tables_at_bind {A B} (m : M A) (k : A -> M B) w :
  keeps_tables_at m w ->
  (forall a w1, m w = (Ok a, w1) -> keeps_tables_at (k a) w1) ->
  keeps_tables_at (bind m k) w.
Proof.
  unfold keeps_tables_at, bind. intros Hm Hk H.
  destruct (m w) as [[a|e] w1] eqn:E; simpl in Hm.
  - apply (Hk a w1 eq_refl). now apply Hm.
  - now apply Hm.
Qed.

Lemma keeps_tables_bind {A B} (m : M A) (k : A -> M B) :
  keeps_tables m -> (forall a, keeps_tables (k a)) -> keeps_tables (bind m k).
Proof.
  intros Hm Hk w. apply keeps_tables_at_bind; [apply Hm|].
  intros a w1 _. apply Hk.
Qed.

Lemma keeps_tables_try_except {A} (m : M A) (h : Exn -> M A) :
  keeps_tables m -> (forall e, keeps_tables (h e)) ->
  keeps_tables (try_except m h).
Proof.
  unfold keeps_tables, keeps_tables_at, try_except. intros Hm Hh w H.
  specialize (Hm w H).
  destruct (m w) as [[a|e] w1]; simpl in *; [exact Hm|].
  now apply Hh.
Qed.

Lemma keeps_tables_ret {A} (a : A) : keeps_tables (ret a).
Proof. intros w H. exact H. Qed.

Lemma keeps_tables_raise {A} (e : Exn) : keeps_tables (@raise A e).
Proof. intros w H. exact H. Qed.

Lemma keeps_tables_scalar {A} (rows : list A) :
  keeps_tables (scalar_one_or_none rows).
Proof.
  destruct rows as [|r [|r' rows]]; simpl;
    [apply keeps_tables_ret | apply keeps_tables_ret | apply keeps_tables_raise].
Qed.

Lemma existsb_false_not_In {A B} (f : A -> B) (p : A -> bool) (l : list A)
      (y : B) :
  existsb p l = false ->
  (forall x, f x = y -> p x = true) ->
  ~ In y (map f l).
Proof.
  intros H Hp Hin. apply in_map_iff in Hin. destruct Hin as (x & E & Hx).
  assert (Hex : existsb p l = true)
    by (apply existsb_exists; exists x; split; [exact Hx | now apply Hp]).
  congruence.
Qed.

Section TablesKept.
Variable env : Env.

Lemma keeps_tables_insert_user n e p f b a :
  keeps_tables (insert_user env n e p f b a).
Proof.
  intros w H. unfold insert_user.
  destruct e as [e|]; [|exact H].
  destruct p as [p|]; [|exact H].
  destruct (existsb _ (users (db w))) eqn:Ex; [exact H|].
  simpl. apply tables_add_user; [exact H | reflexivity |].
  simpl. eapply existsb_false_not_In; [exact Ex|].
  intros x Hx. simpl. rewrite Hx. now rewrite String.eqb_refl.
Qed.

Lemma keeps_tables_get_or_create_user n e p f b a :
  keeps_tables (get_or_create_user env n e p f b a).
Proof.
  intros w H. rewrite get_or_create_user_unfold.
  destruct (filter (fun u => String.eqb (user_username u) n) (users (db w)))
    as [|u0 [|u0' rest]] eqn:F; [| |exact H].
  - now apply keeps_tables_insert_user.
  - cbv zeta.
    destruct (user_eqb (synced_row u0 e p f b a) u0); [exact H|].
    unfold update_user.
    destruct (existsb _ (users (db w))); [exact H|].
    simpl. destruct (filter_singleton_In _ _ F) as [Hin0 _].
    pose proof H as (U1 & _).
    assert (Hsame : forall x, In x (users (db w)) ->
              (user_id x =? user_id u0)%Z = true -> x = u0).
    { intros x Hx E. apply Z.eqb_eq in E.
      eapply NoDup_map_In_eq; [exact U1 | exact Hx | exact Hin0 | exact E]. }
    apply tables_replace_users; [exact H | |]; apply map_map_same;
      intros x Hx;
      (destruct ((user_id x =? user_id u0)%Z) eqn:E;
       [rewrite (Hsame x Hx E); reflexivity | reflexivity]).
Qed.

Lemma rows_between_none_not_In a b d :
  rows_between a b d = [] ->
  ~ In (Z.min a b, Z.max a b)
       (map (fun c => (participant_1_id c, participant_2_id c))
            (conversations d)).
Proof.
  intros R Hin. apply in_map_iff in Hin. destruct Hin as (c & E & Hc).
  injection E as E1 E2.
  assert (Hf : In c (rows_between a b d)).
  { unfold rows_between. apply filter_In. split; [exact Hc|].
    now rewrite E1, E2, !Z.eqb_refl. }
  rewrite R in Hf. destruct Hf.
Qed.

Lemma keeps_tables_get_or_create_conversation a b :
  keeps_tables (get_or_create_conversation env a b).
Proof.
  intros w H. unfold get_or_create_conversation.
  erewrite bind_run by (unfold select_conversations; reflexivity).
  fold (rows_between a b (db w)).
  destruct (rows_between a b (db w)) as [|c0 [|c1 rows]] eqn:R; simpl;
    try exact H.
  unfold bind, ret, now, insert_conversation.
  destruct (user_exists (Z.min a b) (db w) && user_exists (Z.max a b) (db w));
    [|exact H].
  simpl. apply tables_add_conversation;
    [exact H | reflexivity | simpl; lia |].
  simpl. now apply rows_between_none_not_In.
Qed.

Lemma keeps_tables_insert_message c s x t st :
  keeps_tables (insert_message c s x t st).
Proof.
  intros w H. unfold insert_message.
  destruct (conversation_exists c (db w) && user_exists s (db w)); [|exact H].
  simpl. now apply tables_add_message.
Qed.

Lemma keeps_tables_create_message sid data :
  keeps_tables (create_message env sid data).
Proof.
  unfold create_message.
  apply keeps_tables_bind; [apply keeps_tables_get_or_create_conversation|].
  intros c. apply keeps_tables_bind; [intros w H; exact H|].
  intros t. apply keeps_tables_insert_message.
Qed.

Lemma keeps_tables_update_message_status mid st :
  keeps_tables (update_message_status mid st).
Proof.
  unfold update_message_status.
  apply keeps_tables_bind; [intros w H; exact H|]. intros rows.
  apply keeps_tables_bind; [apply keeps_tables_scalar|]. intros [m|];
    [|apply keeps_tables_ret].
  apply keeps_tables_bind; [|intros; apply keeps_tables_ret].
  destruct (status_eqb (msg_status m) st); [apply keeps_tables_ret|].
  intros w H. unfold write_message_status. simpl.
  apply tables_replace_messages; [exact H|].
  apply map_map_same. intros x _.
  destruct ((msg_id x =? mid)%Z); reflexivity.
Qed.

Lemma db_send_personal_message message uid w :
  db (snd (send_personal_message env message uid w)) = db w.
Proof.
  rewrite send_personal_message_run.
  destruct (PyDict.get uid (active_connections w)); [|reflexivity].
  simpl. now rewrite db_cleanup.
Qed.

Lemma keeps_tables_send_message data current_user :
  keeps_tables (send_message env data current_user).
Proof.
  unfold send_message. apply keeps_tables_try_except.
  - apply keeps_tables_bind; [apply keeps_tables_get_or_create_user|].
    intros sender.
    apply keeps_tables_bind.
    { unfold get_user_by_id.
      apply keeps_tables_bind; [intros w H; exact H|]. intros rows.
      apply keeps_tables_scalar. }
    intros [receiver|]; [|apply keeps_tables_raise].
    apply keeps_tables_bind; [apply keeps_tables_create_message|].
    intros m.
    apply keeps_tables_bind.
    { intros w. apply keeps_same_db. now rewrite is_user_online_run. }
    intros [|]; [|apply keeps_tables_ret].
    apply keeps_tables_bind.
    { intros w. apply keeps_same_db. apply db_send_personal_message. }
    intros _.
    apply keeps_tables_bind.
    { intros w. apply keeps_same_db. now rewrite run_pending_tasks_run. }
    intros _.
    apply keeps_tables_bind; [apply keeps_tables_update_message_status|].
    intros _. apply keeps_tables_ret.
  - intros e. destruct e; apply keeps_tables_raise.
Qed.

(** X12.  Every writer of the storage layer, and [send_message] on top of
    them, keeps the tables consistent, however the call ends: ids stay
    distinct and below their counters, usernames stay distinct, and no
    pair of users ever gets a second conversation or one stored the wrong
    way round. *)
Theorem writers_keep_tables_consistent :
  forall (w : World),
    tables_consistent (db w) ->
    (forall n e p f b a,
        tables_consistent (db (snd (create_user env n e p f b a w)))
        /\ tables_consistent (db (snd (get_or_create_user env n e p f b a w))))
    /\ (forall a b,
           tables_consistent (db (snd (get_or_create_conversation env a b w))))
    /\ (forall sid data,
           tables_consistent (db (snd (create_message env sid data w))))
    /\ (forall mid st,
           tables_consistent (db (snd (update_message_status mid st w))))
    /\ (forall data current_user,
           tables_consistent (db (snd (send_message env data current_user w)))).
Proof.
  intros w H. split; [intros n e p f b a; split|].
  - now apply keeps_tables_insert_user.
  - now apply keeps_tables_get_or_create_user.
  - split; [intros a b; now apply keeps_tables_get_or_create_conversation|].
    split; [intros sid data; now apply keeps_tables_create_message|].
    split; [intros mid st; now apply keeps_tables_update_message_status|].
    intros data current_user. now apply keeps_tables_send_message.
Qed.

End TablesKept.

(* ===================================================================== *)
(** ** Sending between known users *)
(* ===================================================================== *)

Lemma filter_unique {A B} (f : A -> B) (p : A -> bool) (l : list A) (x : A) :
  NoDup (map f l) -> In x l ->
  (forall y, p y = true <-> f y = f x) ->
  filter p l = [x].
Proof.
  intros Hnd Hin Hp. induction l as [|y l IH]; simpl in *; [tauto|].
  inversion Hnd as [|? ? Hnot Hrest]; subst.
  destruct Hin as [->|Hin].
  - rewrite (proj2 (Hp x) eq_refl). f_equal.
    destruct (filter p l) as [|z r] eqn:F; [reflexivity|].
    exfalso. apply Hnot.
    assert (Hz : In z (filter p l)) by (rewrite F; now left).
    apply filter_In in Hz. destruct Hz as [Hz Hpz].
    rewrite <- (proj1 (Hp z) Hpz). now apply in_map.
  - destruct (p y) eqn:E.
    + exfalso. apply Hnot. rewrite (proj1 (Hp y) E). now apply in_map.
    + now apply IH.
Qed.

Lemma filter_at_most_one {A B} (f : A -> B) (p : A -> bool) (l : list A)
      (k : B) :
  NoDup (map f l) ->
  (forall y, p y = true -> f y = k) ->
  List.length (filter p l) <= 1.
Proof.
  intros Hnd Hp. induction l as [|y l IH]; simpl in *; [lia|].
  inversion Hnd as [|? ? Hnot Hrest]; subst.
  destruct (p y) eqn:E; [|now apply IH].
  destruct (filter p l) as [|z r] eqn:F; [simpl; lia|].
  exfalso. apply Hnot.
  assert (Hz : In z (filter p l)) by (rewrite F; now left).
  apply filter_In in Hz. destruct Hz as [Hz Hpz].
  rewrite (Hp y E), <- (Hp z Hpz). now apply in_map.
Qed.

Lemma consistent_tables_are_ready d current_user data sender receiver :
  tables_consistent d ->
  In sender (users d) -> user_username sender = auth_username current_user ->
  In receiver (users d) -> user_id receiver = receiver_id data ->
  ready_to_send d current_user data sender.
Proof.
  intros (U1 & U2 & U3 & C1 & C2 & C3 & C4 & M1 & M2) Hs Hsn Hr Hrid.
  unfold ready_to_send. split; [|split; [|split]].
  - eapply (@filter_unique _ _ user_username); [exact U2 | exact Hs |].
    intros y. rewrite <- Hsn. apply String.eqb_eq.
  - exists receiver.
    eapply (@filter_unique _ _ user_id); [exact U1 | exact Hr |].
    intros y. rewrite <- Hrid. apply Z.eqb_eq.
  - unfold rows_between.
    eapply (@filter_at_most_one _ _
              (fun c => (participant_1_id c, participant_2_id c)));
      [exact C4|].
    intros y Hy. apply andb_true_iff in Hy. destruct Hy as [H1 H2].
    apply Z.eqb_eq in H1, H2. rewrite H1, H2. reflexivity.
  - exact M2.
Qed.

Section KnownUsers.
Variable env : Env.

Lemma update_message_status_write mid st m w :
  filter (fun x => (msg_id x =? mid)%Z) (messages (db w)) = [m] ->
  status_eqb (msg_status m) st = false ->
  update_message_status mid st w
  = (Ok (Some (set_msg_status st m)), snd (write_message_status mid st w)).
Proof.
  intros Hsel Hst. unfold update_message_status.
  erewrite bind_run by (unfold select_messages; reflexivity).
  rewrite Hsel. unfold bind, scalar_one_or_none, ret.
  rewrite Hst. reflexivity.
Qed.

(** [create_message] in detail: the row it stores and the conversation
    it belongs to. *)
Lemma create_message_stores sid data w :
  List.length (rows_between sid (receiver_id data) (db w)) <= 1 ->
  user_exists sid (db w) = true ->
  user_exists (receiver_id data) (db w) = true ->
  exists c m w1,
    create_message env sid data w = (Ok m, w1)
    /\ rows_between sid (receiver_id data) (db w1) = [c]
    /\ msg_conversation_id m = conv_id c
    /\ msg_sender_id m = sid
    /\ msg_content m = content data
    /\ msg_id m = next_message_id (db w)
    /\ msg_status m = SENT
    /\ messages (db w1) = messages (db w) ++ [m]
    /\ users (db w1) = users (db w)
    /\ active_connections w1 = active_connections w.
Proof.
  intros Hlen Hs Hr.
  destruct (get_or_create_conversation_ok env _ _ w Hlen Hs Hr)
    as (c & wa & evs & Hc & _ & _ & Hex).
  destruct (get_or_create_conversation_inv _ _ _ _ Hc) as (R & Hu & Hm & Hn).
  destruct (quiet_get_or_create_conversation env sid (receiver_id data) w)
    as (Hac & _).
  rewrite Hc in Hac. simpl in Hac.
  unfold create_message.
  erewrite bind_run by exact Hc.
  unfold bind, now, insert_message.
  assert (Hs' : user_exists sid (db wa) = true)
    by (unfold user_exists in *; now rewrite Hu).
  rewrite Hex, Hs'. simpl.
  exists c. eexists. eexists. split; [reflexivity|]. simpl.
  repeat split; try assumption. now rewrite Hm.
Qed.

Lemma send_message_between_known_users_run :
  forall (data : MessageCreate) (current_user : AuthenticatedUser)
         (sender receiver : User) (w : World),
    tables_consistent (db w) ->
    In sender (users (db w)) ->
    user_username sender = auth_username current_user ->
    In receiver (users (db w)) ->
    user_id receiver = receiver_id data ->
    exists resp w' c m,
      send_message env data current_user w = (Ok resp, w')
      /\ messages (db w') = messages (db w) ++ [m]
      /\ model_validate m = resp
      /\ resp_sender_id resp = user_id sender
      /\ resp_content resp = content data
      /\ rows_between (user_id sender) (receiver_id data) (db w') = [c]
      /\ resp_conversation_id resp = conv_id c
      /\ resp_status resp
         = (if Nat.ltb 0 (List.length
                            (handles_of (receiver_id data)
                                        (active_connections w)))
            then DELIVERED else SENT)
      /\ users (db w') = users (db w).
Proof.
  intros data cu sender receiver w Hcons Hs Hsn Hr Hrid.
  destruct (@consistent_tables_are_ready (db w) cu data sender receiver
              Hcons Hs Hsn Hr Hrid)
    as (Hsender & (receiver' & Hreceiver) & Hlen & Hfresh).
  assert (Hsid : user_exists (user_id sender) (db w) = true)
    by (eapply user_exists_filter; exact Hsender).
  assert (Hrx : user_exists (receiver_id data) (db w) = true).
  { destruct (filter_singleton_In _ _ Hreceiver) as [_ E].
    apply Z.eqb_eq in E. rewrite <- E.
    eapply user_exists_filter; exact Hreceiver. }
  destruct (@create_message_stores (user_id sender) data w Hlen Hsid Hrx)
    as (c & m & w1 & Hcreate & R & Hconv & Hsnd & Htxt & Hid & Hst & Hmsgs
        & Husers & Hac).
  assert (Hstart :
    forall k : Message -> M MessageResponse,
      (sender0 <- get_or_create_user env (auth_username cu)
                    None None None None None ;;
       receiver0 <- get_user_by_id (receiver_id data) ;;
       match receiver0 with
       | None => raise (HTTPException 404 "Receiver not found")
       | Some _ =>
           message <- create_message env (user_id sender0) data ;;
           k message
       end) w = k m w1).
  { intros k.
    erewrite bind_run by (apply get_or_create_user_found; exact Hsender).
    erewrite bind_run by (apply get_user_by_id_found; exact Hreceiver).
    cbv iota. erewrite bind_run by exact Hcreate. reflexivity. }
  destruct (handles_of (receiver_id data) (active_connections w))
    as [|c0 conns] eqn:Hh.
  - exists (model_validate m), w1, c, m.
    split.
    { unfold send_message. apply try_except_ok. rewrite Hstart.
      erewrite bind_run by apply is_user_online_run.
      rewrite Hac, Hh. reflexivity. }
    repeat split; assumption.
  - set (payload := new_message_envelope (model_validate m)).
    set (w2 := snd (send_personal_message env payload (receiver_id data) w1)).
    assert (Hpush : send_personal_message env payload (receiver_id data) w1
                    = (Ok tt, w2)).
    { subst w2. rewrite send_personal_message_run.
      destruct (PyDict.get (receiver_id data) (active_connections w1));
        reflexivity. }
    assert (Hdb2 : db w2 = db w1)
      by (subst w2; apply db_send_personal_message).
    assert (Hsel : filter (fun x => (msg_id x =? msg_id m)%Z) (messages (db w2))
                   = [m]).
    { rewrite Hdb2, Hmsgs, filter_app, Hid, (filter_fresh_id Hfresh).
      simpl. rewrite <- Hid. now rewrite Z.eqb_refl. }
    exists (set_resp_status DELIVERED (model_validate m)).
    eexists. exists c, (set_msg_status DELIVERED m).
    split.
    { unfold send_message. apply try_except_ok. rewrite Hstart.
      erewrite bind_run by apply is_user_online_run.
      rewrite Hac, Hh.
      change (Nat.ltb 0 (List.length (c0 :: conns))) with true. cbv iota.
      erewrite bind_run by exact Hpush.
      erewrite bind_run by apply run_pending_tasks_run.
      erewrite bind_run
        by (apply update_message_status_write;
            [simpl; exact Hsel | now rewrite Hst]).
      reflexivity. }
    simpl. rewrite Hdb2, Hmsgs, map_app. simpl. rewrite Z.eqb_refl.
    split.
    { f_equal. apply map_where_fixed. intros x Hx Hp.
      rewrite Forall_forall in Hfresh. specialize (Hfresh x Hx).
      apply Z.eqb_eq in Hp. lia. }
    repeat split; try assumption.
Qed.

(** X13.  Between two users that have rows, on consistent tables, [send_message]
    always succeeds: it adds exactly one message row, the one it returns,
    sent by the caller in the one conversation of the pair, and reports
    it delivered when the receiver has a handle and sent otherwise. *)
Theorem send_message_between_known_users_succeeds :
  forall (data : MessageCreate) (current_user : AuthenticatedUser)
         (sender receiver : User) (w : World),
    tables_consistent (db w) ->
    In sender (users (db w)) ->
    user_username sender = auth_username current_user ->
    In receiver (users (db w)) ->
    user_id receiver = receiver_id data ->
    exists resp w' c m,
      send_message env data current_user w = (Ok resp, w')
      /\ messages (db w') = messages (db w) ++ [m]
      /\ model_validate m = resp
      /\ resp_sender_id resp = user_id sender
      /\ resp_content resp = content data
      /\ rows_between (user_id sender) (receiver_id data) (db w') = [c]
      /\ resp_conversation_id resp = conv_id c
      /\ resp_status resp
         = (if Nat.ltb 0 (List.length
                            (handles_of (receiver_id data)
                                        (active_connections w)))
            then DELIVERED else SENT)
      /\ users (db w') = users (db w).
Proof.
  intros data cu sender receiver w Hcons Hs Hsn Hr Hrid.
  eapply send_message_between_known_users_run; eassumption.
Qed.

(** X14.  A message to a receiver id that has no row is refused with 404 and
    leaves everything as it was: nothing is stored and nothing is
    sent. *)
Theorem send_message_to_unknown_receiver_is_404 :
  forall (data : MessageCreate) (current_user : AuthenticatedUser)
         (sender : User) (w : World),
    filter (fun u => String.eqb (user_username u) (auth_username current_user))
           (users (db w)) = [sender] ->
    filter (fun u => (user_id u =? receiver_id data)%Z) (users (db w)) = [] ->
    send_message env data current_user w
    = (Raise (HTTPException 404 "Receiver not found"), w).
Proof.
  intros data cu sender w Hsender Hnone.
  unfold send_message, try_except.
  erewrite bind_run by (apply get_or_create_user_found; exact Hsender).
  unfold get_user_by_id.
  erewrite bind_run
    by (erewrite bind_run by (unfold select_users; reflexivity);
        rewrite Hnone; reflexivity).
  reflexivity.
Qed.

End KnownUsers.

(* ===================================================================== *)
(** ** The conversation of a pair *)
(* ===================================================================== *)

Section ConversationOfAPair.
Variable env : Env.

(** A message for a pair that has its row goes into that row's
    conversation, and no conversation is added. *)
Lemma create_message_in sid data c w :
  rows_between sid (receiver_id data) (db w) = [c] ->
  user_exists sid (db w) = true ->
  exists m w1,
    create_message env sid data w = (Ok m, w1)
    /\ msg_conversation_id m = conv_id c
    /\ msg_sender_id m = sid
    /\ msg_content m = content data
    /\ messages (db w1) = messages (db w) ++ [m]
    /\ conversations (db w1) = conversations (db w).
Proof.
  intros R Hs.
  assert (Hin : In c (rows_between sid (receiver_id data) (db w)))
    by (rewrite R; now left).
  destruct (rows_between_In _ _ _ _ Hin) as (_ & _ & Hex).
  unfold create_message.
  erewrite bind_run by (apply get_or_create_conversation_found; exact R).
  unfold bind, now, insert_message. rewrite Hex, Hs. simpl.
  eexists. eexists. split; [reflexivity|]. simpl. repeat split.
Qed.

(** What a successful [create_message] has done. *)
Lemma create_message_inv sid data m w w1 :
  create_message env sid data w = (Ok m, w1) ->
  exists c,
    rows_between sid (receiver_id data) (db w1) = [c]
    /\ msg_conversation_id m = conv_id c
    /\ msg_sender_id m = sid
    /\ msg_content m = content data
    /\ messages (db w1) = messages (db w) ++ [m].
Proof.
  intros H. unfold create_message in H. unfold bind at 1 in H.
  destruct (get_or_create_conversation env sid (receiver_id data) w)
    as [[c|e] wa] eqn:Ec; [|discriminate].
  destruct (get_or_create_conversation_inv _ _ _ _ Ec) as (R & _ & Hm & _).
  unfold bind, now, insert_message in H.
  destruct (conversation_exists (conv_id c) (db wa)
            && user_exists sid (db wa)); [|discriminate].
  injection H as <- <-. exists c. simpl.
  split; [exact R|]. repeat split. now rewrite Hm.
Qed.

(** C10.  [get_or_create_conversation] does the same whichever way
    round the two user ids are given.  The conversation it returns has
    the smaller id as first participant and is, in the tables it
    leaves, the one stored row of the pair, whichever way round the
    pair is looked up; asking again, either way round, returns that
    row and changes nothing.  When the pair has at most one row and
    both users exist, a message from the first to the second and then
    one from the second to the first are both stored, as the last two
    rows of the messages, and both carry the id of that one
    conversation; and whenever two such messages are created, this is
    so. *)
Theorem conversation_lookup_symmetric :
  forall (a b : Z) (w : World),
    get_or_create_conversation env a b w
    = get_or_create_conversation env b a w
    /\ (forall c w1,
           get_or_create_conversation env a b w = (Ok c, w1) ->
           participant_1_id c = Z.min a b
           /\ participant_2_id c = Z.max a b
           /\ (participant_1_id c <= participant_2_id c)%Z
           /\ rows_between a b (db w1) = [c]
           /\ rows_between b a (db w1) = [c]
           /\ get_or_create_conversation env b a w1 = (Ok c, w1)
           /\ get_or_create_conversation env a b w1 = (Ok c, w1))
    /\ (List.length (rows_between a b (db w)) <= 1 ->
        user_exists a (db w) = true ->
        user_exists b (db w) = true ->
        forall text1 text2,
        exists c m1 m2 w1 w2,
          create_message env a (mkMessageCreate b text1) w = (Ok m1, w1)
          /\ create_message env b (mkMessageCreate a text2) w1 = (Ok m2, w2)
          /\ rows_between a b (db w2) = [c]
          /\ rows_between b a (db w2) = [c]
          /\ msg_conversation_id m1 = conv_id c
          /\ msg_conversation_id m2 = conv_id c
          /\ msg_sender_id m1 = a /\ msg_content m1 = text1
          /\ msg_sender_id m2 = b /\ msg_content m2 = text2
          /\ messages (db w2) = messages (db w) ++ [m1; m2])
    /\ (forall text1 text2 m1 m2 w1 w2,
           create_message env a (mkMessageCreate b text1) w = (Ok m1, w1) ->
           create_message env b (mkMessageCreate a text2) w1 = (Ok m2, w2) ->
           exists c,
             rows_between a b (db w2) = [c]
             /\ msg_conversation_id m1 = conv_id c
             /\ msg_conversation_id m2 = conv_id c
             /\ messages (db w2) = messages (db w) ++ [m1; m2]).
Proof.
  intros a b w.
  assert (Hsecond : forall text2 c w1,
             rows_between a b (db w1) = [c] ->
             forall m2 w2,
               create_message env b (mkMessageCreate a text2) w1 = (Ok m2, w2) ->
               rows_between a b (db w2) = [c]
               /\ msg_conversation_id m2 = conv_id c
               /\ msg_sender_id m2 = b /\ msg_content m2 = text2
               /\ messages (db w2) = messages (db w1) ++ [m2]).
  { intros text2 c w1 R m2 w2 H2.
    assert (Rb : rows_between b (receiver_id (mkMessageCreate a text2)) (db w1)
                 = [c]) by (simpl; now rewrite rows_between_comm).
    assert (Hb : user_exists b (db w1) = true).
    { unfold create_message in H2.
      erewrite bind_run in H2
        by (apply get_or_create_conversation_found; exact Rb).
      unfold bind, now, insert_message in H2.
      destruct (user_exists b (db w1)); [reflexivity|].
      rewrite andb_false_r in H2. discriminate. }
    destruct (@create_message_in b (mkMessageCreate a text2) c w1 Rb Hb)
      as (m2' & w2' & H2' & Hc2 & Hs2 & Ht2 & Hm2 & Hconv).
    rewrite H2 in H2'. injection H2' as <- <-.
    split.
    { unfold rows_between in *. now rewrite Hconv. }
    repeat split; assumption. }
  split; [apply get_or_create_conversation_comm|]. split; [|split].
  - intros c w1 H.
    destruct (get_or_create_conversation_inv _ _ _ _ H) as (R & _).
    assert (Hin : In c (rows_between a b (db w1))) by (rewrite R; now left).
    destruct (rows_between_In _ _ _ _ Hin) as (H1 & H2 & _).
    split; [exact H1|]. split; [exact H2|].
    split; [rewrite H1, H2; lia|].
    split; [exact R|].
    split; [now rewrite rows_between_comm|].
    split; apply get_or_create_conversation_found;
      [now rewrite rows_between_comm | exact R].
  - intros Hlen Ha Hb text1 text2.
    destruct (@create_message_stores env a (mkMessageCreate b text1) w
                Hlen Ha Hb)
      as (c & m1 & w1 & H1 & R & Hc1 & Hs1 & Ht1 & _ & _ & Hm1 & Hu1 & _).
    simpl in R, Ht1.
    assert (Rb : rows_between b (receiver_id (mkMessageCreate a text2)) (db w1)
                 = [c]) by (simpl; now rewrite rows_between_comm).
    assert (Hb1 : user_exists b (db w1) = true)
      by (unfold user_exists in *; now rewrite Hu1).
    destruct (@create_message_in b (mkMessageCreate a text2) c w1 Rb Hb1)
      as (m2 & w2 & H2 & _).
    destruct (Hsecond text2 c w1 R m2 w2 H2)
      as (R2 & Hc2 & Hs2 & Ht2 & Hm2).
    exists c, m1, m2, w1, w2.
    split; [exact H1|]. split; [exact H2|]. split; [exact R2|].
    split; [now rewrite rows_between_comm|].
    split; [exact Hc1|]. split; [exact Hc2|].
    split; [exact Hs1|]. split; [exact Ht1|].
    split; [exact Hs2|]. split; [exact Ht2|].
    rewrite Hm2, Hm1, <- app_assoc. reflexivity.
  - intros text1 text2 m1 m2 w1 w2 H1 H2.
    destruct (@create_message_inv a (mkMessageCreate b text1) m1 w w1 H1)
      as (c & R & Hc1 & _ & _ & Hm1).
    simpl in R.
    destruct (Hsecond text2 c w1 R m2 w2 H2)
      as (R2 & Hc2 & _ & _ & Hm2).
    exists c. split; [exact R2|]. split; [exact Hc1|]. split; [exact Hc2|].
    rewrite Hm2, Hm1, <- app_assoc. reflexivity.
Qed.

End ConversationOfAPair.

Section ConversationRuns.
Import Scenario.

Lemma conversation_lookup_symmetric_witness :
  get_or_create_conversation peers_accept 9 7 boot
  = (Ok first_conversation, after_first_lookup)
  /\ List.length (rows_between 9 7 (db boot)) <= 1
  /\ user_exists 9 (db boot) = true
  /\ user_exists 7 (db boot) = true
  /\ (participant_1_id first_conversation = Z.min 9 7
      /\ participant_2_id first_conversation = Z.max 9 7
      /\ (participant_1_id first_conversation
          <= participant_2_id first_conversation)%Z
      /\ rows_between 9 7 (db after_first_lookup) = [first_conversation]
      /\ rows_between 7 9 (db after_first_lookup) = [first_conversation]
      /\ get_or_create_conversation peers_accept 7 9 after_first_lookup
         = (Ok first_conversation, after_first_lookup)
      /\ get_or_create_conversation peers_accept 9 7 after_first_lookup
         = (Ok first_conversation, after_first_lookup))
  /\ exists c m1 m2 w1 w2,
      create_message peers_accept 9 (mkMessageCreate 7 "hello") boot
      = (Ok m1, w1)
      /\ create_message peers_accept 7 (mkMessageCreate 9 "hi") w1 = (Ok m2, w2)
      /\ rows_between 9 7 (db w2) = [c]
      /\ rows_between 7 9 (db w2) = [c]
      /\ msg_conversation_id m1 = conv_id c
      /\ msg_conversation_id m2 = conv_id c
      /\ msg_sender_id m1 = 9%Z /\ msg_content m1 = "hello"%string
      /\ msg_sender_id m2 = 7%Z /\ msg_content m2 = "hi"%string
      /\ messages (db w2) = messages (db boot) ++ [m1; m2].
Proof.
  assert (H0 : get_or_create_conversation peers_accept 9 7 boot
               = (Ok first_conversation, after_first_lookup))
    by reflexivity.
  assert (H1 : List.length (rows_between 9 7 (db boot)) <= 1)
    by (vm_compute; lia).
  assert (H2 : user_exists 9 (db boot) = true) by reflexivity.
  assert (H3 : user_exists 7 (db boot) = true) by reflexivity.
  pose proof (@conversation_lookup_symmetric peers_accept 9 7 boot)
    as (_ & K2 & K3 & _).
  split; [exact H0|]. split; [exact H1|]. split; [exact H2|].
  split; [exact H3|].
  split; [exact (K2 _ _ H0) | exact (K3 H1 H2 H3 "hello"%string "hi"%string)].
Defined.

End ConversationRuns.

(* ===================================================================== *)
(** ** Reading the history *)
(* ===================================================================== *)

Lemma insert_ordered_perm {A} (le : A -> A -> bool) (x : A) (l : list A) :
  Permutation (insert_ordered le x l) (x :: l).
Proof.
  induction l as [|y l IH]; simpl; [reflexivity|].
  destruct (le x y); [reflexivity|].
  rewrite IH. apply perm_swap.
Qed.

Lemma order_by_perm {A} (le : A -> A -> bool) (l : list A) :
  Permutation (order_by le l) l.
Proof.
  induction l as [|x l IH]; simpl; [reflexivity|].
  rewrite insert_ordered_perm. now constructor.
Qed.

Lemma insert_ordered_sorted {A} (le : A -> A -> bool) (x : A) (l : list A) :
  (forall a b, le a b = true \/ le b a = true) ->
  Sorted (fun a b => le a b = true) l ->
  Sorted (fun a b => le a b = true) (insert_ordered le x l).
Proof.
  intros Htotal. induction l as [|y l IH]; intros Hs; simpl.
  - repeat constructor.
  - destruct (le x y) eqn:E.
    + constructor; [exact Hs | constructor; exact E].
    + assert (Hyx : le y x = true)
        by (destruct (Htotal x y); [congruence | assumption]).
      inversion Hs as [|? ? Hsl Hhd]; subst.
      constructor; [now apply IH|].
      destruct l as [|z l]; simpl.
      * constructor. exact Hyx.
      * destruct (le x z); constructor; [exact Hyx|].
        now inversion Hhd.
Qed.

Lemma order_by_sorted {A} (le : A -> A -> bool) (l : list A) :
  (forall a b, le a b = true \/ le b a = true) ->
  Sorted (fun a b => le a b = true) (order_by le l).
Proof.
  intros Htotal. induction l as [|x l IH]; simpl; [constructor|].
  now apply insert_ordered_sorted.
Qed.

Lemma Sorted_map {A B} (R : A -> A -> Prop) (R' : B -> B -> Prop)
      (f : A -> B) (l : list A) :
  (forall a b, R a b -> R' (f a) (f b)) ->
  Sorted R l -> Sorted R' (map f l).
Proof.
  intros HR. induction 1 as [|x l Hs IH Hhd]; simpl; constructor.
  - exact IH.
  - destruct Hhd; simpl; constructor. now apply HR.
Qed.

Lemma get_conversation_messages_run conversation_id uid w :
  get_conversation_messages conversation_id uid w
  = match filter (fun c => (conv_id c =? conversation_id)%Z)
                 (conversations (db w)) with
    | [] => (Ok (RaisedValueError "Conversation not found"), w)
    | [c] =>
        if negb ((uid =? participant_1_id c)%Z || (uid =? participant_2_id c)%Z)
        then (Ok (RaisedValueError
                    "User is not a participant in this conversation"), w)
        else (Ok (Returned
                    (order_by by_timestamp
                       (filter (fun m => (msg_conversation_id m
                                          =? conversation_id)%Z)
                               (messages (db w))))), w)
    | _ :: _ :: _ => (Raise MultipleResultsFound, w)
    end.
Proof.
  unfold get_conversation_messages.
  erewrite bind_run by (unfold select_conversations; reflexivity).
  destruct (filter _ (conversations (db w))) as [|c [|c' rest]];
    try reflexivity.
  unfold bind, scalar_one_or_none, ret.
  destruct (negb _); reflexivity.
Qed.

Section History.
Variable env : Env.

Lemma get_messages_run conversation_id current_user u w :
  filter (fun x => String.eqb (user_username x) (auth_username current_user))
         (users (db w)) = [u] ->
  get_messages env conversation_id current_user w
  = match filter (fun c => (conv_id c =? conversation_id)%Z)
                 (conversations (db w)) with
    | [] => (Raise (HTTPException 403 "Conversation not found"), w)
    | [c] =>
        if negb ((user_id u =? participant_1_id c)%Z
                 || (user_id u =? participant_2_id c)%Z)
        then (Raise (HTTPException 403
                       "User is not a participant in this conversation"), w)
        else (Ok (map model_validate
                    (order_by by_timestamp
                       (filter (fun m => (msg_conversation_id m
                                          =? conversation_id)%Z)
                               (messages (db w))))), w)
    | _ :: _ :: _ =>
        (Raise (HTTPException 500 "Failed to retrieve messages"), w)
    end.
Proof.
  intros Hu. unfold get_messages.
  unfold bind at 1. unfold try_except.
  erewrite bind_run by (apply get_or_create_user_found; exact Hu).
  unfold bind at 1. rewrite get_conversation_messages_run.
  destruct (filter _ (conversations (db w))) as [|c [|c' rest]];
    try reflexivity.
  destruct (negb _); reflexivity.
Qed.

(** X15.  [get_messages] answers a known caller without changing anything.  A
    participant of the conversation gets all of its messages and only
    those, in ascending order of timestamp; anyone else gets 403, with
    the reason: no such conversation, or not a participant. *)
Theorem history_goes_to_participants_only :
  forall (conversation_id : Z) (current_user : AuthenticatedUser)
         (u : User) (w : World),
    tables_consistent (db w) ->
    In u (users (db w)) ->
    user_username u = auth_username current_user ->
    exists out,
      get_messages env conversation_id current_user w = (out, w)
      /\ match out with
         | Ok responses =>
             (exists c, In c (conversations (db w))
                        /\ conv_id c = conversation_id
                        /\ (user_id u = participant_1_id c
                            \/ user_id u = participant_2_id c))
             /\ Permutation responses
                  (map model_validate
                       (filter (fun m => (msg_conversation_id m
                                          =? conversation_id)%Z)
                               (messages (db w))))
             /\ Sorted (fun r1 r2 => String.leb (resp_timestamp r1)
                                                (resp_timestamp r2) = true)
                       responses
         | Raise e =>
             (e = HTTPException 403 "Conversation not found"
              /\ forall c, In c (conversations (db w)) ->
                           conv_id c <> conversation_id)
             \/ (e = HTTPException 403
                       "User is not a participant in this conversation"
                 /\ exists c, In c (conversations (db w))
                              /\ conv_id c = conversation_id
                              /\ user_id u <> participant_1_id c
                              /\ user_id u <> participant_2_id c)
         end.
Proof.
  intros cid cu u w Hcons Hin Hname.
  pose proof Hcons as (U1 & U2 & U3 & C1 & _).
  assert (Hu : filter (fun x => String.eqb (user_username x) (auth_username cu))
                      (users (db w)) = [u]).
  { eapply (@filter_unique _ _ user_username); [exact U2 | exact Hin |].
    intros y. rewrite <- Hname. apply String.eqb_eq. }
  rewrite (get_messages_run cid cu w Hu).
  assert (Hlen : List.length (filter (fun c => (conv_id c =? cid)%Z)
                                     (conversations (db w))) <= 1).
  { eapply (@filter_at_most_one _ _ conv_id); [exact C1|].
    intros y Hy. apply Z.eqb_eq in Hy. exact Hy. }
  destruct (filter (fun c => (conv_id c =? cid)%Z) (conversations (db w)))
    as [|c [|c' rest]] eqn:F; [| |simpl in Hlen; lia].
  - eexists. split; [reflexivity|]. left. split; [reflexivity|].
    intros c Hc E.
    assert (Hf : In c (filter (fun c => (conv_id c =? cid)%Z)
                              (conversations (db w))))
      by (apply filter_In; split; [exact Hc | now apply Z.eqb_eq]).
    rewrite F in Hf. destruct Hf.
  - destruct (filter_singleton_In _ _ F) as [Hc Hid].
    apply Z.eqb_eq in Hid.
    destruct ((user_id u =? participant_1_id c)%Z
              || (user_id u =? participant_2_id c)%Z) eqn:P; simpl.
    + eexists. split; [reflexivity|]. split; [|split].
      * exists c. repeat split; try assumption.
        apply orb_true_iff in P. rewrite !Z.eqb_eq in P. exact P.
      * apply Permutation_map, order_by_perm.
      * apply Sorted_map with (R := fun a b => by_timestamp a b = true).
        -- intros a b H. exact H.
        -- apply order_by_sorted. intros a b. apply String.leb_total.
    + eexists. split; [reflexivity|]. right. split; [reflexivity|].
      exists c. apply orb_false_iff in P. rewrite !Z.eqb_neq in P.
      repeat split; tauto.
Qed.

End History.

Section ReadBack.
Variable env : Env.

(** X16.  What one user sends to another can afterwards be read with
    [get_messages] by the sender and by the receiver, whether it was
    pushed or only stored, and by no third user, who gets 403. *)
Theorem sent_message_is_read_back_by_its_two_parties_only :
  forall (data : MessageCreate) (current_user reading : AuthenticatedUser)
         (sender receiver reader : User) (w : World),
    tables_consistent (db w) ->
    In sender (users (db w)) ->
    user_username sender = auth_username current_user ->
    In receiver (users (db w)) ->
    user_id receiver = receiver_id data ->
    In reader (users (db w)) ->
    user_username reader = auth_username reading ->
    exists resp w',
      send_message env data current_user w = (Ok resp, w')
      /\ (user_id reader = user_id sender \/ user_id reader = user_id receiver ->
          exists responses,
            get_messages env (resp_conversation_id resp) reading w'
            = (Ok responses, w')
            /\ In resp responses)
      /\ (user_id reader <> user_id sender ->
          user_id reader <> user_id receiver ->
          get_messages env (resp_conversation_id resp) reading w'
          = (Raise (HTTPException 403
                      "User is not a participant in this conversation"), w')).
Proof.
  intros data cu reading sender receiver reader w
         Hcons Hs Hsn Hr Hrid Hrd Hrdn.
  destruct (@send_message_between_known_users_run env data cu sender receiver w
              Hcons Hs Hsn Hr Hrid)
    as (resp & w' & c & m & Hrun & Hmsgs & Hresp & _ & _ & R & Hcid & _ & Husers).
  exists resp, w'. split; [exact Hrun|].
  pose proof (keeps_tables_send_message env data cu w Hcons) as Hcons'.
  rewrite Hrun in Hcons'. simpl in Hcons'.
  pose proof Hcons' as (_ & U2 & _ & C1 & _).
  assert (Hu : filter (fun x => String.eqb (user_username x)
                                           (auth_username reading))
                      (users (db w')) = [reader]).
  { eapply (@filter_unique _ _ user_username);
      [exact U2 | now rewrite Husers |].
    intros y. rewrite <- Hrdn. apply String.eqb_eq. }
  assert (Hc : In c (rows_between (user_id sender) (receiver_id data) (db w')))
    by (rewrite R; now left).
  destruct (rows_between_In _ _ _ _ Hc) as (P1 & P2 & _).
  unfold rows_between in Hc. apply filter_In in Hc. destruct Hc as [Hc _].
  assert (Hf : filter (fun x => (conv_id x =? resp_conversation_id resp)%Z)
                      (conversations (db w')) = [c]).
  { eapply (@filter_unique _ _ conv_id); [exact C1 | exact Hc |].
    intros y. rewrite <- Hcid. apply Z.eqb_eq. }
  rewrite (get_messages_run env (resp_conversation_id resp) reading w' Hu), Hf.
  rewrite P1, P2, <- Hrid.
  split.
  - intros Hparty.
    assert (E : (user_id reader =? Z.min (user_id sender) (user_id receiver))%Z
                || (user_id reader =? Z.max (user_id sender) (user_id receiver))%Z
                = true).
    { apply orb_true_iff. rewrite !Z.eqb_eq. lia. }
    rewrite E. simpl. eexists. split; [reflexivity|].
    rewrite <- Hresp. apply in_map.
    apply (Permutation_in m (Permutation_sym (order_by_perm _ _))).
    apply filter_In. split.
    + rewrite Hmsgs. apply in_or_app. right. now left.
    + apply Z.eqb_eq. reflexivity.
  - intros N1 N2.
    assert (E : (user_id reader =? Z.min (user_id sender) (user_id receiver))%Z
                || (user_id reader =? Z.max (user_id sender) (user_id receiver))%Z
                = false).
    { apply orb_false_iff. rewrite !Z.eqb_neq. lia. }
    rewrite E. reflexivity.
Qed.

End ReadBack.

(* ===================================================================== *)
(** ** The user endpoints *)
(* ===================================================================== *)

Lemma opt_string_eqb_eq (a b : option string) :
  opt_string_eqb a b = true -> a = b.
Proof.
  destruct a as [x|], b as [y|]; simpl; try congruence.
  intros H. apply String.eqb_eq in H. now subst.
Qed.

Lemma user_eqb_eq (a b : User) : user_eqb a b = true -> a = b.
Proof.
  unfold user_eqb. rewrite !andb_true_iff.
  intros [[[[[[[H1 H2] H3] H4] H5] H6] H7] H8].
  apply Z.eqb_eq in H1. apply String.eqb_eq in H2, H3, H4, H8.
  apply opt_string_eqb_eq in H5, H6, H7.
  destruct a, b; simpl in *. now subst.
Qed.

Section UserEndpoints.
Variable env : Env.
Variable DEV_MODE : bool.
Variable str : Exn -> string.

(** What [get_or_create_user] returns is the row that is stored under
    the username and under its id; a failed call changes nothing. *)
Lemma get_or_create_user_result n e p f b a w :
  tables_consistent (db w) ->
  match get_or_create_user env n e p f b a w with
  | (Ok u, w1) =>
      user_username u = n
      /\ filter (fun x => (user_id x =? user_id u)%Z) (users (db w1)) = [u]
  | (Raise _, w1) => w1 = w
  end.
Proof.
  intros Hcons. pose proof Hcons as (U1 & U2 & U3 & _).
  rewrite get_or_create_user_unfold.
  destruct (filter (fun x => String.eqb (user_username x) n) (users (db w)))
    as [|u0 [|u0' rest]] eqn:F; [| |reflexivity].
  - unfold insert_user.
    destruct e as [e|]; [|reflexivity].
    destruct p as [p|]; [|reflexivity].
    destruct (existsb _ (users (db w))); [reflexivity|].
    simpl. split; [reflexivity|].
    rewrite filter_app, (filter_fresh_user U3). simpl.
    now rewrite Z.eqb_refl.
  - destruct (filter_singleton_In _ _ F) as [Hin0 Hname].
    apply String.eqb_eq in Hname. cbv zeta.
    destruct (user_eqb (synced_row u0 e p f b a) u0) eqn:Eq.
    + apply user_eqb_eq in Eq. rewrite Eq. split; [exact Hname|].
      eapply (@filter_unique _ _ user_id); [exact U1 | exact Hin0 |].
      intros y. apply Z.eqb_eq.
    + unfold update_user.
      destruct (existsb _ (users (db w))); [reflexivity|].
      simpl. split; [exact Hname|].
      rewrite filter_map_commute.
      * erewrite (@filter_unique _ _ user_id _ _ u0);
          [simpl; now rewrite Z.eqb_refl | exact U1 | exact Hin0 |].
        intros y. apply Z.eqb_eq.
      * intros x Hx. simpl.
        destruct (Z.eqb_spec (user_id x) (user_id u0)) as [E|E]; simpl.
        -- now rewrite Z.eqb_refl.
        -- now apply Z.eqb_neq.
Qed.

(** X17.  [sync_user] is an upsert.  When it succeeds, the user it returns
    carries the username given, [get_user] on the returned id gives the
    same answer, and repeating the call gives it again without writing.
    When it fails, it fails with status 400 and nothing has changed. *)
Theorem sync_user_is_a_repeatable_upsert :
  forall (user_data : UserCreate) (w : World),
    tables_consistent (db w) ->
    match sync_user env str user_data w with
    | (Ok r, w1) =>
        ur_username r = uc_username user_data
        /\ get_user (ur_id r) w1 = (Ok r, w1)
        /\ sync_user env str user_data w1 = (Ok r, w1)
    | (Raise e, w1) =>
        (exists detail, e = HTTPException 400 detail) /\ w1 = w
    end.
Proof.
  intros user_data w Hcons. unfold sync_user.
  destruct (negb (truthy (uc_email user_data))).
  { split; [eexists; reflexivity | reflexivity]. }
  unfold try_except at 1. unfold bind at 1.
  pose proof (get_or_create_user_result (uc_username user_data)
                (uc_email user_data) (uc_password user_data)
                (uc_full_name user_data) (uc_bio user_data)
                (uc_avatar_url user_data) w Hcons) as Hres.
  destruct (get_or_create_user env (uc_username user_data) (uc_email user_data)
              (uc_password user_data) (uc_full_name user_data)
              (uc_bio user_data) (uc_avatar_url user_data) w)
    as [[u|x] w1] eqn:G.
  - destruct Hres as [Hname Hid]. simpl.
    split; [exact Hname|]. split.
    + unfold get_user, get_user_by_id.
      erewrite bind_run
        by (erewrite bind_run by (unfold select_users; reflexivity);
            rewrite Hid; reflexivity).
      reflexivity.
    + unfold try_except.
      erewrite bind_run
        by (eapply get_or_create_user_again;
            [exact (proj1 Hcons) | exact G]).
      reflexivity.
  - simpl. split; [eexists; reflexivity | exact Hres].
Qed.

End UserEndpoints.

(* ===================================================================== *)
(** ** How the endpoints fail *)
(* ===================================================================== *)

Lemma no_http_bind {A B} (m : M A) (k : A -> M B) :
  no_http_error m -> (forall a, no_http_error (k a)) ->
  no_http_error (bind m k).
Proof.
  intros Hm Hk w. unfold bind. specialize (Hm w).
  destruct (m w) as [[a|e] w1]; simpl in *; [apply Hk | exact Hm].
Qed.

Lemma no_http_ret {A} (a : A) : no_http_error (ret a).
Proof. intros w. exact I. Qed.

Lemma no_http_scalar {A} (rows : list A) :
  no_http_error (scalar_one_or_none rows).
Proof. intros w. destruct rows as [|r [|r' rows]]; simpl; trivial. Qed.


Section Failures.
Variable env : Env.
Variable DEV_MODE : bool.
Variable str : Exn -> string.

Lemma no_http_get_or_create_user n e p f b a :
  no_http_error (get_or_create_user env n e p f b a).
Proof.
  intros w. rewrite get_or_create_user_unfold.
  destruct (filter _ (users (db w))) as [|u0 [|u0' rest]]; simpl; trivial.
  - unfold insert_user.
    destruct e as [e|]; simpl; trivial.
    destruct p as [p|]; simpl; trivial.
    destruct (existsb _ (users (db w))); simpl; trivial.
  - destruct (user_eqb _ u0); simpl; trivial.
    unfold update_user.
    destruct (existsb _ (users (db w))); simpl; trivial.
Qed.

Lemma no_http_get_user_by_id uid : no_http_error (get_user_by_id uid).
Proof.
  unfold get_user_by_id. apply no_http_bind; [intros w; exact I|].
  intros rows. apply no_http_scalar.
Qed.

Lemma no_http_create_message sid data :
  no_http_error (create_message env sid data).
Proof.
  unfold create_message. apply no_http_bind.
  - unfold get_or_create_conversation.
    apply no_http_bind; [intros w; exact I|]. intros rows.
    apply no_http_bind; [apply no_http_scalar|]. intros [c|];
      [apply no_http_ret|].
    apply no_http_bind; [intros w; exact I|]. intros t.
    unfold insert_conversation. intros w.
    destruct (user_exists _ (db w) && user_exists _ (db w)); simpl; trivial.
  - intros c. apply no_http_bind; [intros w; exact I|]. intros t.
    unfold insert_message. intros w.
    destruct (conversation_exists _ (db w) && user_exists _ (db w));
      simpl; trivial.
Qed.

Lemma no_http_update_message_status mid st :
  no_http_error (update_message_status mid st).
Proof.
  unfold update_message_status.
  apply no_http_bind; [intros w; exact I|]. intros rows.
  apply no_http_bind; [apply no_http_scalar|]. intros [m|];
    [|apply no_http_ret].
  apply no_http_bind; [|intros; apply no_http_ret].
  destruct (status_eqb (msg_status m) st); [apply no_http_ret|].
  intros w. exact I.
Qed.

(** X18.  The endpoints answer a failure with their own status codes and with
    nothing else: [send_message] with 404 for an unknown receiver or with
    500, [sync_user] with 400, [register_user] with 403 outside
    development mode or with 400, [list_conversations] with 500,
    [get_messages] with 403 or 500.  No exception of the storage layer or
    of a connection gets past them. *)
Theorem endpoints_fail_with_their_own_status_codes :
  forall (w : World),
    (forall data current_user e w',
        send_message env data current_user w = (Raise e, w') ->
        e = HTTPException 404 "Receiver not found"
        \/ e = HTTPException 500 "Failed to send message")
    /\ (forall user_data e w',
           sync_user env str user_data w = (Raise e, w') ->
           exists detail, e = HTTPException 400 detail)
    /\ (forall user_data e w',
           register_user env DEV_MODE str user_data w = (Raise e, w') ->
           (DEV_MODE = false
            /\ e = HTTPException 403
                     "User registration disabled. Use Auth Service.")
           \/ (DEV_MODE = true /\ exists detail, e = HTTPException 400 detail))
    /\ (forall current_user e w',
           list_conversations env current_user w = (Raise e, w') ->
           e = HTTPException 500 "Failed to retrieve conversations")
    /\ (forall conversation_id current_user e w',
           get_messages env conversation_id current_user w = (Raise e, w') ->
           (exists detail, e = HTTPException 403 detail)
           \/ e = HTTPException 500 "Failed to retrieve messages").
Proof.
  intros w. split; [|split; [|split; [|split]]].
  - intros data cu e w'. unfold send_message.
    match goal with
    | |- try_except ?b _ w = _ -> _ => set (body := b)
    end.
    assert (Hbody : match fst (body w) with
                    | Raise x =>
                        x = HTTPException 404 "Receiver not found"
                        \/ is_http_error x = false
                    | Ok _ => True
                    end);
      [subst body
      |unfold try_except; destruct (body w) as [[r|x] w1]; simpl in Hbody].
    + unfold bind at 1.
      pose proof (no_http_get_or_create_user (auth_username cu)
                    None None None None None w) as H1.
      destruct (get_or_create_user env _ None None None None None w)
        as [[sender|x] w1]; simpl in *; [|now right].
      unfold bind at 1.
      pose proof (no_http_get_user_by_id (receiver_id data) w1) as H2.
      destruct (get_user_by_id (receiver_id data) w1)
        as [[[receiver|]|x] w2]; simpl in *; [| now left | now right].
      pose proof
        (@no_http_bind _ _ (create_message env (user_id sender) data)
           (fun message =>
              online <- is_user_online (receiver_id data) ;;
              (if online : bool
               then
                 send_personal_message env
                   (new_message_envelope (model_validate message))
                   (receiver_id data) ;;
                 run_pending_tasks env ;;
                 update_message_status (msg_id message) DELIVERED ;;
                 ret (set_resp_status DELIVERED (model_validate message))
               else ret (model_validate message)))
           (no_http_create_message (user_id sender) data)) as H3.
      match goal with
      | |- match fst ?t with _ => _ end =>
          assert (H4 : match fst t with
                       | Raise e0 => is_http_error e0 = false
                       | Ok _ => True
                       end)
      end.
      { apply H3. intros m.
        apply no_http_bind.
        { intros w0. now rewrite is_user_online_run. }
        intros [|]; [|apply no_http_ret].
        apply no_http_bind.
        { intros w0. rewrite send_personal_message_run.
          now destruct (PyDict.get (receiver_id data) (active_connections w0)). }
        intros _. apply no_http_bind.
        { intros w0. now rewrite run_pending_tasks_run. }
        intros _. apply no_http_bind; [apply no_http_update_message_status|].
        intros _. apply no_http_ret. }
      destruct (fst _); [exact I | now right].
    + discriminate.
    + destruct Hbody as [->|Hx].
      * intros [= <- _]. now left.
      * destruct x; try discriminate; intros [= <- _]; now right.
  - intros user_data e w'. unfold sync_user.
    destruct (negb (truthy (uc_email user_data))).
    + intros [= <- _]. eexists; reflexivity.
    + unfold try_except.
      destruct (bind _ _ w) as [[r|x] w1]; [discriminate|].
      intros [= <- _]. eexists; reflexivity.
  - intros user_data e w'. unfold register_user.
    destruct DEV_MODE; simpl.
    + unfold try_except.
      destruct (bind _ _ w) as [[r|x] w1]; [discriminate|].
      intros [= <- _]. right. split; [reflexivity | eexists; reflexivity].
    + intros [= <- _]. left. split; reflexivity.
  - intros cu e w'. unfold list_conversations, try_except.
    destruct (bind _ _ w) as [[r|x] w1]; [discriminate|].
    now intros [= <- _].
  - intros cid cu e w'. unfold get_messages.
    unfold bind at 1. unfold try_except.
    destruct (bind _ _ w) as [[[rs|msg]|x] w1].
    + discriminate.
    + intros [= <- _]. left. eexists; reflexivity.
    + destruct x; simpl; intros [= <- _];
        try (now right); left; eexists; reflexivity.
Qed.

End Failures.

(* ===================================================================== *)
(** ** The socket endpoint *)
(* ===================================================================== *)

Lemma registry_after_connect_disconnect uid websocket w w1 :
  ~ In websocket (handles_of uid (active_connections w)) ->
  PyDict.get uid (active_connections w) <> Some [] ->
  active_connections w1 = active_connections (after_connect uid websocket w) ->
  active_connections (after_disconnect uid websocket w1)
  = active_connections w.
Proof.
  intros Hnot Hne Hac. unfold after_disconnect. rewrite Hac.
  unfold after_connect. simpl. unfold handles_of in *.
  rewrite DictFacts.get_set_same.
  destruct (PyDict.get uid (active_connections w)) as [conns|] eqn:G.
  - rewrite remove_first_last by exact Hnot.
    destruct conns as [|c conns]; [congruence|]. simpl.
    now rewrite DictFacts.set_set, (DictFacts.set_get_same _ _ G).
  - simpl. rewrite remove_first_head. simpl.
    now rewrite DictFacts.del_set, (DictFacts.del_absent _ _ G).
Qed.

Section SocketEndpointFacts.
Variable env : Env.
Variable Claim : Type.
Variable claim_truthy : Claim -> bool.
Variable claim_equals : Claim -> Z -> bool.
Variable decode_token_locally : string -> option (list (string * Claim)).
Variable validate_token_with_auth_service : string -> ServiceReply Claim.
Variable close_returns : Z -> string -> bool.
Variable accept_returns : bool.

Lemma handshake_cases uid token :
  (snd (handshake_of claim_truthy claim_equals decode_token_locally
               validate_token_with_auth_service close_returns
               accept_returns uid token) = true ->
   fst (handshake_of claim_truthy claim_equals decode_token_locally
               validate_token_with_auth_service close_returns
               accept_returns uid token) = [Accept]
   /\ accept_returns = true
   /\ exists t c,
       token = Some t /\ t <> ""%string
       /\ token_user_id claim_truthy decode_token_locally
                validate_token_with_auth_service t = Some (Some c)
       /\ claim_truthy c = true
       /\ claim_equals c uid = true)
  /\ (snd (handshake_of claim_truthy claim_equals decode_token_locally
               validate_token_with_auth_service close_returns
               accept_returns uid token) = false ->
      Forall (fun call => exists reason, call = Close 1008 reason)
             (fst (handshake_of claim_truthy claim_equals decode_token_locally
               validate_token_with_auth_service close_returns
               accept_returns uid token))).
Proof.
  unfold handshake_of.
  assert (Hclose : forall reason,
    match close_in_try close_returns 1008 reason with
    | Some outcome => outcome
    | None => if close_returns 1008 "Auth failed"
              then ([Close 1008 "Auth failed"], false)
              else ([], false)
    end = (fst (match close_in_try close_returns 1008 reason with
                | Some outcome => outcome
                | None => if close_returns 1008 "Auth failed"
                          then ([Close 1008 "Auth failed"], false)
                          else ([], false)
                end), false)
    /\ Forall (fun call => exists r, call = Close 1008 r)
              (fst (match close_in_try close_returns 1008 reason with
                    | Some outcome => outcome
                    | None => if close_returns 1008 "Auth failed"
                              then ([Close 1008 "Auth failed"], false)
                              else ([], false)
                    end))).
  { intros reason. unfold close_in_try.
    destruct (close_returns 1008 reason); simpl.
    - split; [reflexivity|]. repeat constructor. eexists; reflexivity.
    - destruct (close_returns 1008 "Auth failed"); simpl;
        (split; [reflexivity|]); repeat constructor. eexists; reflexivity. }
  assert (Hfail :
    (if close_returns 1008 "Auth failed"
     then ([Close 1008 "Auth failed"], false)
     else (@nil Control, false))
    = (fst (if close_returns 1008 "Auth failed"
            then ([Close 1008 "Auth failed"], false)
            else (@nil Control, false)), false)
    /\ Forall (fun call => exists r, call = Close 1008 r)
              (fst (if close_returns 1008 "Auth failed"
                    then ([Close 1008 "Auth failed"], false)
                    else (@nil Control, false)))).
  { destruct (close_returns 1008 "Auth failed"); simpl;
      (split; [reflexivity|]); repeat constructor. eexists; reflexivity. }
  unfold authenticate.
  destruct token as [t|].
  2:{ destruct (Hclose "Token required"%string) as [E F]. rewrite E. simpl.
      split; [discriminate | intros _; exact F]. }
  destruct (String.eqb_spec t "") as [->|Ht].
  { destruct (Hclose "Token required"%string) as [E F]. rewrite E. simpl.
    split; [discriminate | intros _; exact F]. }
  destruct (token_user_id claim_truthy decode_token_locally
              validate_token_with_auth_service t) as [[c|]|] eqn:T; simpl.
  - destruct (claim_truthy c) eqn:Tr; simpl.
    + destruct (claim_equals c uid) eqn:Eq; simpl.
      * destruct accept_returns eqn:Acc; simpl.
        -- split; [|discriminate]. intros _.
           split; [reflexivity|]. split; [reflexivity|].
           exists t, c. repeat split; assumption.
        -- destruct Hfail as [E F]. rewrite E. simpl.
           split; [discriminate | intros _; exact F].
      * destruct (Hclose "User mismatch"%string) as [E F]. rewrite E. simpl.
        split; [discriminate | intros _; exact F].
    + destruct (Hclose "Invalid token"%string) as [E F]. rewrite E. simpl.
      split; [discriminate | intros _; exact F].
  - destruct (Hclose "Invalid token"%string) as [E F]. rewrite E. simpl.
    split; [discriminate | intros _; exact F].
  - destruct Hfail as [E F]. rewrite E. simpl.
    split; [discriminate | intros _; exact F].
Qed.

(** X19.  The socket endpoint lets in authenticated callers only.  No
    exception leaves it.  When it has not registered the socket, the
    process state is exactly as before (nobody was told anything) and
    all it did to the socket was closing it with code 1008.  It
    registers the socket only after accepting it, for a non-empty token
    from which a truthy user id was read that equals the user id of the
    path. *)
Theorem socket_endpoint_lets_in_authenticated_callers_only :
  forall (websocket : WebSocket) (uid : Z) (token : option string)
         (inbox : list Incoming) (w : World),
  exists served w',
    websocket_endpoint env claim_truthy claim_equals
        decode_token_locally validate_token_with_auth_service
        close_returns accept_returns websocket uid token inbox w = (Ok served, w')
    /\ (session served = Rejected ->
        w' = w
        /\ Forall (fun call => exists reason, call = Close 1008 reason)
                  (handshake served))
    /\ (session served <> Rejected ->
        handshake served = [Accept]
        /\ exists t c,
            token = Some t /\ t <> ""%string
            /\ token_user_id claim_truthy decode_token_locally
                validate_token_with_auth_service t = Some (Some c)
            /\ claim_truthy c = true
            /\ claim_equals c uid = true).
Proof.
  intros websocket uid token inbox w.
  destruct (handshake_cases uid token) as [Hyes Hno].
  unfold websocket_endpoint.
  destruct (handshake_of claim_truthy claim_equals decode_token_locally
               validate_token_with_auth_service close_returns
               accept_returns uid token) as [calls accepted]. simpl in Hyes, Hno.
  destruct accepted.
  - destruct (Hyes eq_refl) as (Hcalls & _ & Htoken).
    destruct (connect_state env uid websocket w) as [pushed Hc].
    erewrite bind_run by exact Hc.
    unfold bind at 1. unfold try_except, bind at 1. unfold send_text at 1.
    destruct (send_text_ok env _ websocket (connection_established_message uid)).
    + unfold bind at 1. rewrite send_online_users_run.
      unfold bind at 1, closed_by_a_refusal at 1. unfold ret at 1.
      destruct (existsb _ _); [|destruct (receive_loop inbox)].
      * eexists. eexists. split; [reflexivity|]. simpl.
        split; [discriminate|]. intros _. split; assumption.
      * erewrite bind_run by apply disconnect_run.
        eexists. eexists. split; [reflexivity|]. simpl.
        split; [discriminate|]. intros _. split; assumption.
      * eexists. eexists. split; [reflexivity|]. simpl.
        split; [discriminate|]. intros _. split; assumption.
    + unfold ret at 1.
      erewrite bind_run by apply disconnect_run.
      eexists. eexists. split; [reflexivity|]. simpl.
      split; [discriminate|]. intros _. split; assumption.
  - exists (mkServed calls Rejected), w. split; [reflexivity|]. simpl.
    split; [intros _; split; [reflexivity | now apply Hno]|].
    intros H. now contradiction H.
Qed.

Lemma existsb_ws_In (x : WebSocket) (l : list WebSocket) :
  existsb (ws_eqb x) l = true <-> In x l.
Proof.
  rewrite existsb_exists. split.
  - intros (y & Hy & E). destruct (ws_eqb_spec x y); [now subst | discriminate].
  - intros H. exists x. split; [exact H|].
    destruct (ws_eqb_spec x x); [reflexivity | contradiction].
Qed.

Lemma refused_app (t1 t2 : list Event) :
  refused (t1 ++ t2) = refused t1 ++ refused t2.
Proof. unfold refused. apply flat_map_app. Qed.

Lemma connect_frames uid websocket w :
  exists pushed,
    connect env uid websocket w
    = (Ok tt, with_trace (trace w ++ pushed) (after_connect uid websocket w))
    /\ Forall (fun ev =>
                 exists c ok,
                   ev = EvSendText c (user_status_message uid "online") ok)
              pushed.
Proof.
  rewrite connect_run.
  destruct (handles_of uid (active_connections w)).
  - rewrite broadcast_user_status_run. eexists. split; [reflexivity|].
    eapply pushes_are_sends. apply attempts_targets.
  - exists []. split; [|constructor]. rewrite app_nil_r. now destruct w.
Qed.

(** X20.  A session from its acceptance on, for a socket that is new: not
    registered and with no send refused so far.  The database is never
    touched and no exception leaves the endpoint.  A refused greeting
    ends the session: the endpoint returns.  So does a disconnect of the
    client, as long as the socket has refused no send.  When the
    endpoint returns, the socket is registered no more and the registry
    is the one found at the start.  While the endpoint is listening, the
    socket is registered, the user is online, and the socket has taken
    the greeting and then a roster that names the user.  When the
    socket has taken the greeting but refused another send, the roster
    or the online status, the endpoint neither returns nor listens: the
    socket stays registered and the user online. *)
Theorem socket_session_registers_then_deregisters :
  forall (websocket : WebSocket) (uid : Z) (token : option string)
         (inbox : list Incoming) (w : World),
    snd (handshake_of claim_truthy claim_equals decode_token_locally
               validate_token_with_auth_service close_returns
               accept_returns uid token) = true ->
    ~ In websocket (handles_of uid (active_connections w)) ->
    PyDict.get uid (active_connections w) <> Some [] ->
    ~ In websocket (refused (trace w)) ->
    exists served w' evs,
      websocket_endpoint env claim_truthy claim_equals
        decode_token_locally validate_token_with_auth_service
        close_returns accept_returns websocket uid token inbox w = (Ok served, w')
      /\ trace w' = trace w ++ evs
      /\ db w' = db w
      /\ session served <> Rejected
      /\ (In (EvSendText websocket (connection_established_message uid) false)
             evs ->
          session served = Finished)
      /\ (~ In websocket (refused evs) ->
          receive_loop inbox = true ->
          session served = Finished)
      /\ (In (EvSendText websocket (connection_established_message uid) true)
             evs ->
          In websocket (refused evs) ->
          session served = Stuck)
      /\ (session served = Finished ->
          active_connections w' = active_connections w
          /\ ~ In websocket (handles_of uid (active_connections w')))
      /\ (session served = Listening ->
          receive_loop inbox = false
          /\ In websocket (handles_of uid (active_connections w'))
          /\ is_user_online uid w' = (Ok true, w')
          /\ In uid (PyDict.keys (active_connections w'))
          /\ exists before,
              evs
              = before
                ++ [EvSendText websocket
                      (connection_established_message uid) true;
                    EvSendText websocket
                      (online_users_message
                         (PyDict.keys (active_connections w'))) true])
      /\ (session served = Stuck ->
          In websocket (refused evs)
          /\ In websocket (handles_of uid (active_connections w'))
          /\ is_user_online uid w' = (Ok true, w')).
Proof.
  intros websocket uid token inbox w Hacc Hnot Hne Hfresh.
  unfold websocket_endpoint.
  destruct (handshake_of claim_truthy claim_equals decode_token_locally
               validate_token_with_auth_service close_returns
               accept_returns uid token) as [calls accepted].
  simpl in Hacc. subst accepted.
  destruct (connect_frames uid websocket w) as (pushed & Hc & Hframes).
  erewrite bind_run by exact Hc.
  set (w1 := with_trace (trace w ++ pushed) (after_connect uid websocket w)).
  assert (Hreg : In websocket (handles_of uid (active_connections w1))).
  { subst w1. rewrite connections_with_trace, handles_after_connect.
    apply in_or_app. right. now left. }
  assert (Hon : forall W,
             active_connections W = active_connections w1 ->
             is_user_online uid W = (Ok true, W)).
  { intros W E. rewrite is_user_online_run, E.
    destruct (handles_of uid (active_connections w1)); [destruct Hreg|].
    reflexivity. }
  assert (Hback : forall W,
             active_connections W = active_connections w1 ->
             active_connections (after_disconnect uid websocket W)
             = active_connections w).
  { intros W E. apply registry_after_connect_disconnect;
      [exact Hnot | exact Hne | exact E]. }
  assert (Hpg : forall ok,
             ~ In (EvSendText websocket (connection_established_message uid) ok)
                  pushed).
  { intros ok Hin. rewrite Forall_forall in Hframes.
    destruct (Hframes _ Hin) as (c & ok' & E). discriminate E. }
  unfold bind at 1. unfold try_except, bind at 1. unfold send_text at 1.
  destruct (send_text_ok env (trace w1) websocket
              (connection_established_message uid)) eqn:G.
  - unfold bind at 1. rewrite send_online_users_run.
    unfold bind at 1, closed_by_a_refusal at 1. unfold ret at 1.
    match goal with
    | |- context [existsb (ws_eqb websocket) (refused (trace ?W))] =>
        set (w3 := W)
    end.
    assert (Hshape : exists r,
               trace w3
               = trace w
                 ++ pushed
                 ++ [EvSendText websocket
                       (connection_established_message uid) true;
                     EvSendText websocket
                       (online_users_message
                          (PyDict.keys (active_connections w1))) r]
               /\ active_connections w3 = active_connections w1
               /\ db w3 = db w).
    { eexists. subst w3 w1. simpl. split; [|split; reflexivity].
      rewrite <- !app_assoc. reflexivity. }
    destruct Hshape as (r & Htr3 & Hac3 & Hdb3). clearbody w3.
    set (evs := pushed
                ++ [EvSendText websocket
                      (connection_established_message uid) true;
                    EvSendText websocket
                      (online_users_message
                         (PyDict.keys (active_connections w1))) r]) in *.
    assert (Hclosed : existsb (ws_eqb websocket) (refused (trace w3)) = true
                      <-> In websocket (refused evs)).
    { rewrite existsb_ws_In, Htr3, refused_app, in_app_iff. tauto. }
    assert (Hnogreet : ~ In (EvSendText websocket
                               (connection_established_message uid) false)
                            evs).
    { subst evs. intros Hin. apply in_app_or in Hin.
      destruct Hin as [Hin|[E|[E|[]]]];
        [exact (Hpg _ Hin) | discriminate E | discriminate E]. }
    destruct (existsb (ws_eqb websocket) (refused (trace w3))) eqn:C;
      [|destruct (receive_loop inbox) eqn:L].
    + exists (mkServed calls Stuck), w3, evs.
      split; [reflexivity|]. split; [exact Htr3|]. split; [exact Hdb3|].
      simpl. split; [discriminate|].
      split; [intros H; now contradiction Hnogreet|].
      split; [intros H; contradiction H; now apply Hclosed|].
      split; [reflexivity|].
      split; [discriminate|]. split; [discriminate|]. intros _.
      split; [now apply Hclosed|].
      split; [now rewrite Hac3 | now apply Hon].
    + erewrite bind_run by apply disconnect_run.
      exists (mkServed calls Finished), (after_disconnect uid websocket w3), evs.
      split; [reflexivity|].
      split; [now rewrite trace_after_disconnect|].
      split; [now rewrite db_after_disconnect|].
      simpl. split; [discriminate|].
      split; [reflexivity|]. split; [reflexivity|].
      split.
      { intros _ H. apply Hclosed in H. discriminate H. }
      split; [|split; discriminate]. intros _.
      rewrite (Hback w3 Hac3). split; [reflexivity | exact Hnot].
    + exists (mkServed calls Listening), w3, evs.
      split; [reflexivity|]. split; [exact Htr3|]. split; [exact Hdb3|].
      simpl. split; [discriminate|].
      split; [intros H; now contradiction Hnogreet|].
      split; [discriminate|].
      split.
      { intros _ H. apply Hclosed in H. discriminate H. }
      split; [discriminate|]. split; [|discriminate]. intros _.
      split; [reflexivity|].
      split; [now rewrite Hac3|]. split; [now apply Hon|].
      split.
      { apply DictFacts.In_keys_get. rewrite Hac3. unfold handles_of in Hreg.
        destruct (PyDict.get uid (active_connections w1));
          [discriminate | destruct Hreg]. }
      exists pushed. subst evs. rewrite Hac3.
      destruct r; [reflexivity|].
      exfalso. assert (H : In websocket (refused (pushed
                 ++ [EvSendText websocket
                       (connection_established_message uid) true;
                     EvSendText websocket
                       (online_users_message
                          (PyDict.keys (active_connections w1))) false]))).
      { rewrite refused_app. apply in_or_app. right. simpl. now left. }
      apply Hclosed in H. discriminate H.
  - unfold ret at 1.
    erewrite bind_run by apply disconnect_run.
    match goal with
    | |- context [after_disconnect uid websocket ?W] => set (w2 := W)
    end.
    exists (mkServed calls Finished), (after_disconnect uid websocket w2),
           (pushed ++ [EvSendText websocket
                         (connection_established_message uid) false]).
    split; [reflexivity|].
    split.
    { rewrite trace_after_disconnect. subst w2 w1. simpl.
      now rewrite <- app_assoc. }
    split; [now rewrite db_after_disconnect|].
    simpl. split; [discriminate|].
    split; [reflexivity|]. split; [reflexivity|].
    split.
    { intros Hin _. apply in_app_or in Hin.
      destruct Hin as [Hin|[E|[]]]; [now contradiction (Hpg true) | discriminate E]. }
    split; [|split; discriminate]. intros _.
    rewrite (Hback w2 eq_refl). split; [reflexivity | exact Hnot].
Qed.

End SocketEndpointFacts.

(* ===================================================================== *)
(** ** The conversation list *)
(* ===================================================================== *)

Lemma string_leb_trans (a b c : string) :
  String.leb a b = true -> String.leb b c = true -> String.leb a c = true.
Proof.
  unfold String.leb.
  destruct (String.compare a b) eqn:E1; try discriminate;
    destruct (String.compare b c) eqn:E2; try discriminate; intros _ _.
  - apply String.compare_eq_iff in E1. subst. now rewrite E2.
  - apply String.compare_eq_iff in E1. subst. now rewrite E2.
  - apply String.compare_eq_iff in E2. subst. now rewrite E1.
  - apply OrderedTypeEx.String_as_OT.cmp_lt in E1, E2.
    pose proof (OrderedTypeEx.String_as_OT.lt_trans _ _ _ E1 E2) as H.
    apply OrderedTypeEx.String_as_OT.cmp_lt in H.
    unfold OrderedTypeEx.String_as_OT.cmp in H. now rewrite H.
Qed.

Lemma scalar_one_or_none_limit_1 {A} (rows : list A) (w : World) :
  scalar_one_or_none (firstn 1 rows) w = (Ok (hd_error rows), w).
Proof. destruct rows as [|a [|b rest]]; reflexivity. Qed.

Lemma order_by_head {A} (le : A -> A -> bool) (l : list A) :
  (forall a b, le a b = true \/ le b a = true) ->
  (forall a b c, le a b = true -> le b c = true -> le a c = true) ->
  match hd_error (order_by le l) with
  | Some x => In x l /\ forall y, In y l -> le x y = true
  | None => l = []
  end.
Proof.
  intros Htotal Htrans.
  pose proof (order_by_sorted le l Htotal) as Hs.
  pose proof (order_by_perm le l) as Hp.
  destruct (order_by le l) as [|x rest]; simpl.
  - now apply Permutation_nil.
  - apply Sorted_StronglySorted in Hs;
      [|intros a b c; apply Htrans].
    inversion Hs as [|? ? _ Hall]; subst. split.
    + eapply Permutation_in; [exact Hp | now left].
    + intros y Hy.
      apply (Permutation_in _ (Permutation_sym Hp)) in Hy.
      destruct Hy as [->|Hy].
      * destruct (Htotal y y); assumption.
      * rewrite Forall_forall in Hall. now apply Hall.
Qed.

Lemma existsb_find {A} (p : A -> bool) (l : list A) :
  existsb p l = true -> exists x, find p l = Some x.
Proof.
  induction l as [|a l IH]; simpl; [discriminate|].
  destruct (p a); [eexists; reflexivity | exact IH].
Qed.

Lemma related_user_of_existing uid d :
  user_exists uid d = true ->
  exists u, related_user uid d = Some u /\ In u (users d) /\ user_id u = uid.
Proof.
  intros H. destruct (existsb_find _ _ H) as [u Hu].
  exists u. split; [exact Hu|].
  apply find_some in Hu. destruct Hu as [Hin Hid].
  split; [exact Hin | now apply Z.eqb_eq].
Qed.

Lemma for_acc_appends {C A B} (load : C -> A)
      (body : A -> list B -> M (list B)) (Q : C -> B -> Prop) (w : World) :
  forall (l : list C) (acc : list B),
    (forall c, In c l ->
               forall acc', exists b,
                 body (load c) acc' w = (Ok (acc' ++ [b]), w) /\ Q c b) ->
    exists bs,
      for_acc (map load l) acc body w = (Ok (acc ++ bs), w)
      /\ Forall2 Q l bs.
Proof.
  induction l as [|c l IH]; intros acc Hbody; simpl.
  - exists []. rewrite app_nil_r. split; [reflexivity | constructor].
  - destruct (Hbody c (or_introl eq_refl) acc) as (b & Hrun & Hq).
    erewrite bind_run by exact Hrun.
    destruct (IH (acc ++ [b]) (fun c' H => Hbody c' (or_intror H)))
      as (bs & Hrest & Hall).
    exists (b :: bs). rewrite Hrest, <- app_assoc. simpl.
    split; [reflexivity | now constructor].
Qed.

Lemma get_user_conversations_run uid w :
  (forall c, In c (conversations (db w)) ->
             user_exists (participant_1_id c) (db w) = true
             /\ user_exists (participant_2_id c) (db w) = true) ->
  exists responses,
    get_user_conversations uid w = (Ok responses, w)
    /\ Forall2 (describes (db w))
         (order_by by_created_at_desc
            (filter (fun c => (participant_1_id c =? uid)%Z
                              || (participant_2_id c =? uid)%Z)
                    (conversations (db w))))
         responses.
Proof.
  intros Hfk. unfold get_user_conversations.
  erewrite bind_run by (unfold select_conversations; reflexivity).
  erewrite bind_run by reflexivity.
  match goal with
  | |- exists _, for_acc (map ?load ?l) [] ?body w = _ /\ _ =>
      destruct (@for_acc_appends _ _ _ load body (describes (db w)) w l [])
        as (bs & Hrun & Hall)
  end.
  2:{ exists bs. simpl in Hrun. split; [exact Hrun | exact Hall]. }
  intros c Hc acc.
  assert (Hin : In c (conversations (db w))).
  { apply (Permutation_in _ (order_by_perm _ _)) in Hc.
    apply filter_In in Hc. tauto. }
  destruct (Hfk c Hin) as [H1 H2].
  destruct (related_user_of_existing _ _ H1) as (u1 & R1 & In1 & Id1).
  destruct (related_user_of_existing _ _ H2) as (u2 & R2 & In2 & Id2).
  rewrite R1, R2.
  erewrite bind_run by (unfold select_messages; reflexivity).
  erewrite bind_run by apply scalar_one_or_none_limit_1.
  eexists. split; [reflexivity|].
  unfold describes. simpl.
  split; [reflexivity|]. split; [reflexivity|].
  split; [reflexivity|]. split; [reflexivity|].
  split; [exists u1; auto|]. split; [exists u2; auto|].
  pose proof (@order_by_head _ by_timestamp_desc
                (filter (fun m => (msg_conversation_id m =? conv_id c)%Z)
                        (messages (db w)))) as Hhead.
  destruct (hd_error _) as [row|]; simpl.
  - destruct Hhead as [Hrow Hmax].
    + intros a b. apply String.leb_total.
    + intros a b c0 Hab Hbc. unfold by_timestamp_desc in *.
      eapply string_leb_trans; eassumption.
    + apply filter_In in Hrow. destruct Hrow as [Hrow Hcid].
      exists row. split; [exact Hrow|]. split; [reflexivity|].
      split; [now apply Z.eqb_eq|].
      intros other Ho Hoc. apply (Hmax other).
      apply filter_In. split; [exact Ho | now apply Z.eqb_eq].
  - intros other Ho Hoc.
    assert (Hnil : filter (fun m => (msg_conversation_id m =? conv_id c)%Z)
                          (messages (db w)) = []).
    { apply Hhead.
      - intros a b. apply String.leb_total.
      - intros a b c0 Hab Hbc. unfold by_timestamp_desc in *.
        eapply string_leb_trans; eassumption. }
    assert (Hf : In other (filter (fun m => (msg_conversation_id m
                                             =? conv_id c)%Z)
                                  (messages (db w))))
      by (apply filter_In; split; [exact Ho | now apply Z.eqb_eq]).
    rewrite Hnil in Hf. destruct Hf.
Qed.

Section ConversationList.
Variable env : Env.

(** X21.  [list_conversations] answers a known caller, when every participant
    of a stored conversation has a row, without changing anything.  The
    responses describe, one for one and in this order, the conversations
    the caller takes part in, newest first: each carries the rows of both
    participants and, as preview, a message of that conversation that no
    other one is later than. *)
Theorem conversation_list_is_the_callers_own_newest_first :
  forall (current_user : AuthenticatedUser) (u : User) (w : World),
    tables_consistent (db w) ->
    In u (users (db w)) ->
    user_username u = auth_username current_user ->
    (forall c, In c (conversations (db w)) ->
               user_exists (participant_1_id c) (db w) = true
               /\ user_exists (participant_2_id c) (db w) = true) ->
    exists responses listed,
      list_conversations env current_user w = (Ok responses, w)
      /\ Permutation listed
           (filter (fun c => (participant_1_id c =? user_id u)%Z
                             || (participant_2_id c =? user_id u)%Z)
                   (conversations (db w)))
      /\ Sorted (fun c1 c2 => String.leb (conv_created_at c2)
                                         (conv_created_at c1) = true)
                listed
      /\ Forall2 (describes (db w)) listed responses.
Proof.
  intros cu u w Hcons Hin Hname Hfk.
  pose proof Hcons as (_ & U2 & _).
  assert (Hu : filter (fun x => String.eqb (user_username x) (auth_username cu))
                      (users (db w)) = [u]).
  { eapply (@filter_unique _ _ user_username); [exact U2 | exact Hin |].
    intros y. rewrite <- Hname. apply String.eqb_eq. }
  destruct (get_user_conversations_run (user_id u) w Hfk)
    as (responses & Hrun & Hall).
  exists responses. eexists. split; [|split; [|split; [|exact Hall]]].
  - unfold list_conversations, try_except.
    erewrite bind_run by (apply get_or_create_user_found; exact Hu).
    now rewrite Hrun.
  - apply order_by_perm.
  - apply (order_by_sorted by_created_at_desc).
    intros a b. apply String.leb_total.
Qed.

End ConversationList.

(* ===================================================================== *)
(** ** The two user lookups *)
(* ===================================================================== *)

(** X22.  On consistent tables the lookup of a user by name changes nothing
    and never fails but with 404: it answers with the row of that name,
    the one [get_user] answers with under the row's id, and with 404
    exactly when no row has the name. *)
Theorem username_lookup_agrees_with_id_lookup :
  forall (username : string) (w : World),
    tables_consistent (db w) ->
    match Router.get_user_by_username username w with
    | (Ok r, w1) =>
        w1 = w
        /\ ur_username r = username
        /\ get_user (ur_id r) w = (Ok r, w)
        /\ exists u, In u (users (db w)) /\ r = user_model_validate u
    | (Raise e, w1) =>
        w1 = w
        /\ e = HTTPException 404 "User not found"
        /\ forall u, In u (users (db w)) -> user_username u <> username
    end.
Proof.
  intros username w (U1 & U2 & _).
  unfold Router.get_user_by_username.
  erewrite bind_run by (unfold select_users; reflexivity).
  pose proof (@filter_at_most_one _ _ user_username
                (fun u => String.eqb (user_username u) username)
                (users (db w)) username U2) as Hone.
  destruct (filter (fun u => String.eqb (user_username u) username)
                   (users (db w))) as [|u [|u' rest]] eqn:F.
  - simpl. split; [reflexivity|]. split; [reflexivity|].
    intros u Hu Hname.
    pose proof (filter_nil_none _ _ u F Hu) as Hp. simpl in Hp.
    apply String.eqb_neq in Hp. contradiction.
  - simpl.
    assert (Hu : In u (filter (fun x => String.eqb (user_username x) username)
                              (users (db w))))
      by (rewrite F; now left).
    apply filter_In in Hu. destruct Hu as [Hin Hname].
    apply String.eqb_eq in Hname.
    split; [reflexivity|]. split; [exact Hname|].
    split; [|exists u; split; [exact Hin | reflexivity]].
    unfold get_user.
    erewrite bind_run
      by (apply get_user_by_id_found;
          apply (@filter_unique _ _ user_id _ _ u U1 Hin);
          intros y; apply Z.eqb_eq).
    reflexivity.
  - exfalso.
    assert (H : List.length (u :: u' :: rest) <= 1).
    { apply Hone. intros y Hy. now apply String.eqb_eq. }
    simpl in H. lia.
Qed.

(* ===================================================================== *)
(** ** The properties on concrete runs *)
(* ===================================================================== *)

Section Runs.
Import Scenario.
Import Cases.

Lemma tables_are_consistent : tables_consistent tables.
Proof.
  unfold tables_consistent, tables. simpl.
  repeat split; repeat constructor; simpl;
    intuition (try discriminate; try lia).
Qed.

Lemma tables_after_hello_are_consistent : tables_consistent (db after_hello).
Proof.
  vm_compute.
  repeat split; repeat constructor; simpl;
    intuition (try discriminate; try lia).
Qed.

Lemma roster_names_exactly_the_online_users_witness :
  no_empty_entry (active_connections both_online)
  /\ exists ok,
      send_online_users peers_accept (Socket 1) both_online
      = (Ok tt,
         with_trace
           (trace both_online ++
            [EvSendText (Socket 1)
               (online_users_message
                  (PyDict.keys (active_connections both_online)))
               ok]) both_online)
      /\ forall uid,
           In uid (PyDict.keys (active_connections both_online))
           <-> is_user_online uid both_online = (Ok true, both_online).
Proof.
  assert (H : no_empty_entry (active_connections both_online))
    by (repeat constructor; discriminate).
  split; [exact H|].
  exact (@roster_names_exactly_the_online_users peers_accept (Socket 1)
           both_online H).
Defined.

Lemma disconnect_of_unregistered_handle_changes_nothing_witness :
  ~ In (Socket 5) (handles_of 7 (active_connections both_online))
  /\ PyDict.get 7%Z (active_connections both_online) <> Some []
  /\ disconnect 7 (Socket 5) both_online = (Ok tt, both_online).
Proof.
  assert (H1 : ~ In (Socket 5) (handles_of 7 (active_connections both_online)))
    by (simpl; intros [H|[]]; discriminate).
  assert (H2 : PyDict.get 7%Z (active_connections both_online) <> Some [])
    by discriminate.
  split; [exact H1|]. split; [exact H2|].
  exact (@disconnect_of_unregistered_handle_changes_nothing 7 (Socket 5)
           both_online H1 H2).
Defined.

Lemma connect_then_disconnect_restores_registry_witness :
  ~ In (Socket 5) (handles_of 7 (active_connections both_online))
  /\ PyDict.get 7%Z (active_connections both_online) <> Some []
  /\ exists w1 w2,
      connect peers_accept 7 (Socket 5) both_online = (Ok tt, w1)
      /\ disconnect 7 (Socket 5) w1 = (Ok tt, w2)
      /\ active_connections w2 = active_connections both_online
      /\ db w2 = db both_online
      /\ (handles_of 7 (active_connections both_online) = [] ->
          tasks w2 = tasks both_online ++ [BroadcastTask 7 "offline"])
      /\ (handles_of 7 (active_connections both_online) <> [] ->
          tasks w2 = tasks both_online /\ trace w2 = trace both_online).
Proof.
  assert (H1 : ~ In (Socket 5) (handles_of 7 (active_connections both_online)))
    by (simpl; intros [H|[]]; discriminate).
  assert (H2 : PyDict.get 7%Z (active_connections both_online) <> Some [])
    by discriminate.
  split; [exact H1|]. split; [exact H2|].
  exact (@connect_then_disconnect_restores_registry peers_accept 7 (Socket 5)
           both_online H1 H2).
Defined.

Lemma manager_calls_touch_one_user_only_witness :
  7%Z <> 9%Z
  /\ PyDict.get 9%Z
       (active_connections (snd (connect peers_accept 7 (Socket 3) both_online)))
     = PyDict.get 9%Z (active_connections both_online)
  /\ PyDict.get 9%Z
       (active_connections (snd (disconnect 7 (Socket 1) both_online)))
     = PyDict.get 9%Z (active_connections both_online)
  /\ PyDict.get 9%Z
       (active_connections
          (snd (send_personal_message peers_refuse JNull 7 both_online)))
     = PyDict.get 9%Z (active_connections both_online).
Proof.
  assert (H : 7%Z <> 9%Z) by lia.
  split; [exact H|].
  pose proof (@manager_calls_touch_one_user_only peers_accept 7 9 (Socket 3)
                JNull both_online H) as (K1 & _ & _).
  pose proof (@manager_calls_touch_one_user_only peers_refuse 7 9 (Socket 1)
                JNull both_online H) as (_ & K2 & K3).
  split; [exact K1|]. split; [exact K2 | exact K3].
Defined.

Lemma handles_connected_once_are_registered_once_witness :
  NoDup (connected_handles visits)
  /\ exists w,
      run_manager_calls peers_accept visits
        (mkWorld PyDict.empty tables [] []) = (Ok tt, w)
      /\ NoDup (all_handles (active_connections w))
      /\ incl (all_handles (active_connections w)) (connected_handles visits).
Proof.
  assert (H : NoDup (connected_handles visits)).
  { simpl. repeat constructor; simpl; intuition discriminate. }
  split; [exact H|].
  exact (@handles_connected_once_are_registered_once peers_accept visits
           tables [] [] H).
Defined.

Lemma update_message_status_changes_one_status_witness :
  List.length (filter (fun m => (msg_id m =? 1)%Z)
                      (messages (db after_hello))) <= 1
  /\ exists r w',
      update_message_status 1 READ after_hello = (Ok r, w')
      /\ messages (db w')
         = map (fun m => if (msg_id m =? 1)%Z
                         then set_msg_status READ m else m)
               (messages (db after_hello))
      /\ users (db w') = users (db after_hello)
      /\ conversations (db w') = conversations (db after_hello)
      /\ active_connections w' = active_connections after_hello
      /\ tasks w' = tasks after_hello
      /\ sends (trace w') = sends (trace after_hello)
      /\ (r = None <->
          filter (fun m => (msg_id m =? 1)%Z) (messages (db after_hello)) = [])
      /\ (r = None -> w' = after_hello)
      /\ (forall m, r = Some m ->
            msg_id m = 1%Z /\ msg_status m = READ
            /\ stored_status 1 (db w') = [READ]).
Proof.
  assert (H : List.length (filter (fun m => (msg_id m =? 1)%Z)
                                  (messages (db after_hello))) <= 1)
    by (vm_compute; lia).
  split; [exact H|].
  exact (@update_message_status_changes_one_status 1 READ after_hello H).
Defined.

Lemma created_user_is_found_and_not_created_twice_witness :
  Forall (fun r => (user_id r < next_user_id (db boot))%Z) (users (db boot))
  /\ create_user peers_accept "carol" (Some "carol@example.org"%string)
       (Some "hash-c"%string) (Some "Carol"%string) None None boot
     = (Ok carol, with_carol)
  /\ user_username carol = "carol"%string
  /\ get_user_by_id (user_id carol) with_carol = (Ok (Some carol), with_carol)
  /\ get_user_by_username "carol" with_carol = (Ok (Some carol), with_carol)
  /\ forall email' password' full_name' bio' avatar_url',
       create_user peers_accept "carol" email' password' full_name' bio'
                   avatar_url' with_carol
       = (Raise IntegrityError, with_carol).
Proof.
  assert (H1 : Forall (fun r => (user_id r < next_user_id (db boot))%Z)
                      (users (db boot)))
    by (repeat constructor).
  assert (H2 : create_user peers_accept "carol"
                 (Some "carol@example.org"%string) (Some "hash-c"%string)
                 (Some "Carol"%string) None None boot
               = (Ok carol, with_carol))
    by reflexivity.
  split; [exact H1|]. split; [exact H2|].
  exact (@created_user_is_found_and_not_created_twice peers_accept "carol"
           (Some "carol@example.org"%string) (Some "hash-c"%string)
           (Some "Carol"%string) None None carol boot with_carol H1 H2).
Defined.

Lemma get_or_create_user_twice_is_once_witness :
  NoDup (map user_id (users (db boot)))
  /\ get_or_create_user peers_accept "carol" (Some "carol@example.org"%string)
       (Some "hash-c"%string) (Some "Carol"%string) None None boot
     = (Ok carol, with_carol)
  /\ get_or_create_user peers_accept "carol" (Some "carol@example.org"%string)
       (Some "hash-c"%string) (Some "Carol"%string) None None with_carol
     = (Ok carol, with_carol).
Proof.
  assert (H1 : NoDup (map user_id (users (db boot))))
    by (simpl; repeat constructor; simpl; intuition discriminate).
  assert (H2 : get_or_create_user peers_accept "carol"
                 (Some "carol@example.org"%string) (Some "hash-c"%string)
                 (Some "Carol"%string) None None boot
               = (Ok carol, with_carol))
    by reflexivity.
  split; [exact H1|]. split; [exact H2|].
  exact (@get_or_create_user_twice_is_once peers_accept "carol"
           (Some "carol@example.org"%string) (Some "hash-c"%string)
           (Some "Carol"%string) None None carol boot with_carol H1 H2).
Defined.

Lemma writers_keep_tables_consistent_witness :
  tables_consistent (db boot)
  /\ tables_consistent
       (db (snd (send_message peers_accept hello as_alice boot)))
  /\ tables_consistent
       (db (snd (get_or_create_conversation peers_accept 9 7 boot)))
  /\ tables_consistent (db (snd (update_message_status 1 READ boot))).
Proof.
  split; [exact tables_are_consistent|].
  pose proof (@writers_keep_tables_consistent peers_accept boot
                tables_are_consistent) as (_ & K2 & _ & K4 & K5).
  split; [apply K5|]. split; [apply K2 | apply K4].
Defined.

Lemma send_message_between_known_users_succeeds_witness :
  tables_consistent (db both_online)
  /\ In alice (users (db both_online))
  /\ user_username alice = auth_username as_alice
  /\ In bob (users (db both_online))
  /\ user_id bob = receiver_id hello
  /\ exists resp w' c m,
      send_message peers_accept hello as_alice both_online = (Ok resp, w')
      /\ messages (db w') = messages (db both_online) ++ [m]
      /\ model_validate m = resp
      /\ resp_sender_id resp = user_id alice
      /\ resp_content resp = content hello
      /\ rows_between (user_id alice) (receiver_id hello) (db w') = [c]
      /\ resp_conversation_id resp = conv_id c
      /\ resp_status resp
         = (if Nat.ltb 0 (List.length
                            (handles_of (receiver_id hello)
                                        (active_connections both_online)))
            then DELIVERED else SENT)
      /\ users (db w') = users (db both_online).
Proof.
  assert (H2 : In alice (users (db both_online))) by (left; reflexivity).
  assert (H4 : In bob (users (db both_online)))
    by (right; left; reflexivity).
  split; [exact tables_are_consistent|].
  split; [exact H2|]. split; [reflexivity|].
  split; [exact H4|]. split; [reflexivity|].
  exact (@send_message_between_known_users_succeeds peers_accept hello
           as_alice alice bob both_online tables_are_consistent H2 eq_refl
           H4 eq_refl).
Defined.

Lemma send_message_to_unknown_receiver_is_404_witness :
  filter (fun u => String.eqb (user_username u) (auth_username as_alice))
         (users (db boot)) = [alice]
  /\ filter (fun u => (user_id u =? receiver_id to_stranger)%Z)
            (users (db boot)) = []
  /\ send_message peers_accept to_stranger as_alice boot
     = (Raise (HTTPException 404 "Receiver not found"), boot).
Proof.
  split; [reflexivity|]. split; [reflexivity|].
  exact (@send_message_to_unknown_receiver_is_404 peers_accept to_stranger
           as_alice alice boot eq_refl eq_refl).
Defined.

Lemma history_goes_to_participants_only_witness :
  tables_consistent (db after_hello)
  /\ In bob (users (db after_hello))
  /\ user_username bob = auth_username as_bob
  /\ exists out,
      get_messages peers_accept 1 as_bob after_hello = (out, after_hello)
      /\ match out with
         | Ok responses =>
             (exists c, In c (conversations (db after_hello))
                        /\ conv_id c = 1%Z
                        /\ (user_id bob = participant_1_id c
                            \/ user_id bob = participant_2_id c))
             /\ Permutation responses
                  (map model_validate
                       (filter (fun m => (msg_conversation_id m =? 1)%Z)
                               (messages (db after_hello))))
             /\ Sorted (fun r1 r2 => String.leb (resp_timestamp r1)
                                                (resp_timestamp r2) = true)
                       responses
         | Raise e =>
             (e = HTTPException 403 "Conversation not found"
              /\ forall c, In c (conversations (db after_hello)) ->
                           conv_id c <> 1%Z)
             \/ (e = HTTPException 403
                       "User is not a participant in this conversation"
                 /\ exists c, In c (conversations (db after_hello))
                              /\ conv_id c = 1%Z
                              /\ user_id bob <> participant_1_id c
                              /\ user_id bob <> participant_2_id c)
         end.
Proof.
  assert (H2 : In bob (users (db after_hello)))
    by (right; left; reflexivity).
  split; [exact tables_after_hello_are_consistent|].
  split; [exact H2|]. split; [reflexivity|].
  exact (@history_goes_to_participants_only peers_accept 1 as_bob bob
           after_hello tables_after_hello_are_consistent H2 eq_refl).
Defined.

Lemma sent_message_is_read_back_by_its_two_parties_only_witness :
  tables_consistent (db both_online)
  /\ In alice (users (db both_online))
  /\ user_username alice = auth_username as_alice
  /\ In bob (users (db both_online))
  /\ user_id bob = receiver_id hello
  /\ user_username bob = auth_username as_bob
  /\ exists resp w',
      send_message peers_accept hello as_alice both_online = (Ok resp, w')
      /\ (user_id bob = user_id alice \/ user_id bob = user_id bob ->
          exists responses,
            get_messages peers_accept (resp_conversation_id resp) as_bob w'
            = (Ok responses, w')
            /\ In resp responses)
      /\ (user_id bob <> user_id alice ->
          user_id bob <> user_id bob ->
          get_messages peers_accept (resp_conversation_id resp) as_bob w'
          = (Raise (HTTPException 403
                      "User is not a participant in this conversation"), w')).
Proof.
  assert (H2 : In alice (users (db both_online))) by (left; reflexivity).
  assert (H4 : In bob (users (db both_online)))
    by (right; left; reflexivity).
  split; [exact tables_are_consistent|].
  split; [exact H2|]. split; [reflexivity|].
  split; [exact H4|]. split; [reflexivity|]. split; [reflexivity|].
  exact (@sent_message_is_read_back_by_its_two_parties_only peers_accept hello
           as_alice as_bob alice bob bob both_online tables_are_consistent
           H2 eq_refl H4 eq_refl H4 eq_refl).
Defined.

Lemma sync_user_is_a_repeatable_upsert_witness :
  tables_consistent (db boot)
  /\ match sync_user peers_accept text_of carol_profile boot with
     | (Ok r, w1) =>
         ur_username r = uc_username carol_profile
         /\ get_user (ur_id r) w1 = (Ok r, w1)
         /\ sync_user peers_accept text_of carol_profile w1 = (Ok r, w1)
     | (Raise e, w1) =>
         (exists detail, e = HTTPException 400 detail) /\ w1 = boot
     end.
Proof.
  split; [exact tables_are_consistent|].
  exact (@sync_user_is_a_repeatable_upsert peers_accept text_of carol_profile
           boot tables_are_consistent).
Defined.

Lemma endpoints_fail_with_their_own_status_codes_witness :
  register_user peers_accept false text_of carol_profile boot
  = (Raise (HTTPException 403 "User registration disabled. Use Auth Service."),
     boot)
  /\ send_message peers_accept to_stranger as_alice boot
     = (Raise (HTTPException 404 "Receiver not found"), boot)
  /\ ((false = false
       /\ HTTPException 403 "User registration disabled. Use Auth Service."
          = HTTPException 403 "User registration disabled. Use Auth Service.")
      \/ (false = true
          /\ exists detail,
              HTTPException 403 "User registration disabled. Use Auth Service."
              = HTTPException 400 detail))
  /\ (HTTPException 404 "Receiver not found"
      = HTTPException 404 "Receiver not found"
      \/ HTTPException 404 "Receiver not found"
         = HTTPException 500 "Failed to send message").
Proof.
  assert (H1 : register_user peers_accept false text_of carol_profile boot
               = (Raise (HTTPException 403
                           "User registration disabled. Use Auth Service."),
                  boot))
    by reflexivity.
  assert (H2 : send_message peers_accept to_stranger as_alice boot
               = (Raise (HTTPException 404 "Receiver not found"), boot))
    by reflexivity.
  split; [exact H1|]. split; [exact H2|].
  pose proof (@endpoints_fail_with_their_own_status_codes peers_accept false
                text_of boot) as (K1 & _ & K3 & _).
  split; [exact (K3 _ _ _ H1) | exact (K1 _ _ _ _ H2)].
Defined.

Lemma socket_endpoint_lets_in_authenticated_callers_only_witness :
  (exists served w',
     websocket_endpoint peers_accept int_truthy Z.eqb decodes_to_alice
       service_down control_taken true (Socket 4) 9 (Some "token"%string)
       greeted_then_left both_online
     = (Ok served, w')
     /\ (session served = Rejected ->
         w' = both_online
         /\ Forall (fun call => exists reason, call = Close 1008 reason)
                   (handshake served))
     /\ (session served <> Rejected ->
         handshake served = [Accept]
         /\ exists t c,
             Some "token"%string = Some t /\ t <> ""%string
             /\ token_user_id int_truthy decodes_to_alice service_down t
                = Some (Some c)
             /\ int_truthy c = true
             /\ Z.eqb c 9 = true))
  /\ (exists served w',
        websocket_endpoint peers_accept int_truthy Z.eqb decodes_to_alice
          service_down control_taken true (Socket 4) 7 (Some "token"%string)
          greeted_then_left both_online
        = (Ok served, w')
        /\ (session served = Rejected ->
            w' = both_online
            /\ Forall (fun call => exists reason, call = Close 1008 reason)
                      (handshake served))
        /\ (session served <> Rejected ->
            handshake served = [Accept]
            /\ exists t c,
                Some "token"%string = Some t /\ t <> ""%string
                /\ token_user_id int_truthy decodes_to_alice service_down t
                   = Some (Some c)
                /\ int_truthy c = true
                /\ Z.eqb c 7 = true)).
Proof.
  split.
  - exact (@socket_endpoint_lets_in_authenticated_callers_only peers_accept Z
             int_truthy Z.eqb decodes_to_alice service_down control_taken true
             (Socket 4) 9 (Some "token"%string) greeted_then_left both_online).
  - exact (@socket_endpoint_lets_in_authenticated_callers_only peers_accept Z
             int_truthy Z.eqb decodes_to_alice service_down control_taken true
             (Socket 4) 7 (Some "token"%string) greeted_then_left both_online).
Defined.

Lemma socket_session_registers_then_deregisters_witness :
  snd (handshake_of int_truthy Z.eqb decodes_to_alice service_down
         control_taken true 7 (Some "token"%string)) = true
  /\ ~ In (Socket 4) (handles_of 7 (active_connections both_online))
  /\ PyDict.get 7%Z (active_connections both_online) <> Some []
  /\ ~ In (Socket 4) (refused (trace both_online))
  /\ exists served w' evs,
      websocket_endpoint roster_refused int_truthy Z.eqb decodes_to_alice
        service_down control_taken true (Socket 4) 7 (Some "token"%string)
        greeted_then_left both_online
      = (Ok served, w')
      /\ trace w' = trace both_online ++ evs
      /\ db w' = db both_online
      /\ session served <> Rejected
      /\ (In (EvSendText (Socket 4) (connection_established_message 7) false)
             evs ->
          session served = Finished)
      /\ (~ In (Socket 4) (refused evs) ->
          receive_loop greeted_then_left = true ->
          session served = Finished)
      /\ (In (EvSendText (Socket 4) (connection_established_message 7) true)
             evs ->
          In (Socket 4) (refused evs) ->
          session served = Stuck)
      /\ (session served = Finished ->
          active_connections w' = active_connections both_online
          /\ ~ In (Socket 4) (handles_of 7 (active_connections w')))
      /\ (session served = Listening ->
          receive_loop greeted_then_left = false
          /\ In (Socket 4) (handles_of 7 (active_connections w'))
          /\ is_user_online 7 w' = (Ok true, w')
          /\ In 7%Z (PyDict.keys (active_connections w'))
          /\ exists before,
              evs
              = before
                ++ [EvSendText (Socket 4)
                      (connection_established_message 7) true;
                    EvSendText (Socket 4)
                      (online_users_message
                         (PyDict.keys (active_connections w'))) true])
      /\ (session served = Stuck ->
          In (Socket 4) (refused evs)
          /\ In (Socket 4) (handles_of 7 (active_connections w'))
          /\ is_user_online 7 w' = (Ok true, w')).
Proof.
  assert (H1 : ~ In (Socket 4) (handles_of 7 (active_connections both_online)))
    by (simpl; intros [H|[]]; discriminate).
  assert (H2 : PyDict.get 7%Z (active_connections both_online) <> Some [])
    by discriminate.
  assert (H3 : ~ In (Socket 4) (refused (trace both_online)))
    by (intros []).
  split; [reflexivity|]. split; [exact H1|]. split; [exact H2|].
  split; [exact H3|].
  exact (@socket_session_registers_then_deregisters roster_refused Z
           int_truthy Z.eqb decodes_to_alice service_down control_taken true
           (Socket 4) 7 (Some "token"%string) greeted_then_left both_online
           eq_refl H1 H2 H3).
Defined.

Lemma conversation_list_is_the_callers_own_newest_first_witness :
  tables_consistent (db after_hello)
  /\ In bob (users (db after_hello))
  /\ user_username bob = auth_username as_bob
  /\ (forall c, In c (conversations (db after_hello)) ->
                user_exists (participant_1_id c) (db after_hello) = true
                /\ user_exists (participant_2_id c) (db after_hello) = true)
  /\ exists responses listed,
      list_conversations peers_accept as_bob after_hello
      = (Ok responses, after_hello)
      /\ Permutation listed
           (filter (fun c => (participant_1_id c =? user_id bob)%Z
                             || (participant_2_id c =? user_id bob)%Z)
                   (conversations (db after_hello)))
      /\ Sorted (fun c1 c2 => String.leb (conv_created_at c2)
                                         (conv_created_at c1) = true)
                listed
      /\ Forall2 (describes (db after_hello)) listed responses.
Proof.
  assert (H2 : In bob (users (db after_hello)))
    by (right; left; reflexivity).
  assert (H4 : forall c, In c (conversations (db after_hello)) ->
                 user_exists (participant_1_id c) (db after_hello) = true
                 /\ user_exists (participant_2_id c) (db after_hello) = true).
  { intros c [<-|[]]. split; reflexivity. }
  split; [exact tables_after_hello_are_consistent|].
  split; [exact H2|]. split; [reflexivity|]. split; [exact H4|].
  exact (@conversation_list_is_the_callers_own_newest_first peers_accept
           as_bob bob after_hello tables_after_hello_are_consistent H2
           eq_refl H4).
Defined.

Lemma username_lookup_agrees_with_id_lookup_witness :
  tables_consistent (db boot)
  /\ match Router.get_user_by_username "bob" boot with
     | (Ok r, w1) =>
         w1 = boot
         /\ ur_username r = "bob"%string
         /\ get_user (ur_id r) boot = (Ok r, boot)
         /\ exists u, In u (users (db boot)) /\ r = user_model_validate u
     | (Raise e, w1) =>
         w1 = boot
         /\ e = HTTPException 404 "User not found"
         /\ forall u, In u (users (db boot)) ->
                      user_username u <> "bob"%string
     end.
Proof.
  split; [exact tables_are_consistent|].
  exact (@username_lookup_agrees_with_id_lookup "bob" boot
           tables_are_consistent).
Defined.

End Runs.
